(** * SecureHire backend: credential and trust-badge lifecycle

    A shallow embedding of the route handlers, middleware and services of
    the SecureHire backend that decide how credentials are revoked and
    shared, how recruiter trust badges are issued and read, how recruiter
    role state is derived, and how seekers are onboarded.

    Documents are records, collections are lists in insertion order (the
    order [findOne] observes), handlers are computations in a state and
    exception monad over the document store, and every awaited call to the
    store or to an external service may reject. *)

From Stdlib Require Import String Ascii List Bool Arith Lia.
Import ListNotations.
Local Open Scope string_scope.
Local Open Scope list_scope.

(* ===================================================================== *)
(** ** JavaScript string helpers used by the handlers *)
(* ===================================================================== *)

Module JS.

(** Characters removed by [String.prototype.trim], restricted to the
    ASCII range (tab, line feed, vertical tab, form feed, carriage
    return, space). *)
Definition isWhite (c : ascii) : bool :=
  let n := nat_of_ascii c in
  ((n =? 32) || ((9 <=? n) && (n <=? 13)))%nat.

Fixpoint trimStart (s : string) : string :=
  match s with
  | EmptyString => EmptyString
  | String c t => if isWhite c then trimStart t else s
  end.

Fixpoint revAppend (s acc : string) : string :=
  match s with
  | EmptyString => acc
  | String c t => revAppend t (String c acc)
  end.

Definition reverse (s : string) : string := revAppend s EmptyString.

Definition trim (s : string) : string :=
  reverse (trimStart (reverse (trimStart s))).

(** [toLowerCase] on the ASCII letters. *)
Definition lowerChar (c : ascii) : ascii :=
  let n := nat_of_ascii c in
  if ((65 <=? n) && (n <=? 90))%nat then ascii_of_nat (n + 32) else c.

Fixpoint toLowerCase (s : string) : string :=
  match s with
  | EmptyString => EmptyString
  | String c t => String (lowerChar c) (toLowerCase t)
  end.

Definition startsWith (s pre : string) : bool := String.prefix pre s.

(** The character class [[a-fA-F0-9]]. *)
Definition isHex (c : ascii) : bool :=
  let n := nat_of_ascii c in
  (((48 <=? n) && (n <=? 57)) || ((65 <=? n) && (n <=? 70))
   || ((97 <=? n) && (n <=? 102)))%nat.

(** The first [n] characters of [s] when all of them are hex digits. *)
Fixpoint takeHex (n : nat) (s : string) : option string :=
  match n with
  | 0 => Some EmptyString
  | S k =>
      match s with
      | EmptyString => None
      | String c t =>
          if isHex c
          then match takeHex k t with
               | Some r => Some (String c r)
               | None => None
               end
          else None
      end
  end.

(** [/^0x[a-fA-F0-9]{40}$/.test(w)] *)
Definition isWalletAddress (w : string) : bool :=
  match w with
  | String "0" (String "x" t) =>
      match takeHex 40 t with
      | Some _ => (String.length t =? 40)%nat
      | None => false
      end
  | _ => false
  end.

(** [s.match(/0x[a-fA-F0-9]{40}/)]: the leftmost occurrence, if any. *)
Fixpoint matchWalletAddress (s : string) : option string :=
  match s with
  | EmptyString => None
  | String c t =>
      let here :=
        match s with
        | String "0" (String "x" r) =>
            match takeHex 40 r with
            | Some h => Some (String "0" (String "x" h))
            | None => None
            end
        | _ => None
        end in
      match here with
      | Some m => Some m
      | None => matchWalletAddress t
      end
  end.

(** Truthiness of an optional string: [undefined], [null] and the empty
    string are falsy. *)
Definition truthy (s : option string) : bool :=
  match s with
  | Some v => negb (v =? "")
  | None => false
  end.

(** [a || b] on optional strings. *)
Definition orElse (a : option string) (b : string) : string :=
  match a with
  | Some v => if v =? "" then b else v
  | None => b
  end.

(** [arr.includes(v)] on arrays of strings. *)
Definition includes (arr : list string) (v : string) : bool :=
  existsb (String.eqb v) arr.

End JS.

(* ===================================================================== *)
(** ** Collection operations of the document store *)
(* ===================================================================== *)

Module Mongo.

Section Collection.
Context {A : Type}.

(** [Model.findOne(filter)]: the first matching document. *)
Definition findOne (p : A -> bool) (coll : list A) : option A :=
  List.find p coll.

(** [Model.find(filter)] *)
Definition findMany (p : A -> bool) (coll : list A) : list A :=
  List.filter p coll.

(** [Model.updateOne(filter, update)]: only the first match changes. *)
Fixpoint updateOne (p : A -> bool) (f : A -> A) (coll : list A) : list A :=
  match coll with
  | [] => []
  | x :: rest => if p x then f x :: rest else x :: updateOne p f rest
  end.

(** [Model.updateMany(filter, update)] *)
Definition updateMany (p : A -> bool) (f : A -> A) (coll : list A) : list A :=
  List.map (fun x => if p x then f x else x) coll.

(** [Model.deleteMany(filter)] *)
Definition deleteMany (p : A -> bool) (coll : list A) : list A :=
  List.filter (fun x => negb (p x)) coll.

(** [updateOne] with [upsert: true]: update the first match, or insert
    the document built from the filter and the update. *)
Definition upsertOne (p : A -> bool) (f : A -> A) (fresh : A)
           (coll : list A) : list A :=
  if existsb p coll then updateOne p f coll else coll ++ [fresh].

End Collection.

(** [$pull: { field: v }] on an array of strings. *)
Definition pull (v : string) (arr : list string) : list string :=
  List.filter (fun x => negb (x =? v)) arr.

End Mongo.

(* ===================================================================== *)
(** ** Documents *)
(* ===================================================================== *)

(** JSON values: signed credential documents and other [Mixed] fields. *)
#[warnings="-register-all"]
Inductive Json : Type :=
| JNull
| JBool (b : bool)
| JNum (n : nat)
| JStr (s : string)
| JArr (items : list Json)
| JObj (fields : list (string * Json)).

(** [obj?.key] on a JSON value. *)
Definition jsonField (key : string) (j : Json) : option Json :=
  match j with
  | JObj fields =>
      match List.find (fun kv => String.eqb (fst kv) key) fields with
      | Some kv => Some (snd kv)
      | None => None
      end
  | _ => None
  end.

(** JavaScript truthiness of an optional JSON value. *)
Definition jsonTruthy (j : option Json) : bool :=
  match j with
  | None => false
  | Some JNull => false
  | Some (JBool b) => b
  | Some (JNum n) => negb (Nat.eqb n 0)
  | Some (JStr s) => negb (String.eqb s "")
  | Some (JArr _) => true
  | Some (JObj _) => true
  end.

(** [RoleState] of models/User.ts and middleware/rbac.ts. *)
Inductive RoleState : Type := none | pending | active | rejected.

Inductive Role : Type := SeekerRole | RecruiterRole | IssuerRole.

Definition RoleState_eqb (a b : RoleState) : bool :=
  match a, b with
  | none, none | pending, pending | active, active | rejected, rejected => true
  | _, _ => false
  end.

(** Result of a ledger transaction as the chain service returns it. *)
Record Tx : Type := mkTx { txHash : string; network : string }.

(** models/Credential.ts.  [revokedAt] and [revokeReason], which the
    revocation route puts in its [$set], are not paths of
    [CredentialSchema] and are not kept by the store. *)
Module Credential.
Inductive Status : Type := Active | Revoked | Expired.

Definition isActive (s : Status) : bool :=
  match s with Active => true | _ => false end.

Record doc : Type := mk {
  credentialId : string;
  subjectDid : string;
  issuerDid : string;
  title : option string;
  type : list string;
  issuanceDate : option string;
  status : Status;
  onChainTxHash : option string;
  revocationTxHash : option string;
  vcRaw : option Json;
  network : option string
}.

Definition set_status (s : Status) (c : doc) : doc :=
  mk (credentialId c) (subjectDid c) (issuerDid c) (title c) (type c)
     (issuanceDate c) s (onChainTxHash c) (revocationTxHash c) (vcRaw c)
     (network c).

Definition set_revocationTxHash (h : string) (c : doc) : doc :=
  mk (credentialId c) (subjectDid c) (issuerDid c) (title c) (type c)
     (issuanceDate c) (status c) (onChainTxHash c) (Some h) (vcRaw c)
     (network c).
End Credential.

(** models/Recruiter.ts.  The sources also hold an older copy of this
    schema, whose badge has neither [status] nor the revocation metadata;
    the issuer routes write those paths and the role-state middleware
    reads [badge.status], so the copy that declares them is the one
    followed here. *)
Module Recruiter.
Inductive Kyc : Type := KycNone | KycPending | KycApproved | KycRejected.

Record Badge : Type := mkBadge {
  verified : bool;
  status : option string;
  level : option nat;
  lastCheckedAt : option nat;
  txHash : option string;
  network : option string;
  credentialId : option string;
  revokedAt : option nat;
  revokeReason : option string;
  revocationTxHash : option string
}.

(** What a dotted [$set] finds when the document has no [badge] yet. *)
Definition emptyBadge : Badge :=
  mkBadge false None None None None None None None None None.

Record doc : Type := mk {
  _id : string;
  did : string;
  orgLegalName : option string;
  contactEmail : option string;
  website : option string;
  onboarded : bool;
  kycStatus : Kyc;
  badge : option Badge
}.

Definition set_badge (b : option Badge) (r : doc) : doc :=
  mk (_id r) (did r) (orgLegalName r) (contactEmail r) (website r)
     (onboarded r) (kycStatus r) b.

Definition set_kycStatus (k : Kyc) (r : doc) : doc :=
  mk (_id r) (did r) (orgLegalName r) (contactEmail r) (website r)
     (onboarded r) k (badge r).
End Recruiter.

(** models/Seeker.ts *)
Module Seeker.
(** One denormalized summary in [vcs] (a [Mixed] array). *)
Record VcEntry : Type := mkVc {
  id : option string;
  section : option string;
  title : option string;
  issuerDid : option string;
  status : option string;
  issuedAt : option string;
  credentialId : option string
}.

Definition set_vc_status (s : string) (v : VcEntry) : VcEntry :=
  mkVc (id v) (section v) (title v) (issuerDid v) (Some s) (issuedAt v)
       (credentialId v).

Record Profile : Type := mkProfile {
  careerHistory : list Json;
  skills : list string;
  languages : list string;
  resumeInfo : option Json
}.

Record doc : Type := mk {
  _id : string;
  did : option string;
  email : option string;
  name : option string;
  onboarded : bool;
  homeLocation : option string;
  classification : option string;
  subClass : option string;
  visibility : option string;
  vcOnly : option bool;
  consentShareVC : option bool;
  antiPhishAck : option bool;
  profile : Profile;
  vcs : list VcEntry;
  defaultSharedVcIds : list string
}.

Definition set_did (d : option string) (s : doc) : doc :=
  mk (_id s) d (email s) (name s) (onboarded s) (homeLocation s)
     (classification s) (subClass s) (visibility s) (vcOnly s)
     (consentShareVC s) (antiPhishAck s) (profile s) (vcs s)
     (defaultSharedVcIds s).

Definition set_email (e : option string) (s : doc) : doc :=
  mk (_id s) (did s) e (name s) (onboarded s) (homeLocation s)
     (classification s) (subClass s) (visibility s) (vcOnly s)
     (consentShareVC s) (antiPhishAck s) (profile s) (vcs s)
     (defaultSharedVcIds s).

Definition set_vcs_and_defaults (v : list VcEntry) (d : list string)
           (s : doc) : doc :=
  mk (_id s) (did s) (email s) (name s) (onboarded s) (homeLocation s)
     (classification s) (subClass s) (visibility s) (vcOnly s)
     (consentShareVC s) (antiPhishAck s) (profile s) v d.
End Seeker.

(** models/Application.ts *)
Module Application.
Inductive Status : Type := Submitted | Withdrawn | Shortlisted | Rejected | Hired.

Definition isSubmitted (s : Status) : bool :=
  match s with Submitted => true | _ => false end.

Record SeekerProfile : Type := mkSnapshot {
  name : option string;
  email : option string;
  homeLocation : option string;
  skills : list string;
  languages : list string;
  resumeInfo : option Json
}.

Record doc : Type := mk {
  _id : string;
  jobId : string;
  seekerDid : string;
  recruiterDid : string;
  sharedVcIds : list string;
  status : Status;
  seekerProfile : option SeekerProfile
}.

Definition set_sharedVcIds (ids : list string) (a : doc) : doc :=
  mk (_id a) (jobId a) (seekerDid a) (recruiterDid a) ids (status a)
     (seekerProfile a).

Definition set_seekerProfile (p : SeekerProfile) (a : doc) : doc :=
  mk (_id a) (jobId a) (seekerDid a) (recruiterDid a) (sharedVcIds a)
     (status a) (Some p).
End Application.

(** models/Proofs.ts: one stored shared VC per (applicationId, vcId). *)
Module SharedProof.
Record doc : Type := mk {
  applicationId : string;
  jobId : option string;
  seekerDid : string;
  recruiterDid : string;
  vcId : string;
  derivedProof : option Json;
  nonce : option string;
  revealedDocument : option Json
}.
End SharedProof.

(** models/Jobs.ts, the fields the application routes read. *)
Module Job.
Record doc : Type := mk {
  _id : string;
  title : string;
  company : string;
  location : string;
  didOwner : option string;
  verified : option bool;
  trustStatus : option string
}.
End Job.

(** models/Issuer.ts, the fields the issuer routes read. *)
Module Issuer.
Record doc : Type := mk {
  did : string;
  email : option string;
  orgName : option string;
  onboarded : bool
}.
End Issuer.

(** models/User.ts *)
Module User.
Record Roles : Type := mkRoles {
  seeker : RoleState;
  recruiter : RoleState;
  issuer : RoleState
}.

Record doc : Type := mk {
  privyUserId : string;
  email : option string;
  did : option string;
  wallet_address : option string;
  roles : Roles
}.

Definition roleOf (r : Role) (u : doc) : RoleState :=
  match r with
  | SeekerRole => seeker (roles u)
  | RecruiterRole => recruiter (roles u)
  | IssuerRole => issuer (roles u)
  end.
End User.

(* ===================================================================== *)
(** ** The document store, the environment and the handler monad *)
(* ===================================================================== *)

Inductive Collection : Type :=
| Credentials | Recruiters | Seekers | Issuers | Applications
| SharedProofs | Jobs | Users.

(** What a handler does to the world outside its own variables, in the
    order it does it: writes that reached a collection (with the call
    site that made them) and calls made to the ledger or to the signing
    service. *)
Inductive Effect : Type :=
| Wrote (site : string) (c : Collection)
| LedgerIssueBadge (did : string) (level : nat)
| LedgerRevokeBadge (did : string)
| LedgerRegisterDid (did : string)
| SigningRequest (subjectDid : string).

Record Store : Type := mkStore {
  credentials : list Credential.doc;
  recruiters : list Recruiter.doc;
  seekers : list Seeker.doc;
  issuers : list Issuer.doc;
  applications : list Application.doc;
  sharedProofs : list SharedProof.doc;
  jobs : list Job.doc;
  users : list User.doc;
  trace : list Effect
}.

Definition upd_credentials (f : list Credential.doc -> list Credential.doc)
           (st : Store) : Store :=
  mkStore (f (credentials st)) (recruiters st) (seekers st) (issuers st)
          (applications st) (sharedProofs st) (jobs st) (users st) (trace st).

Definition upd_recruiters (f : list Recruiter.doc -> list Recruiter.doc)
           (st : Store) : Store :=
  mkStore (credentials st) (f (recruiters st)) (seekers st) (issuers st)
          (applications st) (sharedProofs st) (jobs st) (users st) (trace st).

Definition upd_seekers (f : list Seeker.doc -> list Seeker.doc)
           (st : Store) : Store :=
  mkStore (credentials st) (recruiters st) (f (seekers st)) (issuers st)
          (applications st) (sharedProofs st) (jobs st) (users st) (trace st).

Definition upd_applications (f : list Application.doc -> list Application.doc)
           (st : Store) : Store :=
  mkStore (credentials st) (recruiters st) (seekers st) (issuers st)
          (f (applications st)) (sharedProofs st) (jobs st) (users st)
          (trace st).

Definition upd_sharedProofs (f : list SharedProof.doc -> list SharedProof.doc)
           (st : Store) : Store :=
  mkStore (credentials st) (recruiters st) (seekers st) (issuers st)
          (applications st) (f (sharedProofs st)) (jobs st) (users st)
          (trace st).

Definition upd_users (f : list User.doc -> list User.doc)
           (st : Store) : Store :=
  mkStore (credentials st) (recruiters st) (seekers st) (issuers st)
          (applications st) (sharedProofs st) (jobs st) (f (users st))
          (trace st).

Definition record (e : Effect) (st : Store) : Store :=
  mkStore (credentials st) (recruiters st) (seekers st) (issuers st)
          (applications st) (sharedProofs st) (jobs st) (users st)
          (trace st ++ [e]).

(** Payload and result of [issueSimpleVc] (services/vc.service.ts). *)
Record IssueVcPayload : Type := mkPayload {
  p_subjectDid : string;
  p_issuerDid : string;
  p_section : string;
  p_title : string;
  p_credentialType : string;
  p_claims : Json
}.

Record IssueVcResult : Type := mkIssued {
  vcId : string;
  vc_type : list string;
  vc_issuanceDate : string;
  vc : Json
}.

(** Everything a request takes from outside the store.  [None] stands for
    a call that rejects.

    - [now], [newObjectId]: the clock, and the [_id] the store gives the
      next created document;
    - [rejects]: which awaited store calls reject, named by call site;
    - [TRUST_BADGE_REGISTRY_ADDR], [POLYGON_RPC], [SERVER_PK],
      [DID_REGISTRY_ADDRESS]: whether the variable is set in [process.env];
    - [contract_issueBadge], [contract_getBadge]: the registry contract as
      services/chain.service.ts calls it: the receipt hash of
      [issueBadge(did, level)] once mined, and the pair (level, status) of
      [getBadge(did)];
    - [revokeRecruiterBadgeOnChain]: routes/issuer.ts imports this function
      from services/chain.service, whose sources do not contain it; its
      answer (transaction hash and network) is taken as it comes;
    - [issueSimpleVc]: services/vc.service.ts builds the unsigned document
      and exchanges it with the signing service over HTTP; the answer of
      that exchange (the signed document, its id, type and issuance date)
      is taken as it comes, and [None] covers a missing issuer or key and
      a failed exchange;
    - [registerDidOnChain]: services/did-registry.service, an external
      registration whose failure the callers swallow;
    - [JSON_parse]: [JSON.parse], [None] on a syntax error. *)
Record Env : Type := mkEnv {
  now : nat;
  newObjectId : string;
  rejects : string -> bool;
  TRUST_BADGE_REGISTRY_ADDR : bool;
  POLYGON_RPC : bool;
  SERVER_PK : bool;
  DID_REGISTRY_ADDRESS : bool;
  contract_issueBadge : string -> nat -> option string;
  contract_getBadge : string -> option (nat * nat);
  revokeRecruiterBadgeOnChain : string -> option Tx;
  issueSimpleVc : IssueVcPayload -> option IssueVcResult;
  registerDidOnChain : string -> string -> option string;
  JSON_parse : string -> option Json
}.

(** What a [catch] block can tell apart. *)
Inductive Err : Type :=
| DuplicateKey (keyPattern : string)
| ValidationError (path : string)
| JsError (message : string).

Inductive Outcome (A : Type) : Type :=
| Ok (a : A)
| Thrown (e : Err).
Arguments Ok {A} a.
Arguments Thrown {A} e.

(** Handlers: state over the store, with exceptions that keep the writes
    already made. *)
Definition M (A : Type) : Type := Store -> Outcome A * Store.

Definition ret {A : Type} (a : A) : M A := fun st => (Ok a, st).

Definition bind {A B : Type} (m : M A) (k : A -> M B) : M B :=
  fun st =>
    match m st with
    | (Ok a, st') => k a st'
    | (Thrown e, st') => (Thrown e, st')
    end.

Definition throw {A : Type} (e : Err) : M A := fun st => (Thrown e, st).

Definition tryCatch {A : Type} (m : M A) (handler : Err -> M A) : M A :=
  fun st =>
    match m st with
    | (Ok a, st') => (Ok a, st')
    | (Thrown e, st') => handler e st'
    end.

Declare Scope handler_scope.
Delimit Scope handler_scope with handler.
Notation "x <- m ;; k" := (bind m (fun x => k))
  (at level 61, m at next level, right associativity) : handler_scope.
Notation "m ;;; k" := (bind m (fun _ => k))
  (at level 61, right associativity) : handler_scope.
Local Open Scope handler_scope.

(** An awaited store call: it rejects when the environment says so. *)
Definition await {A : Type} (env : Env) (site : string) (m : M A) : M A :=
  fun st =>
    if rejects env site
    then (Thrown (JsError "store call rejected"), st)
    else m st.

(** An awaited read of the store. *)
Definition query {A : Type} (env : Env) (site : string) (f : Store -> A) : M A :=
  await env site (fun st => (Ok (f st), st)).

(** An awaited write to a collection. *)
Definition write (env : Env) (site : string) (c : Collection)
           (f : Store -> Store) : M unit :=
  await env site (fun st => (Ok tt, record (Wrote site c) (f st))).

(** An awaited write that the collection's unique indexes or validators
    may refuse; a refused write changes nothing. *)
Definition writeChecked (env : Env) (site : string) (c : Collection)
           (f : Store -> Outcome Store) : M unit :=
  await env site (fun st =>
    match f st with
    | Ok st' => (Ok tt, record (Wrote site c) st')
    | Thrown e => (Thrown e, st)
    end).

(** A call to an external service whose answer the environment holds. *)
Definition external {A : Type} (e : Effect) (answer : option A)
           (failure : string) : M A :=
  fun st =>
    match answer with
    | Some a => (Ok a, record e st)
    | None => (Thrown (JsError failure), record e st)
    end.

(** HTTP responses: status code and JSON body. *)
Record ProofView : Type := mkProofView {
  pv_vcId : string;
  pv_revealedDocument : option Json;
  pv_isVcShared : bool
}.

Inductive Body : Type :=
| ErrorBody (error : string)
| RevokedBody (reason : string) (meta : option Credential.doc)
              (badgeRevocation : option Tx)
| ApprovedBody (credentialId : string) (txHash : string)
| AlreadyAppliedBody (application : Application.doc)
| CreatedBody (application : Application.doc) (sharedVcsAttached : nat)
| ApplicationBody (application : Application.doc)
                  (trustStatus : option string) (verified : option bool)
                  (proofs : option (list ProofView))
| SharedVcsBody (sharedVcIds : list string)
| SeekerBody (seeker : Seeker.doc).

Record Response : Type := mkResponse { code : nat; body : Body }.

Definition respond (c : nat) (b : Body) : M Response := ret (mkResponse c b).

(** The verified session payload (middleware/requireSession.ts). *)
Record Session : Type := mkSession {
  s_did : option string;
  s_email : option string;
  s_wallet_address : option string;
  s_privyUserId : option string
}.

Definition lift {A : Type} (o : Outcome A) : M A := fun st => (o, st).

(* ===================================================================== *)
(** ** Session identity (auth/identity.ts) and the capability gate *)
(* ===================================================================== *)

Definition someIfNonEmpty (s : string) : option string :=
  if String.eqb s "" then None else Some s.

Definition optString (o : option string) : string :=
  match o with Some s => s | None => "" end.

(** [mustGetSession]: trimmed did, trimmed lower-cased email, trimmed
    wallet address; throws when neither did nor email is left. *)
Definition mustGetSession (session : option Session) : Outcome Session :=
  let did := JS.trim (optString (match session with Some s => s_did s | None => None end)) in
  let email := JS.toLowerCase (JS.trim (optString (match session with Some s => s_email s | None => None end))) in
  let wallet := JS.trim (optString (match session with Some s => s_wallet_address s | None => None end)) in
  if String.eqb did "" && String.eqb email ""
  then Thrown (JsError "Unauthenticated")
  else Ok (mkSession (someIfNonEmpty did) (someIfNonEmpty email)
                     (someIfNonEmpty wallet)
                     (match session with Some s => s_privyUserId s | None => None end)).

(** [mustGetDid] of auth/identity.ts. *)
Definition mustGetDid (session : option Session) : Outcome string :=
  match mustGetSession session with
  | Thrown e => Thrown e
  | Ok s =>
      match s_did s with
      | Some d => Ok d
      | None => Thrown (JsError "Missing DID in session")
      end
  end.

(** [requireRoleStateIn(role, allowed)] of middleware/rbac.ts: [Some] is
    the 403 it answers with, [None] is [next()]. *)
Definition requireRoleStateIn (role : Role) (allowed : list RoleState)
           (user : option User.doc) : option Response :=
  let current :=
    match user with
    | Some u => User.roleOf role u
    | None => none
    end in
  if negb (existsb (RoleState_eqb current) allowed)
  then Some (mkResponse 403 (ErrorBody "Forbidden"))
  else None.

Definition requireRoleActive (role : Role) (user : option User.doc)
  : option Response :=
  requireRoleStateIn role [active] user.

(* ===================================================================== *)
(** ** Role-state derivation (middleware/syncRecruiterRoleFromRecruiterDoc.ts) *)
(* ===================================================================== *)

(** [recruiter.badge?.status ?? "None"] *)
Definition badgeStatusOrNone (r : Recruiter.doc) : string :=
  match Recruiter.badge r with
  | Some b =>
      match Recruiter.status b with
      | Some s => s
      | None => "None"
      end
  | None => "None"
  end.

Definition computeRecruiterRoleState (recruiter : option Recruiter.doc)
  : RoleState :=
  match recruiter with
  | None => none
  | Some r =>
      if negb (Recruiter.onboarded r) then none
      else
        let status := badgeStatusOrNone r in
        if String.eqb status "Active" then active
        else if String.eqb status "Pending" then pending
        else if String.eqb status "Revoked" || String.eqb status "Rejected"
             then rejected
             else pending
  end.

Definition set_recruiter_role (rs : RoleState) (u : User.doc) : User.doc :=
  User.mk (User.privyUserId u) (User.email u) (User.did u)
          (User.wallet_address u)
          (User.mkRoles (User.seeker (User.roles u)) rs
                        (User.issuer (User.roles u))).

Definition set_seeker_role (rs : RoleState) (u : User.doc) : User.doc :=
  User.mk (User.privyUserId u) (User.email u) (User.did u)
          (User.wallet_address u)
          (User.mkRoles rs (User.recruiter (User.roles u))
                        (User.issuer (User.roles u))).

(** [user.save()]: the stored user with the same primary id takes the
    values of the in-memory document. *)
Definition saveUser (env : Env) (site : string) (u : User.doc) : M unit :=
  write env site Users
        (upd_users (Mongo.updateOne
                      (fun x => String.eqb (User.privyUserId x) (User.privyUserId u))
                      (fun _ => u))).

(** [req.session?.did?.trim()] and [req.session?.email?.trim().toLowerCase()] *)
Definition sessionDidTrimmed (session : option Session) : option string :=
  match session with
  | Some s => option_map JS.trim (s_did s)
  | None => None
  end.

Definition sessionEmailNormalised (session : option Session) : option string :=
  match session with
  | Some s => option_map (fun e => JS.toLowerCase (JS.trim e)) (s_email s)
  | None => None
  end.

(** The middleware itself: returns [req.user] as the next handler sees
    it.  A rejection is handed to [next(e)], which here is a thrown
    outcome. *)
Definition syncRecruiterRoleFromRecruiterDoc (env : Env)
           (session : option Session) (user : option User.doc)
  : M (option User.doc) :=
  match user with
  | None => ret None
  | Some user =>
      let did := sessionDidTrimmed session in
      let email := sessionEmailNormalised session in
      byDid <-
        (if JS.truthy did
         then query env "sync/Recruiter.findOne(did)"
                (fun st => Mongo.findOne
                             (fun r => String.eqb (Recruiter.did r) (optString did))
                             (recruiters st))
         else ret None) ;;
      recruiter <-
        (match byDid with
         | Some r => ret (Some r)
         | None =>
             if JS.truthy email
             then query env "sync/Recruiter.findOne(contactEmail)"
                    (fun st => Mongo.findOne
                                 (fun r => match Recruiter.contactEmail r with
                                           | Some e => String.eqb e (optString email)
                                           | None => false
                                           end)
                                 (recruiters st))
             else ret None
         end) ;;
      let desired := computeRecruiterRoleState recruiter in
      if negb (RoleState_eqb (User.recruiter (User.roles user)) desired)
      then
        let user' := set_recruiter_role desired user in
        saveUser env "sync/user.save" user' ;;;
        ret (Some user')
      else ret (Some user)
  end.

(* ===================================================================== *)
(** ** Ledger access (services/chain.service.ts, routes/jobs.ts) *)
(* ===================================================================== *)

Definition getRelayerSigner (env : Env) : Outcome unit :=
  if negb (POLYGON_RPC env) || negb (SERVER_PK env)
  then Thrown (JsError "Trust badge relayer env vars missing")
  else Ok tt.

Definition getTrustBadgeRegistryContract (env : Env) : Outcome unit :=
  if negb (TRUST_BADGE_REGISTRY_ADDR env)
  then Thrown (JsError "TRUST_BADGE_REGISTRY_ADDR not set")
  else getRelayerSigner env.

Definition issueRecruiterBadgeOnChain (env : Env) (did : string) (level : nat)
  : M Tx :=
  lift (getTrustBadgeRegistryContract env) ;;;
  external (LedgerIssueBadge did level)
           (option_map (fun h => mkTx h "polygon-amoy")
                       (contract_issueBadge env did level))
           "issueBadge rejected".

(** Never throws: every failure of the read is answered with ["None"]. *)
Definition getRecruiterTrustStatusFromChain (env : Env) (did : string)
  : string :=
  match getTrustBadgeRegistryContract env with
  | Thrown _ => "None"
  | Ok _ =>
      match contract_getBadge env did with
      | None => "None"
      | Some (level, status) =>
          if Nat.eqb level 0 then "None"
          else if Nat.eqb status 1 then "Active"
          else if Nat.eqb status 2 then "Suspended"
          else if Nat.eqb status 3 then "Revoked"
          else "None"
      end
  end.

(** [recruiter?.badge?.verified] *)
Definition badgeVerified (r : option Recruiter.doc) : bool :=
  match r with
  | Some r =>
      match Recruiter.badge r with
      | Some b => Recruiter.verified b
      | None => false
      end
  | None => false
  end.

Definition computeTrustStatusForJob (env : Env) (didOwner : string)
  : M string :=
  if TRUST_BADGE_REGISTRY_ADDR env
  then ret (getRecruiterTrustStatusFromChain env didOwner)
  else
    recruiter <- query env "jobs/Recruiter.findOne"
                   (fun st => Mongo.findOne
                                (fun r => String.eqb (Recruiter.did r) didOwner)
                                (recruiters st)) ;;
    if badgeVerified recruiter then ret "Active" else ret "None".

(* ===================================================================== *)
(** ** Issuer routes (routes/issuer.ts) *)
(* ===================================================================== *)

(** The filter of [Recruiter.findById(id)]. *)
Definition byRecruiterId (id : string) (r : Recruiter.doc) : bool :=
  String.eqb (Recruiter._id r) id.

(** The filter [{ credentialId, issuerDid }]. *)
Definition ownedCredential (credentialId issuerDid : string)
           (c : Credential.doc) : bool :=
  String.eqb (Credential.credentialId c) credentialId
  && String.eqb (Credential.issuerDid c) issuerDid.

(** [findOneAndUpdate(filter, update, { new: true })] on credentials. *)
Definition findOneAndUpdateCredential (env : Env) (site : string)
           (p : Credential.doc -> bool) (f : Credential.doc -> Credential.doc)
  : M (option Credential.doc) :=
  await env site (fun st =>
    (Ok (option_map f (Mongo.findOne p (credentials st))),
     record (Wrote site Credentials) (upd_credentials (Mongo.updateOne p f) st))).

(** The [$set] of the badge paths on revocation. *)
Definition revokedBadge (env : Env) (reason : string) (tx : Tx)
           (r : Recruiter.doc) : Recruiter.doc :=
  let b := match Recruiter.badge r with
           | Some b => b
           | None => Recruiter.emptyBadge
           end in
  Recruiter.set_badge
    (Some (Recruiter.mkBadge false (Some "Revoked") (Recruiter.level b)
             (Some (now env)) (Recruiter.txHash b) (Some (network tx))
             (Recruiter.credentialId b) (Some (now env)) (Some reason)
             (Some (txHash tx))))
    r.

(** [$set: { "vcs.$[v].status": "revoked" }, $pull: { defaultSharedVcIds }]
    with the array filter [v.credentialId == credentialId]. *)
Definition repairHolder (credentialId : string) (s : Seeker.doc) : Seeker.doc :=
  Seeker.set_vcs_and_defaults
    (List.map (fun v =>
                 match Seeker.credentialId v with
                 | Some c => if String.eqb c credentialId
                             then Seeker.set_vc_status "revoked" v
                             else v
                 | None => v
                 end)
              (Seeker.vcs s))
    (Mongo.pull credentialId (Seeker.defaultSharedVcIds s))
    s.

Definition seekerHasDid (did : string) (s : Seeker.doc) : bool :=
  match Seeker.did s with
  | Some d => String.eqb d did
  | None => false
  end.

(** POST /issuer/vc/revoke.  Of the [$set] of the first update, [status]
    is the path the records carry; [revokedAt] and [revokeReason], like
    the [updatedAt] that Mongoose maintains on every update, are not
    among the modelled paths. *)
Definition revokeVc (env : Env) (session : option Session)
           (user : option User.doc) (credentialId reason : option string)
  : M Response :=
  match requireRoleActive IssuerRole user with
  | Some forbidden => ret forbidden
  | None =>
      if negb (JS.truthy credentialId)
      then respond 400 (ErrorBody "credentialId required")
      else
        let credentialId := optString credentialId in
        issuerDid <- lift (mustGetDid session) ;;
        tryCatch
          (cred <- query env "revoke/Credential.findOne"
                     (fun st => Mongo.findOne (ownedCredential credentialId issuerDid)
                                              (credentials st)) ;;
           match cred with
           | None => respond 404 (ErrorBody "not found")
           | Some cred =>
               (* 1) Revoke off-chain VC *)
               updated <- findOneAndUpdateCredential env
                            "revoke/Credential.findOneAndUpdate"
                            (ownedCredential credentialId issuerDid)
                            (Credential.set_status Credential.Revoked) ;;
               (* 2) recruiter trust VC: revoke on-chain, update the badge *)
               let isRecruiterVc :=
                 JS.includes (Credential.type cred) "RecruiterCredential" in
               badgeRevocation <-
                 (if isRecruiterVc
                  then
                    recruiter <- query env "revoke/Recruiter.findOne"
                                   (fun st => Mongo.findOne
                                                (fun r => String.eqb (Recruiter.did r)
                                                                     (Credential.subjectDid cred))
                                                (recruiters st)) ;;
                    match recruiter with
                    | Some recruiter =>
                        tx <- external (LedgerRevokeBadge (Recruiter.did recruiter))
                                (revokeRecruiterBadgeOnChain env (Recruiter.did recruiter))
                                "revokeBadge rejected" ;;
                        write env "revoke/Recruiter.updateOne" Recruiters
                              (upd_recruiters
                                 (Mongo.updateOne
                                    (byRecruiterId (Recruiter._id recruiter))
                                    (revokedBadge env (JS.orElse reason "unspecified") tx))) ;;;
                        write env "revoke/Credential.updateOne" Credentials
                              (upd_credentials
                                 (Mongo.updateOne
                                    (ownedCredential credentialId issuerDid)
                                    (Credential.set_revocationTxHash (txHash tx)))) ;;;
                        ret (Some tx)
                    | None => ret None
                    end
                  else
                    (* Non-recruiter VC cleanup (job seeker flow) *)
                    write env "revoke/Seeker.updateOne" Seekers
                          (upd_seekers
                             (Mongo.updateOne
                                (seekerHasDid (Credential.subjectDid cred))
                                (repairHolder credentialId))) ;;;
                    write env "revoke/Application.updateMany" Applications
                          (upd_applications
                             (Mongo.updateMany
                                (fun a => JS.includes (Application.sharedVcIds a) credentialId)
                                (fun a => Application.set_sharedVcIds
                                            (Mongo.pull credentialId (Application.sharedVcIds a))
                                            a))) ;;;
                    write env "revoke/SharedProof.deleteMany" SharedProofs
                          (upd_sharedProofs
                             (Mongo.deleteMany
                                (fun p => String.eqb (SharedProof.vcId p) credentialId))) ;;;
                    ret None) ;;
               respond 200 (RevokedBody (JS.orElse reason "unspecified")
                                        updated badgeRevocation)
           end)
          (fun _ => respond 500 (ErrorBody "Failed to revoke VC"))
  end.

(** [Credential.create]: refused when a required path is empty or the
    unique index on [credentialId] already holds the id. *)
Definition createCredential (c : Credential.doc) (st : Store) : Outcome Store :=
  if String.eqb (Credential.credentialId c) ""
  then Thrown (ValidationError "credentialId")
  else if String.eqb (Credential.subjectDid c) ""
  then Thrown (ValidationError "subjectDid")
  else if String.eqb (Credential.issuerDid c) ""
  then Thrown (ValidationError "issuerDid")
  else if existsb (fun x => String.eqb (Credential.credentialId x)
                                       (Credential.credentialId c))
                  (credentials st)
  then Thrown (DuplicateKey "credentialId")
  else Ok (upd_credentials (fun l => l ++ [c]) st).

(** A template literal prints a missing value as "undefined". *)
Definition interpolate (o : option string) : string :=
  match o with Some s => s | None => "undefined" end.

Definition jsonOfOpt (o : option string) : Json :=
  match o with Some s => JStr s | None => JNull end.

(** The badge the approval route assigns to [recruiter.badge]. *)
Definition approvedBadge (env : Env) (tx : Tx) (vcId : string)
  : Recruiter.Badge :=
  Recruiter.mkBadge true (Some "Active") (Some 1) (Some (now env))
                    (Some (txHash tx)) (Some (network tx)) (Some vcId)
                    None None None.

(** POST /issuer/recruiters/:id/approve *)
Definition approveRecruiter (env : Env) (session : option Session)
           (user : option User.doc) (recruiterId : string) : M Response :=
  match requireRoleActive IssuerRole user with
  | Some forbidden => ret forbidden
  | None =>
      tryCatch
        (issuerDid <- lift (mustGetDid session) ;;
         issuer <- query env "approve/Issuer.findOne"
                     (fun st => Mongo.findOne
                                  (fun i => String.eqb (Issuer.did i) issuerDid)
                                  (issuers st)) ;;
         match issuer with
         | None => respond 400 (ErrorBody "Issuer not found")
         | Some _ =>
             recruiter <- query env "approve/Recruiter.findById"
                            (fun st => Mongo.findOne (byRecruiterId recruiterId)
                                                     (recruiters st)) ;;
             match recruiter with
             | None => respond 404 (ErrorBody "Recruiter not found")
             | Some recruiter =>
                 let subjectDid := Recruiter.did recruiter in
                 (* 1) Issue the on-chain trust badge *)
                 badge <- issueRecruiterBadgeOnChain env subjectDid 1 ;;
                 (* 2) Issue a real Verifiable Credential *)
                 issued <- external (SigningRequest subjectDid)
                             (issueSimpleVc env
                                (mkPayload subjectDid issuerDid "recruiter"
                                   (String.append "Recruiter Verification for "
                                      match Recruiter.orgLegalName recruiter with
                                      | Some n => n
                                      | None => "Unknown Org"
                                      end)
                                   "RecruiterCredential"
                                   (JObj [("section", JStr "recruiter");
                                          ("orgName", jsonOfOpt (Recruiter.orgLegalName recruiter));
                                          ("contactEmail", jsonOfOpt (Recruiter.contactEmail recruiter));
                                          ("website", jsonOfOpt (Recruiter.website recruiter))])))
                             "issueSimpleVc rejected" ;;
                 (* 3) Create Credential document *)
                 writeChecked env "approve/Credential.create" Credentials
                   (createCredential
                      (Credential.mk (vcId issued) subjectDid issuerDid
                         (Some (String.append "Recruiter Verification for "
                                  (interpolate (Recruiter.orgLegalName recruiter))))
                         (vc_type issued) (Some (vc_issuanceDate issued))
                         Credential.Active (Some (txHash badge)) None
                         (Some (vc issued)) (Some (network badge)))) ;;;
                 (* 4) Update recruiter badge meta *)
                 write env "approve/recruiter.save" Recruiters
                       (upd_recruiters
                          (Mongo.updateOne
                             (byRecruiterId (Recruiter._id recruiter))
                             (fun r => Recruiter.set_badge
                                         (Some (approvedBadge env badge (vcId issued)))
                                         (Recruiter.set_kycStatus Recruiter.KycApproved r)))) ;;;
                 respond 200 (ApprovedBody (vcId issued) (txHash badge))
             end
         end)
        (fun _ => respond 500 (ErrorBody "Failed to approve recruiter"))
  end.

(* ===================================================================== *)
(** ** Application routes (routes/applications.ts) *)
(* ===================================================================== *)

(** [s?.did] of an optional session. *)
Definition sessionDid (session : option Session) : option string :=
  match session with Some s => s_did s | None => None end.

(** The filter [{ jobId, seekerDid }] of the duplicate check. *)
Definition sameJobAndSeeker (jobId seekerDid : string) (a : Application.doc)
  : bool :=
  String.eqb (Application.jobId a) jobId
  && String.eqb (Application.seekerDid a) seekerDid.

Module ApplicationRoutes.

(** [deepCloneVcRawUntouched]: [null] and [undefined] pass through, a
    string is parsed (and a string that is not JSON throws), any other
    value is cloned unchanged. *)
Definition deepCloneVcRawUntouched (env : Env) (vcRaw : option Json)
  : Outcome (option Json) :=
  match vcRaw with
  | None => Ok None
  | Some JNull => Ok (Some JNull)
  | Some (JStr s) =>
      match JSON_parse env s with
      | Some j => Ok (Some j)
      | None => Thrown (JsError "Credential.vcRaw is a non-JSON string; cannot store as revealedDocument")
      end
  | Some j => Ok (Some j)
  end.

(** The [mustGetDid] local to routes/applications.ts. *)
Definition mustGetDid (session : option Session) : Outcome string :=
  let did := JS.trim (JS.orElse (match session with
                                 | Some s => s_did s
                                 | None => None
                                 end) "") in
  if String.eqb did "" then Thrown (JsError "Unauthenticated") else Ok did.

Definition isOwnerOfApplication (sessionDid : string) (app : Application.doc)
  : bool :=
  let did := JS.trim sessionDid in
  String.eqb did (Application.seekerDid app)
  || String.eqb did (Application.recruiterDid app).

Definition filterActiveSharedProofs (env : Env)
           (sharedProofs : list SharedProof.doc)
  : M (list SharedProof.doc) :=
  match sharedProofs with
  | [] => ret []
  | _ =>
      let vcIds :=
        nodup string_dec
              (List.filter (fun s => negb (String.eqb s ""))
                           (List.map SharedProof.vcId sharedProofs)) in
      match vcIds with
      | [] => ret []
      | _ =>
          activeCreds <- query env "filterActiveSharedProofs/Credential.find"
                           (fun st => Mongo.findMany
                                        (fun c => JS.includes vcIds (Credential.credentialId c)
                                                  && Credential.isActive (Credential.status c))
                                        (credentials st)) ;;
          let activeSet := List.map Credential.credentialId activeCreds in
          ret (List.filter (fun p => JS.includes activeSet (SharedProof.vcId p))
                           sharedProofs)
      end
  end.

(** The query [{ credentialId: { $in: ids }, subjectDid, status: "active" }]. *)
Definition shareable (ids : list string) (seekerDid : string)
           (c : Credential.doc) : bool :=
  JS.includes ids (Credential.credentialId c)
  && String.eqb (Credential.subjectDid c) seekerDid
  && Credential.isActive (Credential.status c).

(** [byId.get(id)] after [creds.forEach(c => byId.set(c.credentialId, c))]:
    a later credential with the same id replaces an earlier one. *)
Definition byIdGet (creds : list Credential.doc) (id : string)
  : option Credential.doc :=
  List.find (fun c => String.eqb (Credential.credentialId c) id) (List.rev creds).

Definition byIdHas (creds : list Credential.doc) (id : string) : bool :=
  match byIdGet creds id with Some _ => true | None => false end.

(** Building [bulkOps]: one upsert document per selected id; the first
    clone that throws aborts the whole map. *)
Fixpoint buildBulkOps (env : Env) (app : Application.doc)
         (creds : list Credential.doc) (validSelected : list string)
  : Outcome (list SharedProof.doc) :=
  match validSelected with
  | [] => Ok []
  | credId :: rest =>
      let vcRaw := match byIdGet creds credId with
                   | Some c => Credential.vcRaw c
                   | None => None
                   end in
      match deepCloneVcRawUntouched env vcRaw with
      | Thrown e => Thrown e
      | Ok vcObj =>
          match buildBulkOps env app creds rest with
          | Thrown e => Thrown e
          | Ok ops =>
              Ok (SharedProof.mk (Application._id app)
                                 (Some (Application.jobId app)) 
                                 (Application.seekerDid app)
                                 (Application.recruiterDid app)
                                 credId None None vcObj :: ops)
          end
      end
  end.

(** The document one upsert of [bulkOps] stores for a selected id. *)
Definition disclosureFor (env : Env) (app : Application.doc)
           (creds : list Credential.doc) (credId : string) : SharedProof.doc :=
  SharedProof.mk (Application._id app) (Some (Application.jobId app))
                 (Application.seekerDid app) (Application.recruiterDid app)
                 credId None None
                 (match deepCloneVcRawUntouched env
                          (match byIdGet creds credId with
                           | Some c => Credential.vcRaw c
                           | None => None
                           end)
                  with
                  | Ok vcObj => vcObj
                  | Thrown _ => None
                  end).

(** The filter [{ applicationId, vcId }]. *)
Definition proofKey (applicationId vcId : string) (p : SharedProof.doc) : bool :=
  String.eqb (SharedProof.applicationId p) applicationId
  && String.eqb (SharedProof.vcId p) vcId.

(** The filter of the upsert that stores [d]. *)
Definition sameProofKey (d : SharedProof.doc) : SharedProof.doc -> bool :=
  proofKey (SharedProof.applicationId d) (SharedProof.vcId d).

(** [SharedProof.bulkWrite(bulkOps)]: the upserts, in order.  Every
    modelled path is in the [$set], so an update replaces the stored
    document by the new one. *)
Definition bulkWrite (ops : list SharedProof.doc)
           (coll : list SharedProof.doc) : list SharedProof.doc :=
  List.fold_left
    (fun acc d => Mongo.upsertOne (sameProofKey d) (fun _ => d) d acc)
    ops coll.

Definition byAppId (id : string) (a : Application.doc) : bool :=
  String.eqb (Application._id a) id.

(** [Application.create]: the required paths must be non-empty. *)
Definition createApplicationDoc (a : Application.doc) (st : Store)
  : Outcome Store :=
  if String.eqb (Application.jobId a) "" then Thrown (ValidationError "jobId")
  else if String.eqb (Application.seekerDid a) "" then Thrown (ValidationError "seekerDid")
  else if String.eqb (Application.recruiterDid a) "" then Thrown (ValidationError "recruiterDid")
  else Ok (upd_applications (fun l => l ++ [a]) st).

Definition snapshotOf (s : Seeker.doc) : Application.SeekerProfile :=
  Application.mkSnapshot (Seeker.name s) (Seeker.email s)
                         (Seeker.homeLocation s)
                         (Seeker.skills (Seeker.profile s))
                         (Seeker.languages (Seeker.profile s))
                         (Seeker.resumeInfo (Seeker.profile s)).

(** POST /applications *)
Definition createApplication (env : Env) (session : option Session)
           (jobId recruiterDid : option string)
           (sharedVcIds : option (list string)) : M Response :=
  tryCatch
    (if negb (JS.truthy (sessionDid session))
     then respond 401 (ErrorBody "Unauthenticated")
     else
       let seekerDid :=
         JS.trim (optString (sessionDid session)) in
       if negb (JS.truthy jobId) || negb (JS.truthy recruiterDid)
       then respond 400 (ErrorBody "jobId, recruiterDid required")
       else
         let jobId := optString jobId in
         let recruiterDid := optString recruiterDid in
         (* Prevent duplicate applications for the same seeker + job *)
         existing <- query env "create/Application.findOne"
                       (fun st => Mongo.findOne (sameJobAndSeeker jobId seekerDid)
                                                (applications st)) ;;
         match existing with
         | Some existing => respond 200 (AlreadyAppliedBody existing)
         | None =>
             let selectedIds := match sharedVcIds with Some l => l | None => [] end in
             let appDoc := Application.mk (newObjectId env) jobId seekerDid
                                          recruiterDid selectedIds
                                          Application.Submitted None in
             writeChecked env "create/Application.create" Applications
                          (createApplicationDoc appDoc) ;;;
             (match selectedIds with
              | [] => ret tt
              | _ =>
                  creds <- query env "create/Credential.find"
                             (fun st => Mongo.findMany (shareable selectedIds seekerDid)
                                                       (credentials st)) ;;
                  let validSelected := List.filter (byIdHas creds) selectedIds in
                  match validSelected with
                  | [] => ret tt
                  | _ =>
                      bulkOps <- lift (buildBulkOps env appDoc creds validSelected) ;;
                      write env "create/SharedProof.bulkWrite" SharedProofs
                            (upd_sharedProofs (bulkWrite bulkOps)) ;;;
                      write env "create/Application.findByIdAndUpdate(sharedVcIds)"
                            Applications
                            (upd_applications
                               (Mongo.updateOne (byAppId (Application._id appDoc))
                                                (Application.set_sharedVcIds validSelected)))
                  end
              end) ;;;
             (* seeker profile snapshot: failures are logged and dropped *)
             tryCatch
               (seeker <- query env "create/Seeker.findOne"
                            (fun st => Mongo.findOne (seekerHasDid seekerDid) (seekers st)) ;;
                match seeker with
                | Some seeker =>
                    write env "create/Application.findByIdAndUpdate(seekerProfile)"
                          Applications
                          (upd_applications
                             (Mongo.updateOne (byAppId (Application._id appDoc))
                                              (Application.set_seekerProfile (snapshotOf seeker))))
                | None => ret tt
                end)
               (fun _ => ret tt) ;;;
             respond 201 (CreatedBody appDoc (List.length selectedIds))
         end)
    (fun _ => respond 500 (ErrorBody "Failed to create application")).

Definition proofView (p : SharedProof.doc) : ProofView :=
  mkProofView (SharedProof.vcId p) (SharedProof.revealedDocument p) true.

(** The trust status and verified flag GET /applications/:id derives
    for the job it returns. *)
Definition derivedTrust (recruiter : option Recruiter.doc) (job : Job.doc)
  : string * bool :=
  match option_map Recruiter.kycStatus recruiter with
  | Some Recruiter.KycRejected => ("Revoked", false)
  | Some Recruiter.KycPending => ("Suspended", false)
  | _ =>
      if badgeVerified recruiter then ("Active", true)
      else (match Job.trustStatus job with Some t => t | None => "None" end,
            match Job.verified job with Some b => b | None => false end)
  end.

(** GET /applications/:id *)
Definition getApplication (env : Env) (session : option Session)
           (id : string) : M Response :=
  tryCatch
    (sessionDid <- lift (mustGetDid session) ;;
     app <- query env "get/Application.findById"
              (fun st => Mongo.findOne (byAppId id) (applications st)) ;;
     match app with
     | None => respond 404 (ErrorBody "Application not found")
     | Some app =>
         if negb (isOwnerOfApplication sessionDid app)
         then respond 403 (ErrorBody "Forbidden")
         else
           recruiter <- query env "get/Recruiter.findOne"
                          (fun st => Mongo.findOne
                                       (fun r => String.eqb (Recruiter.did r)
                                                            (Application.recruiterDid app))
                                       (recruiters st)) ;;
           job <- query env "get/Job.findById"
                    (fun st => Mongo.findOne
                                 (fun j => String.eqb (Job._id j) (Application.jobId app))
                                 (jobs st)) ;;
           seeker <- query env "get/Seeker.findOne"
                       (fun st => Mongo.findOne
                                    (seekerHasDid (Application.seekerDid app))
                                    (seekers st)) ;;
           proofsRaw <- query env "get/SharedProof.find"
                          (fun st => Mongo.findMany
                                       (fun p => String.eqb (SharedProof.applicationId p) id)
                                       (sharedProofs st)) ;;
           safeProofs <- filterActiveSharedProofs env proofsRaw ;;
           respond 200
             (ApplicationBody app
                (option_map (fun j => fst (derivedTrust recruiter j)) job)
                (option_map (fun j => snd (derivedTrust recruiter j)) job)
                (match safeProofs with
                 | [] => None
                 | _ => Some (List.map proofView safeProofs)
                 end))
     end)
    (fun _ => respond 500 (ErrorBody "Failed to load application")).

(** PATCH /applications/:id/shared-vcs *)
Definition patchSharedVcs (env : Env) (session : option Session)
           (id : string) (sharedVcIds : option (list string)) : M Response :=
  tryCatch
    (sessionDid <- lift (mustGetDid session) ;;
     app <- query env "patch/Application.findById"
              (fun st => Mongo.findOne (byAppId id) (applications st)) ;;
     match app with
     | None => respond 404 (ErrorBody "Application not found")
     | Some app =>
         if negb (String.eqb (Application.seekerDid app) sessionDid)
         then respond 403 (ErrorBody "Forbidden")
         else if negb (Application.isSubmitted (Application.status app))
         then respond 409 (ErrorBody "Cannot edit shared VCs after review begins")
         else
           let requested := match sharedVcIds with Some l => l | None => [] end in
           (* 1) Filter to only VCs that belong to seeker + are active *)
           creds <- query env "patch/Credential.find"
                      (fun st => Mongo.findMany
                                   (shareable requested (Application.seekerDid app))
                                   (credentials st)) ;;
           let validSelected := List.filter (byIdHas creds) requested in
           (* 2) Delete proofs that are no longer selected *)
           write env "patch/SharedProof.deleteMany" SharedProofs
                 (upd_sharedProofs
                    (Mongo.deleteMany
                       (fun p => String.eqb (SharedProof.applicationId p)
                                            (Application._id app)
                                 && negb (JS.includes validSelected (SharedProof.vcId p))))) ;;;
           (* 3) Upsert proofs for newly selected ids *)
           (match validSelected with
            | [] => ret tt
            | _ =>
                bulkOps <- lift (buildBulkOps env app creds validSelected) ;;
                write env "patch/SharedProof.bulkWrite" SharedProofs
                      (upd_sharedProofs (bulkWrite bulkOps))
            end) ;;;
           (* 4) Save canonical ids *)
           write env "patch/app.save" Applications
                 (upd_applications
                    (Mongo.updateOne (byAppId (Application._id app))
                                     (Application.set_sharedVcIds validSelected))) ;;;
           respond 200 (SharedVcsBody validSelected)
     end)
    (fun _ => respond 500 (ErrorBody "Failed to update shared VCs")).

End ApplicationRoutes.

(* ===================================================================== *)
(** ** Seeker identity and onboarding
       (services/seekerIdentity.ts, routes/seekers.ts) *)
(* ===================================================================== *)

(** The body of POST /seekers/onboard.  The session route ignores
    [b_email] and [b_did]; the legacy route reads them. *)
Record OnboardBody : Type := mkOnboardBody {
  b_email : option string;
  b_name : option string;
  b_did : option string;
  b_homeLocation : option string;
  b_classification : option string;
  b_subClass : option string;
  b_visibility : option string;
  b_vcOnly : option bool;
  b_consentShareVC : option bool;
  b_antiPhishAck : option bool;
  b_careerSeed : option Json;
  b_onboarded : option bool
}.

(** [str.includes(sub)] *)
Fixpoint strIncludes (sub s : string) : bool :=
  String.prefix sub s
  || match s with
     | EmptyString => false
     | String _ t => strIncludes sub t
     end.

(** [doc.save()] on a seeker: validators on the required paths, the
    sparse unique index on [did], then insert or update by [_id]. *)
Definition saveSeeker (doc : Seeker.doc) (st : Store) : Outcome Store :=
  if negb (JS.truthy (Seeker.email doc)) then Thrown (ValidationError "email")
  else if negb (JS.truthy (Seeker.name doc)) then Thrown (ValidationError "name")
  else if existsb (fun x => negb (String.eqb (Seeker._id x) (Seeker._id doc))
                            && match Seeker.did doc, Seeker.did x with
                               | Some d, Some d' => String.eqb d d'
                               | _, _ => false
                               end)
                  (seekers st)
  then Thrown (DuplicateKey "did")
  else Ok (upd_seekers
             (fun l => if existsb (fun x => String.eqb (Seeker._id x) (Seeker._id doc)) l
                       then Mongo.updateOne
                              (fun x => String.eqb (Seeker._id x) (Seeker._id doc))
                              (fun _ => doc) l
                       else l ++ [doc])
             st).

(** [new Seeker({ email, name, onboarded })] with the schema defaults. *)
Definition newSeeker (env : Env) (email name : option string)
           (onboarded : bool) : Seeker.doc :=
  Seeker.mk (newObjectId env) None email name onboarded None None None
            (Some "hidden") (Some false) (Some false) (Some false)
            (Seeker.mkProfile [] [] [] None) [] [].

(** The assignments of the non-identity fields, shared by both versions
    of the route ([name] is what the route stores as [doc.name]). *)
Definition applyBody (name : string) (b : OnboardBody) (doc : Seeker.doc)
  : Seeker.doc :=
  Seeker.mk (Seeker._id doc) (Seeker.did doc) (Seeker.email doc) (Some name)
            (match b_onboarded b with
             | Some o => Seeker.onboarded doc || o
             | None => Seeker.onboarded doc
             end)
            (b_homeLocation b) (b_classification b) (b_subClass b)
            (b_visibility b) (b_vcOnly b) (b_consentShareVC b)
            (b_antiPhishAck b)
            (match b_careerSeed b with
             | Some seed =>
                 if jsonTruthy (jsonField "title" seed)
                    || jsonTruthy (jsonField "company" seed)
                 then Seeker.mkProfile [seed] [] [] None
                 else Seeker.profile doc
             | None => Seeker.profile doc
             end)
            (Seeker.vcs doc) (Seeker.defaultSharedVcIds doc).

(** The best-effort registration of a newly assigned DID on the ledger:
    whatever happens, the handler goes on. *)
Definition registerDidBestEffort (env : Env) (did : string) : M unit :=
  tryCatch
    (match JS.matchWalletAddress did with
     | Some walletAddress =>
         if DID_REGISTRY_ADDRESS env
         then
           external (LedgerRegisterDid did)
                    (registerDidOnChain env walletAddress did)
                    "registerDid rejected" ;;;
           ret tt
         else ret tt
     | None => ret tt
     end)
    (fun _ => ret tt).

Module SeekerIdentity.

Definition mustGetIdentity (session : option Session) : Outcome Session :=
  let did := sessionDidTrimmed session in
  let email := sessionEmailNormalised session in
  let wallet_address :=
    match session with
    | Some s => option_map JS.trim (s_wallet_address s)
    | None => None
    end in
  if negb (JS.truthy did) && negb (JS.truthy email)
  then Thrown (JsError "Missing session identity (did/email)")
  else Ok (mkSession did email wallet_address None).

Definition didPkhOf (wallet : string) : string :=
  String.append "did:pkh:eip155:80002:" (JS.toLowerCase wallet).

Definition deriveDidFromSession (session : Session) : option string :=
  let sDid := option_map JS.trim (s_did session) in
  let w := option_map JS.trim (s_wallet_address session) in
  if JS.truthy sDid && JS.startsWith (optString sDid) "did:pkh:"
  then sDid
  else if JS.truthy w && JS.isWalletAddress (optString w)
  then Some (didPkhOf (optString w))
  else if JS.truthy sDid then sDid
  else None.

Definition findSeekerBySession (env : Env) (session : option Session)
  : M (option Seeker.doc) :=
  s <- lift (mustGetIdentity session) ;;
  byDid <-
    (if JS.truthy (s_did s)
     then query env "identity/Seeker.findOne(did)"
            (fun st => Mongo.findOne (seekerHasDid (optString (s_did s))) (seekers st))
     else ret None) ;;
  match byDid with
  | Some d => ret (Some d)
  | None =>
      byDerived <-
        (if JS.truthy (s_wallet_address s)
            && JS.isWalletAddress (optString (s_wallet_address s))
         then query env "identity/Seeker.findOne(did:pkh)"
                (fun st => Mongo.findOne
                             (seekerHasDid (didPkhOf (optString (s_wallet_address s))))
                             (seekers st))
         else ret None) ;;
      match byDerived with
      | Some d => ret (Some d)
      | None =>
          if JS.truthy (s_email s)
          then query env "identity/Seeker.findOne(email)"
                 (fun st => Mongo.findOne
                              (fun x => match Seeker.email x with
                                        | Some e => String.eqb e (optString (s_email s))
                                        | None => false
                                        end)
                              (seekers st))
          else ret None
      end
  end.

End SeekerIdentity.

(** What the [catch] of POST /seekers/onboard answers. *)
Definition onboardFailure (sessionRoute : bool) (e : Err) : M Response :=
  match e with
  | DuplicateKey "did" =>
      respond 409 (ErrorBody "DID already exists. Please regenerate a new DID.")
  | JsError m =>
      if sessionRoute && strIncludes "Missing session identity" m
      then respond 401 (ErrorBody "Unauthenticated")
      else respond 500 (ErrorBody "Failed to onboard seeker")
  | _ => respond 500 (ErrorBody "Failed to onboard seeker")
  end.

Module SeekerRoutes.

(** POST /seekers/onboard, identity taken from the session. *)
Definition onboard (env : Env) (session : option Session)
           (user : option User.doc) (b : OnboardBody) : M Response :=
  match requireRoleStateIn SeekerRole [none; active] user with
  | Some forbidden => ret forbidden
  | None =>
      tryCatch
        (s <- lift (SeekerIdentity.mustGetIdentity session) ;;
         if negb (JS.truthy (b_name b))
            || negb (JS.truthy (Some (JS.trim (optString (b_name b)))))
         then respond 400 (ErrorBody "name is required")
         else
           let name := JS.trim (optString (b_name b)) in
           (* Find by session, create if not exists *)
           found <- SeekerIdentity.findSeekerBySession env session ;;
           let doc0 := match found with
                       | Some d => d
                       | None => newSeeker env (s_email s) (Some name)
                                   (match b_onboarded b with
                                    | Some o => o
                                    | None => false
                                    end)
                       end in
           let doc1 := if JS.truthy (s_email s) && negb (JS.truthy (Seeker.email doc0))
                       then Seeker.set_email (s_email s) doc0
                       else doc0 in
           let didToStore := SeekerIdentity.deriveDidFromSession s in
           (* Assign DID only if empty *)
           doc2 <-
             (if JS.truthy didToStore && negb (JS.truthy (Seeker.did doc1))
              then registerDidBestEffort env (optString didToStore) ;;;
                   ret (Seeker.set_did didToStore doc1)
              else ret doc1) ;;
           let doc := applyBody name b doc2 in
           writeChecked env "onboard/doc.save" Seekers (saveSeeker doc) ;;;
           (match user with
            | Some u =>
                saveUser env "onboard/req.user.save"
                         (set_seeker_role
                            (if Seeker.onboarded doc then active else none) u)
            | None => ret tt
            end) ;;;
           respond 200 (SeekerBody doc))
        (onboardFailure true)
  end.

End SeekerRoutes.

Module LegacySeekerRoutes.

(** POST /seekers/onboard, identity taken from the request body. *)
Definition onboard (env : Env) (b : OnboardBody) : M Response :=
  tryCatch
    (if negb (JS.truthy (b_email b)) || negb (JS.truthy (b_name b))
     then respond 400 (ErrorBody "email and name are required")
     else
       let email := optString (b_email b) in
       let name := optString (b_name b) in
       (* STEP 1: find seeker by DID (preferred) or email *)
       found <- query env "legacy/Seeker.findOne"
                  (fun st => Mongo.findOne
                               (fun x => (JS.truthy (b_did b)
                                          && seekerHasDid (optString (b_did b)) x)
                                         || match Seeker.email x with
                                            | Some e => String.eqb e email
                                            | None => false
                                            end)
                               (seekers st)) ;;
       (* STEP 2: create one if it does not exist *)
       let doc0 := match found with
                   | Some d => d
                   | None => newSeeker env (Some email) (Some name)
                               (match b_onboarded b with
                                | Some o => o
                                | None => false
                                end)
                   end in
       (* STEP 3: only assign DID if provided and not already set *)
       doc1 <-
         (if JS.truthy (b_did b) && negb (JS.truthy (Seeker.did doc0))
          then registerDidBestEffort env (optString (b_did b)) ;;;
               ret (Seeker.set_did (b_did b) doc0)
          else ret doc0) ;;
       (* STEP 4, 5: other fields and career seed *)
       let doc := applyBody name b doc1 in
       writeChecked env "legacy/doc.save" Seekers (saveSeeker doc) ;;;
       respond 200 (SeekerBody doc))
    (onboardFailure false).

End LegacySeekerRoutes.

(* ===================================================================== *)
(** ** Observations used to state the properties *)
(* ===================================================================== *)

(** The collections of a store, without the trace of effects. *)
Definition documents (st : Store) :=
  (credentials st, recruiters st, seekers st, issuers st,
   applications st, sharedProofs st, jobs st, users st).

(** The raw stored badge status of a recruiter, if any. *)
Definition storedBadgeStatus (r : Recruiter.doc) : option string :=
  match Recruiter.badge r with
  | Some b => Recruiter.status b
  | None => None
  end.

(** Whether the ledger read of a trust status fails: the contract cannot
    be built from the configuration, or [getBadge] rejects. *)
Definition ledgerReadFails (env : Env) (did : string) : Prop :=
  (exists e, getTrustBadgeRegistryContract env = Thrown e)
  \/ contract_getBadge env did = None.

(** Concrete stores and environments used to run the handlers. *)
Module Fixture.

Definition holderDid : string := "did:pkh:eip155:80002:0xabc".
Definition orgDid : string := "did:pkh:eip155:80002:0xdef".
Definition issuerDid : string := "did:key:issuer1".

Definition signedDoc (id : string) : Json :=
  JObj [("id", JStr id); ("issuer", JStr issuerDid)].

(** A store that answers every call, a ledger and signing service that
    answer every call, and a configured registry. *)
Definition env : Env :=
  mkEnv 1700 "oid-new" (fun _ => false) true true true false
        (fun _ _ => Some "0xissue")
        (fun _ => Some (1, 1))
        (fun _ => Some (mkTx "0xrevoke" "polygon-amoy"))
        (fun p => Some (mkIssued "urn:securehire:vc:new"
                                 ["VerifiableCredential"; p_credentialType p]
                                 "2024-01-01T00:00:00.000Z"
                                 (signedDoc "urn:securehire:vc:new")))
        (fun _ _ => Some "0xregister")
        (fun _ => None).

(** The same, with a ledger whose every call rejects. *)
Definition envLedgerDown : Env :=
  mkEnv 1700 "oid-new" (fun _ => false) true true true false
        (fun _ _ => None) (fun _ => None) (fun _ => None)
        (issueSimpleVc env) (fun _ _ => None) (fun _ => None).

(** The same as [env], with a signing service that rejects. *)
Definition envSigningDown : Env :=
  mkEnv 1700 "oid-new" (fun _ => false) true true true false
        (contract_issueBadge env) (contract_getBadge env)
        (revokeRecruiterBadgeOnChain env)
        (fun _ => None) (fun _ _ => None) (fun _ => None).

(** The same as [env], with a store that rejects the repair of the
    holder's record during revocation. *)
Definition envRepairDown : Env :=
  mkEnv 1700 "oid-new" (String.eqb "revoke/Seeker.updateOne")
        true true true false
        (contract_issueBadge env) (contract_getBadge env)
        (revokeRecruiterBadgeOnChain env)
        (issueSimpleVc env) (fun _ _ => None) (fun _ => None).

(** The same as [env], with no registry address configured. *)
Definition envNoRegistry : Env :=
  mkEnv 1700 "oid-new" (fun _ => false) false true true false
        (contract_issueBadge env) (contract_getBadge env)
        (revokeRecruiterBadgeOnChain env)
        (issueSimpleVc env) (fun _ _ => None) (fun _ => None).

Definition personalVc : Credential.doc :=
  Credential.mk "vc-1" holderDid issuerDid (Some "Engineer")
                ["VerifiableCredential"; "EmploymentCredential"]
                (Some "2024-01-01") Credential.Active None None
                (Some (signedDoc "vc-1")) None.

(** A credential of somebody else. *)
Definition foreignVc : Credential.doc :=
  Credential.mk "vc-2" "did:pkh:eip155:80002:0x999" issuerDid (Some "Degree")
                ["VerifiableCredential"; "EducationCredential"]
                (Some "2024-01-01") Credential.Active None None
                (Some (signedDoc "vc-2")) None.

Definition trustVc : Credential.doc :=
  Credential.mk "vc-org" orgDid issuerDid (Some "Recruiter Verification for Acme")
                ["VerifiableCredential"; "RecruiterCredential"]
                (Some "2024-01-01") Credential.Active (Some "0xissue0") None
                (Some (signedDoc "vc-org")) (Some "polygon-amoy").

Definition activeBadge : Recruiter.Badge :=
  Recruiter.mkBadge true (Some "Active") (Some 1) (Some 1600)
                    (Some "0xissue0") (Some "polygon-amoy") (Some "vc-org")
                    None None None.

Definition org : Recruiter.doc :=
  Recruiter.mk "rec-1" orgDid (Some "Acme") (Some "hr@acme.test") None
               true Recruiter.KycApproved (Some activeBadge).

(** An onboarded organisation waiting for a decision. *)
Definition pendingOrg : Recruiter.doc :=
  Recruiter.mk "rec-2" "did:pkh:eip155:80002:0x777" (Some "Globex")
               (Some "hr@globex.test") None true Recruiter.KycPending
               (Some (Recruiter.mkBadge false (Some "None") None None None
                                        None None None None None)).

Definition holder : Seeker.doc :=
  Seeker.mk "seeker-1" (Some holderDid) (Some "h@mail.test") (Some "Hana")
            true None None None (Some "hidden") (Some false) (Some false)
            (Some false) (Seeker.mkProfile [] [] [] None)
            [Seeker.mkVc (Some "c1") (Some "career") (Some "Engineer")
                         (Some issuerDid) (Some "active") None (Some "vc-1")]
            ["vc-1"].

Definition app : Application.doc :=
  Application.mk "app-1" "job-1" holderDid orgDid ["vc-1"]
                 Application.Submitted None.

Definition disclosure : SharedProof.doc :=
  SharedProof.mk "app-1" (Some "job-1") holderDid orgDid "vc-1" None None
                 (Some (signedDoc "vc-1")).

Definition issuerUser : User.doc :=
  User.mk "privy-issuer" None (Some issuerDid) None
          (User.mkRoles none none active).

Definition orgUser : User.doc :=
  User.mk "privy-org" None (Some orgDid) None
          (User.mkRoles none active none).

Definition holderUser : User.doc :=
  User.mk "privy-holder" (Some "h@mail.test") (Some holderDid) None
          (User.mkRoles active none none).

Definition store : Store :=
  mkStore [personalVc; foreignVc; trustVc] [org; pendingOrg] [holder]
          [Issuer.mk issuerDid None (Some "Acme University") true]
          [app] [disclosure]
          [Job.mk "job-1" "Engineer" "Acme" "Remote" (Some orgDid)
                  (Some true) (Some "Active")]
          [issuerUser; orgUser; holderUser] [].

Definition issuerSession : option Session :=
  Some (mkSession (Some issuerDid) None None (Some "privy-issuer")).

Definition holderSession : option Session :=
  Some (mkSession (Some holderDid) (Some "h@mail.test") None
                  (Some "privy-holder")).

Definition orgSession : option Session :=
  Some (mkSession (Some orgDid) None None (Some "privy-org")).

(** The holder signs in again; the session now carries another DID and
    a wallet address from which yet another DID derives. *)
Definition otherDidSession : option Session :=
  Some (mkSession (Some "did:privy:other") (Some "h@mail.test")
                  (Some "0x1111111111111111111111111111111111111111")
                  (Some "privy-holder")).

(** An onboarding body that names the holder's email and another DID. *)
Definition onboardBody : OnboardBody :=
  mkOnboardBody (Some "h@mail.test") (Some "Hana")
                (Some "did:pkh:eip155:80002:0x2222222222222222222222222222222222222222")
                (Some "Kuala Lumpur") None None (Some "public") None None None
                None (Some true).

End Fixture.

(** A computation keeps an invariant of the store, whatever its outcome. *)
Definition preserves {A : Type} (I : Store -> Prop) (m : M A) : Prop :=
  forall st r st', I st -> m st = (r, st') -> I st'.

(** The credential [{ credentialId, issuerDid }] reads back as revoked. *)
Definition readsRevoked (credentialId issuerDid : string) (st : Store) : Prop :=
  exists c,
    Mongo.findOne (ownedCredential credentialId issuerDid) (credentials st)
    = Some c
    /\ Credential.status c = Credential.Revoked.

(** The effects of [st] begin with the effects [prefix]. *)
Definition traceExtends (prefix : list Effect) (st : Store) : Prop :=
  exists later, trace st = prefix ++ later.

(** Whether issuing a badge on the ledger fails: the contract cannot be
    built from the configuration, or the transaction rejects. *)
Definition ledgerIssueFails (env : Env) (did : string) (level : nat) : Prop :=
  (exists e, getTrustBadgeRegistryContract env = Thrown e)
  \/ contract_issueBadge env did level = None.

(** The status the Credential Store currently holds for a credential id. *)
Definition currentStatus (st : Store) (credentialId : string)
  : option Credential.Status :=
  option_map Credential.status
             (Mongo.findOne
                (fun c => String.eqb (Credential.credentialId c) credentialId)
                (credentials st)).

Definition currentlyActive (st : Store) (p : SharedProof.doc) : bool :=
  match currentStatus st (SharedProof.vcId p) with
  | Some Credential.Active => true
  | _ => false
  end.

(** The disclosure records stored for a sharing context. *)
Definition storedDisclosures (st : Store) (applicationId : string)
  : list SharedProof.doc :=
  Mongo.findMany (fun p => String.eqb (SharedProof.applicationId p) applicationId)
                 (sharedProofs st).

(** The [proofs] of a response of GET /applications/:id; the field is
    left out when there is nothing to list. *)
Definition proofsOf (resp : Response) : list ProofView :=
  match body resp with
  | ApplicationBody _ _ _ (Some l) => l
  | _ => []
  end.

(** The requested ids that the share filter keeps: an active credential of
    the store carries the id and names the holder as its subject. *)
Definition acceptedIds (st : Store) (holderDid : string)
           (requested : list string) : list string :=
  List.filter
    (fun id => existsb (fun c => String.eqb (Credential.credentialId c) id
                                 && String.eqb (Credential.subjectDid c) holderDid
                                 && Credential.isActive (Credential.status c))
                       (credentials st))
    requested.

(** [Array.isArray(sharedVcIds) ? sharedVcIds : []] *)
Definition requestedIds (sharedVcIds : option (list string)) : list string :=
  match sharedVcIds with Some l => l | None => [] end.

(** The store still holds a record with the [_id] of [s] and the DID [d]. *)
Definition keepsDid (s : Seeker.doc) (d : string) (st : Store) : Prop :=
  exists s', In s' (seekers st)
             /\ Seeker._id s' = Seeker._id s
             /\ Seeker.did s' = Some d.

(* ===================================================================== *)
(** ** Further observations *)
(* ===================================================================== *)

(** The recruiter record the role synchronisation resolves a session to
    when its reads are answered: the record with the session's DID, and
    failing that the record whose contact email is the session's email. *)
Definition recruiterOfSession (session : option Session) (st : Store)
  : option Recruiter.doc :=
  let did := sessionDidTrimmed session in
  let email := sessionEmailNormalised session in
  match (if JS.truthy did
         then Mongo.findOne
                (fun r => String.eqb (Recruiter.did r) (optString did))
                (recruiters st)
         else None)
  with
  | Some r => Some r
  | None =>
      if JS.truthy email
      then Mongo.findOne
             (fun r => match Recruiter.contactEmail r with
                       | Some e => String.eqb e (optString email)
                       | None => false
                       end)
             (recruiters st)
      else None
  end.

(* ===================================================================== *)
(** ** The seeker and issuer role synchronisations
       (middleware/syncSeekerRoleFromSeekerDoc.ts,
        middleware/syncIssuerRoleFromIssuerDoc.ts) *)
(* ===================================================================== *)

Definition computeSeekerRoleState (seeker : option Seeker.doc) : RoleState :=
  match seeker with
  | None => none
  | Some s => if negb (Seeker.onboarded s) then none else active
  end.

Definition computeIssuerRoleState (issuer : option Issuer.doc) : RoleState :=
  match issuer with
  | None => none
  | Some i => if negb (Issuer.onboarded i) then none else active
  end.

Definition set_issuer_role (rs : RoleState) (u : User.doc) : User.doc :=
  User.mk (User.privyUserId u) (User.email u) (User.did u)
          (User.wallet_address u)
          (User.mkRoles (User.seeker (User.roles u))
                        (User.recruiter (User.roles u)) rs).

(** The filter [{ email }] on seekers. *)
Definition seekerHasEmail (email : string) (s : Seeker.doc) : bool :=
  match Seeker.email s with
  | Some e => String.eqb e email
  | None => false
  end.

(** The filter [{ email }] on issuers. *)
Definition issuerHasEmail (email : string) (i : Issuer.doc) : bool :=
  match Issuer.email i with
  | Some e => String.eqb e email
  | None => false
  end.

Definition syncSeekerRoleFromSeekerDoc (env : Env)
           (session : option Session) (user : option User.doc)
  : M (option User.doc) :=
  match user with
  | None => ret None
  | Some user =>
      let did := sessionDidTrimmed session in
      let email := sessionEmailNormalised session in
      byDid <-
        (if JS.truthy did
         then query env "syncSeeker/Seeker.findOne(did)"
                (fun st => Mongo.findOne (seekerHasDid (optString did))
                                         (seekers st))
         else ret None) ;;
      seeker <-
        (match byDid with
         | Some s => ret (Some s)
         | None =>
             if JS.truthy email
             then query env "syncSeeker/Seeker.findOne(email)"
                    (fun st => Mongo.findOne (seekerHasEmail (optString email))
                                             (seekers st))
             else ret None
         end) ;;
      let desired := computeSeekerRoleState seeker in
      if negb (RoleState_eqb (User.seeker (User.roles user)) desired)
      then
        let user' := set_seeker_role desired user in
        saveUser env "syncSeeker/user.save" user' ;;;
        ret (Some user')
      else ret (Some user)
  end.

Definition syncIssuerRoleFromIssuerDoc (env : Env)
           (session : option Session) (user : option User.doc)
  : M (option User.doc) :=
  match user with
  | None => ret None
  | Some user =>
      let did := sessionDidTrimmed session in
      let email := sessionEmailNormalised session in
      byDid <-
        (if JS.truthy did
         then query env "syncIssuer/Issuer.findOne(did)"
                (fun st => Mongo.findOne
                             (fun i => String.eqb (Issuer.did i) (optString did))
                             (issuers st))
         else ret None) ;;
      issuer <-
        (match byDid with
         | Some i => ret (Some i)
         | None =>
             if JS.truthy email
             then query env "syncIssuer/Issuer.findOne(email)"
                    (fun st => Mongo.findOne (issuerHasEmail (optString email))
                                             (issuers st))
             else ret None
         end) ;;
      let desired := computeIssuerRoleState issuer in
      if negb (RoleState_eqb (User.issuer (User.roles user)) desired)
      then
        let user' := set_issuer_role desired user in
        saveUser env "syncIssuer/user.save" user' ;;;
        ret (Some user')
      else ret (Some user)
  end.

(* ===================================================================== *)
(** ** Loading the user and the onboarding checks
       (middleware/requireUser.ts, middleware/requireSeekerOnboarded.ts) *)
(* ===================================================================== *)

(** What a middleware does with a request: hand it on, with what it
    attached to it, or answer it. *)
Inductive Gate (A : Type) : Type :=
| Next (a : A)
| Refuse (code : nat) (text : string).
Arguments Next {A} a.
Arguments Refuse {A} code text.

(** [User.create]: the primary id is required and unique. *)
Definition createUser (u : User.doc) (st : Store) : Outcome Store :=
  if String.eqb (User.privyUserId u) ""
  then Thrown (ValidationError "privyUserId")
  else if existsb (fun x => String.eqb (User.privyUserId x) (User.privyUserId u))
                  (users st)
  then Thrown (DuplicateKey "privyUserId")
  else Ok (upd_users (fun l => l ++ [u]) st).

(** [if (s?.x && !user.x) user.x = s.x] *)
Definition refresh (fromSession stored : option string) : option string :=
  if JS.truthy fromSession && negb (JS.truthy stored)
  then fromSession
  else stored.

Definition requireUser (env : Env) (session : option Session)
  : M (Gate User.doc) :=
  tryCatch
    (let privyUserId := match session with
                        | Some s => s_privyUserId s
                        | None => None
                        end in
     if negb (JS.truthy privyUserId)
     then ret (Refuse 401 "Invalid session (missing privyUserId)")
     else
       user <- query env "requireUser/User.findOne"
                 (fun st => Mongo.findOne
                              (fun u => String.eqb (User.privyUserId u)
                                                   (optString privyUserId))
                              (users st)) ;;
       match user with
       | None =>
           let created :=
             User.mk (optString privyUserId)
                     (match session with Some s => s_email s | None => None end)
                     (match session with Some s => s_did s | None => None end)
                     (match session with
                      | Some s => s_wallet_address s
                      | None => None
                      end)
                     (User.mkRoles none none none) in
           writeChecked env "requireUser/User.create" Users (createUser created) ;;;
           ret (Next created)
       | Some user =>
           (* optional identity refresh *)
           let user' :=
             User.mk (User.privyUserId user)
                     (refresh (match session with
                               | Some s => s_email s
                               | None => None
                               end)
                              (User.email user))
                     (refresh (match session with
                               | Some s => s_did s
                               | None => None
                               end)
                              (User.did user))
                     (refresh (match session with
                               | Some s => s_wallet_address s
                               | None => None
                               end)
                              (User.wallet_address user))
                     (User.roles user) in
           saveUser env "requireUser/user.save" user' ;;;
           ret (Next user')
       end)
    (fun _ => ret (Refuse 500 "Failed to load user")).

(** No [try] around the lookup: a rejected read is an unhandled
    rejection of the middleware. *)
Definition requireSeekerOnboarded (env : Env) (session : option Session)
  : M (Gate Seeker.doc) :=
  seeker <- SeekerIdentity.findSeekerBySession env session ;;
  match seeker with
  | Some s =>
      if negb (Seeker.onboarded s)
      then ret (Refuse 403 "Forbidden")
      else ret (Next s)
  | None => ret (Refuse 403 "Forbidden")
  end.

(* ===================================================================== *)
(** ** Replies of the routes below *)
(* ===================================================================== *)

(** A status code with an [error] message, or with the route's payload. *)
Inductive Reply (P : Type) : Type :=
| Failed (code : nat) (error : string)
| Replied (code : nat) (payload : P).
Arguments Failed {P} code error.
Arguments Replied {P} code payload.

Definition replyCode {P : Type} (r : Reply P) : nat :=
  match r with
  | Failed c _ => c
  | Replied c _ => c
  end.

(* ===================================================================== *)
(** ** Recruiter self-service (routes/recruiters.ts, session version) and
       rejection by an issuer (routes/issuer.ts) *)
(* ===================================================================== *)

(** [toRecruiterApi] of routes/recruiters.ts, on the modelled paths of
    the document ([kycDocs] is not among them). *)
Record RecruiterApi : Type := mkRecruiterApi {
  api_id : string;
  api_did : string;
  api_orgLegalName : option string;
  api_contactEmail : option string;
  api_website : option string;
  api_onboarded : bool;
  api_kycStatus : Recruiter.Kyc;
  api_badge_verified : bool;
  api_badge_level : option nat;
  api_badge_lastCheckedAt : option nat;
  api_badge_txHash : option string;
  api_badge_network : option string;
  api_badge_credentialId : option string
}.

Definition toRecruiterApi (doc : Recruiter.doc) : RecruiterApi :=
  let b := Recruiter.badge doc in
  mkRecruiterApi
    (Recruiter._id doc) (Recruiter.did doc) (Recruiter.orgLegalName doc)
    (Recruiter.contactEmail doc) (Recruiter.website doc)
    (Recruiter.onboarded doc) (Recruiter.kycStatus doc)
    (match b with Some b => Recruiter.verified b | None => false end)
    (match b with Some b => Recruiter.level b | None => None end)
    (match b with Some b => Recruiter.lastCheckedAt b | None => None end)
    (match b with Some b => Recruiter.txHash b | None => None end)
    (match b with Some b => Recruiter.network b | None => None end)
    (match b with Some b => Recruiter.credentialId b | None => None end).

(** [toRecruiterApi] of routes/issuer.ts, on the modelled paths: its badge
    carries the revocation paths and not the credential id. *)
Record IssuerRecruiterApi : Type := mkIssuerRecruiterApi {
  ia_id : string;
  ia_did : string;
  ia_orgLegalName : option string;
  ia_contactEmail : option string;
  ia_website : option string;
  ia_onboarded : bool;
  ia_kycStatus : Recruiter.Kyc;
  ia_badge_verified : bool;
  ia_badge_level : option nat;
  ia_badge_lastCheckedAt : option nat;
  ia_badge_txHash : option string;
  ia_badge_network : option string;
  ia_badge_revocationTxHash : option string;
  ia_badge_revokeReason : option string;
  ia_badge_revokedAt : option nat
}.

Module IssuerRoutes.

Definition toRecruiterApi (doc : Recruiter.doc) : IssuerRecruiterApi :=
  let b := Recruiter.badge doc in
  mkIssuerRecruiterApi
    (Recruiter._id doc) (Recruiter.did doc) (Recruiter.orgLegalName doc)
    (Recruiter.contactEmail doc) (Recruiter.website doc)
    (Recruiter.onboarded doc) (Recruiter.kycStatus doc)
    (match b with Some b => Recruiter.verified b | None => false end)
    (match b with Some b => Recruiter.level b | None => None end)
    (match b with Some b => Recruiter.lastCheckedAt b | None => None end)
    (match b with Some b => Recruiter.txHash b | None => None end)
    (match b with Some b => Recruiter.network b | None => None end)
    (match b with Some b => Recruiter.revocationTxHash b | None => None end)
    (match b with Some b => Recruiter.revokeReason b | None => None end)
    (match b with Some b => Recruiter.revokedAt b | None => None end).

End IssuerRoutes.

(** The badge POST /issuer/recruiters/:id/reject assigns: the stored
    badge spread, then [verified], [status] and [lastCheckedAt]. *)
Definition rejectedBadge (env : Env) (r : Recruiter.doc) : Recruiter.Badge :=
  let b := match Recruiter.badge r with
           | Some b => b
           | None => Recruiter.emptyBadge
           end in
  Recruiter.mkBadge false (Some "Rejected") (Recruiter.level b)
                    (Some (now env)) (Recruiter.txHash b) (Recruiter.network b)
                    (Recruiter.credentialId b) (Recruiter.revokedAt b)
                    (Recruiter.revokeReason b) (Recruiter.revocationTxHash b).

(** POST /issuer/recruiters/:id/reject *)
Definition rejectRecruiter (env : Env) (user : option User.doc)
           (recruiterId : string) : M (Reply IssuerRecruiterApi) :=
  match requireRoleActive IssuerRole user with
  | Some _ => ret (Failed 403 "Forbidden")
  | None =>
      tryCatch
        (recruiter <- query env "reject/Recruiter.findById"
                        (fun st => Mongo.findOne (byRecruiterId recruiterId)
                                                 (recruiters st)) ;;
         match recruiter with
         | None => ret (Failed 404 "Recruiter not found")
         | Some recruiter =>
             let change r :=
               Recruiter.set_badge (Some (rejectedBadge env recruiter))
                                   (Recruiter.set_kycStatus Recruiter.KycRejected r) in
             write env "reject/recruiter.save" Recruiters
                   (upd_recruiters
                      (Mongo.updateOne (byRecruiterId (Recruiter._id recruiter))
                                       change)) ;;;
             ret (Replied 200 (IssuerRoutes.toRecruiterApi (change recruiter)))
         end)
        (fun _ => ret (Failed 500 "Failed to reject recruiter"))
  end.

(** Saving a new recruiter document: [did] is required and unique. *)
Definition createRecruiter (r : Recruiter.doc) (st : Store) : Outcome Store :=
  if String.eqb (Recruiter.did r) ""
  then Thrown (ValidationError "did")
  else if existsb (fun x => String.eqb (Recruiter.did x) (Recruiter.did r))
                  (recruiters st)
  then Thrown (DuplicateKey "did")
  else Ok (upd_recruiters (fun l => l ++ [r]) st).

(** The body of POST /recruiters/onboarding ([kycDocs] is not among the
    modelled paths). *)
Record OnboardingBody : Type := mkOnboardingBody {
  ob_orgLegalName : option string;
  ob_website : option string;
  ob_contactEmail : option string
}.

(** The body of PATCH /recruiters/me, as JSON values: the route tests
    [typeof] and [=== null]. *)
Record ProfilePatch : Type := mkProfilePatch {
  pp_orgLegalName : option Json;
  pp_contactEmail : option Json;
  pp_website : option Json
}.

(** [typeof v === "string" ? v : old] *)
Definition ifString (v : option Json) (old : option string) : option string :=
  match v with
  | Some (JStr s) => Some s
  | _ => old
  end.

Module RecruiterRoutes.

(** The filter [{ did }]. *)
Definition byDid (did : string) (r : Recruiter.doc) : bool :=
  String.eqb (Recruiter.did r) did.

(** [new Recruiter({ did, contactEmail, onboarded: false,
    kycStatus: "none", badge: { verified: false } })] with the schema
    default of [badge.status]. *)
Definition newRecruiter (env : Env) (did : string) (email : option string)
  : Recruiter.doc :=
  Recruiter.mk (newObjectId env) did None email None false Recruiter.KycNone
               (Some (Recruiter.mkBadge false (Some "None") None None None
                                        None None None None None)).

(** POST /recruiters *)
Definition create (env : Env) (session : option Session)
  : M (Reply RecruiterApi) :=
  tryCatch
    (s <- lift (mustGetSession session) ;;
     match s_did s with
     | None => ret (Failed 401 "Missing DID in session")
     | Some did =>
         existing <- query env "recruiters/Recruiter.findOne"
                       (fun st => Mongo.findOne (byDid did) (recruiters st)) ;;
         match existing with
         | Some recruiter => ret (Replied 200 (toRecruiterApi recruiter))
         | None =>
             let recruiter := newRecruiter env did (s_email s) in
             writeChecked env "recruiters/recruiter.save" Recruiters
                          (createRecruiter recruiter) ;;;
             ret (Replied 201 (toRecruiterApi recruiter))
         end
     end)
    (fun _ => ret (Failed 401 "Unauthenticated")).

(** The assignments of POST /recruiters/onboarding. *)
Definition submitted (b : OnboardingBody) (r : Recruiter.doc) : Recruiter.doc :=
  Recruiter.mk (Recruiter._id r) (Recruiter.did r) (ob_orgLegalName b)
               (ob_contactEmail b) (ob_website b) true Recruiter.KycPending
               (Recruiter.badge r).

(** POST /recruiters/onboarding *)
Definition onboarding (env : Env) (session : option Session)
           (b : OnboardingBody) : M (Reply RecruiterApi) :=
  tryCatch
    (s <- lift (mustGetSession session) ;;
     match s_did s with
     | None => ret (Failed 401 "Missing DID in session")
     | Some did =>
         if negb (JS.truthy (ob_orgLegalName b))
            || negb (JS.truthy (ob_contactEmail b))
         then ret (Failed 400 "orgLegalName and contactEmail are required")
         else
           recruiter <- query env "onboarding/Recruiter.findOne"
                          (fun st => Mongo.findOne (byDid did) (recruiters st)) ;;
           match recruiter with
           | None => ret (Failed 404 "Recruiter not found")
           | Some recruiter =>
               write env "onboarding/recruiter.save" Recruiters
                     (upd_recruiters
                        (Mongo.updateOne
                           (byRecruiterId (Recruiter._id recruiter))
                           (submitted b))) ;;;
               ret (Replied 200 (toRecruiterApi (submitted b recruiter)))
           end
     end)
    (fun _ => ret (Failed 401 "Unauthenticated")).

(** The assignments of PATCH /recruiters/me. *)
Definition patched (p : ProfilePatch) (r : Recruiter.doc) : Recruiter.doc :=
  Recruiter.mk (Recruiter._id r) (Recruiter.did r)
               (ifString (pp_orgLegalName p) (Recruiter.orgLegalName r))
               (ifString (pp_contactEmail p) (Recruiter.contactEmail r))
               (match pp_website p with
                | Some (JStr s) => Some s
                | Some JNull => None
                | _ => Recruiter.website r
                end)
               (Recruiter.onboarded r) (Recruiter.kycStatus r)
               (Recruiter.badge r).

(** PATCH /recruiters/me *)
Definition patchMe (env : Env) (session : option Session)
           (p : ProfilePatch) : M (Reply RecruiterApi) :=
  tryCatch
    (s <- lift (mustGetSession session) ;;
     match s_did s with
     | None => ret (Failed 401 "Missing DID in session")
     | Some did =>
         recruiter <- query env "me/Recruiter.findOne"
                        (fun st => Mongo.findOne (byDid did) (recruiters st)) ;;
         match recruiter with
         | None => ret (Failed 404 "Recruiter not found")
         | Some recruiter =>
             write env "me/recruiter.save" Recruiters
                   (upd_recruiters
                      (Mongo.updateOne
                         (byRecruiterId (Recruiter._id recruiter))
                         (patched p))) ;;;
             ret (Replied 200 (toRecruiterApi (patched p recruiter)))
         end
     end)
    (fun _ => ret (Failed 401 "Unauthenticated")).

(** The answer of [zkService.verifyVc] (services/zk.service.ts). *)
Record VerifyOutput : Type := mkVerifyOutput {
  valid : bool;
  why : option string
}.

(** POST /recruiters/verify-vc.  [verifyVc] is the verification service
    as the route calls it: its answer for a document, [None] when the
    exchange fails. *)
Definition verifySharedVc (env : Env)
           (verifyVc : Json -> option VerifyOutput)
           (session : option Session) (applicationId vcId : option string)
  : M (Reply VerifyOutput) :=
  tryCatch
    (recruiterDid <- lift (mustGetDid session) ;;
     if negb (JS.truthy applicationId) || negb (JS.truthy vcId)
     then ret (Failed 400 "applicationId and vcId required")
     else
       let applicationId := optString applicationId in
       let vcId := optString vcId in
       app <- query env "verify/Application.findById"
                (fun st => Mongo.findOne (ApplicationRoutes.byAppId applicationId)
                                         (applications st)) ;;
       match app with
       | None => ret (Failed 404 "Application not found")
       | Some app =>
           if negb (String.eqb (Application.recruiterDid app) recruiterDid)
           then ret (Failed 403 "Forbidden")
           else
             found <- query env "verify/SharedProof.findOne"
                        (fun st => Mongo.findOne
                                     (ApplicationRoutes.proofKey applicationId vcId)
                                     (sharedProofs st)) ;;
             match found with
             | Some (SharedProof.mk _ _ _ _ _ _ _ (Some document)) =>
                 if jsonTruthy (Some document)
                 then
                   out <- lift (match verifyVc document with
                                | Some out => Ok out
                                | None => Thrown (JsError "zkService POST /bbs/verify-vc failed")
                                end) ;;
                   ret (Replied 200 out)
                 else ret (Failed 404 "Shared VC not found")
             | _ => ret (Failed 404 "Shared VC not found")
             end
       end)
    (fun _ => ret (Failed 500 "Failed to verify shared VC")).

End RecruiterRoutes.

(* ===================================================================== *)
(** ** Application status (routes/applications.ts) *)
(* ===================================================================== *)

(** The values the [status] enum of the Application schema accepts. *)
Definition statusOfString (s : string) : option Application.Status :=
  if String.eqb s "submitted" then Some Application.Submitted
  else if String.eqb s "withdrawn" then Some Application.Withdrawn
  else if String.eqb s "shortlisted" then Some Application.Shortlisted
  else if String.eqb s "rejected" then Some Application.Rejected
  else if String.eqb s "hired" then Some Application.Hired
  else None.

Definition toUiStatus (status : string) : string :=
  if String.eqb status "rejected" then "rejected"
  else if String.eqb status "shortlisted" || String.eqb status "hired"
  then "accepted"
  else "waiting".

Definition set_application_status (s : Application.Status)
           (a : Application.doc) : Application.doc :=
  Application.mk (Application._id a) (Application.jobId a)
                 (Application.seekerDid a) (Application.recruiterDid a)
                 (Application.sharedVcIds a) s (Application.seekerProfile a).

(** PATCH /applications/:id/status.  The payload is the application and
    its [uiStatus].  ([interview], a [Mixed] path the document model does
    not carry, is left out; a status outside the enum fails validation in
    [app.save()].) *)
Definition patchStatus (env : Env) (session : option Session)
           (id : string) (status : option string)
  : M (Reply (Application.doc * string)) :=
  tryCatch
    (sessionDid <- lift (ApplicationRoutes.mustGetDid session) ;;
     if negb (JS.truthy status)
     then ret (Failed 400 "status required")
     else
       app <- query env "status/Application.findById"
                (fun st => Mongo.findOne (ApplicationRoutes.byAppId id)
                                         (applications st)) ;;
       match app with
       | None => ret (Failed 404 "Application not found")
       | Some app =>
           if negb (String.eqb (Application.recruiterDid app) sessionDid)
           then ret (Failed 403 "Forbidden")
           else
             match statusOfString (optString status) with
             | None => throw (ValidationError "status")
             | Some s =>
                 write env "status/app.save" Applications
                       (upd_applications
                          (Mongo.updateOne
                             (ApplicationRoutes.byAppId (Application._id app))
                             (set_application_status s))) ;;;
                 ret (Replied 200 (set_application_status s app,
                                   toUiStatus (optString status)))
             end
       end)
    (fun _ => ret (Failed 500 "Failed to update application status")).

(* ===================================================================== *)
(** ** The seeker's own credentials (routes/seekers.ts, session version) *)
(* ===================================================================== *)

(** [v.credentialId || v.id || v.credentialId] *)
Definition vcKey (v : Seeker.VcEntry) : option string :=
  if JS.truthy (Seeker.credentialId v) then Seeker.credentialId v
  else if JS.truthy (Seeker.id v) then Seeker.id v
  else Seeker.credentialId v.

(** [issued.map(...).filter(Boolean)] *)
Definition allowedIds (issued : list Seeker.VcEntry) : list string :=
  List.map optString (List.filter JS.truthy (List.map vcKey issued)).

Module SeekerVcRoutes.

(** PATCH /seekers/vcs/share-default; [None] is a body whose
    [defaultSharedVcIds] is not an array. *)
Definition patchShareDefault (env : Env) (session : option Session)
           (defaultSharedVcIds : option (list string))
  : M (Reply (list string)) :=
  tryCatch
    (match defaultSharedVcIds with
     | None => ret (Failed 400 "defaultSharedVcIds must be an array")
     | Some ids =>
         doc <- SeekerIdentity.findSeekerBySession env session ;;
         match doc with
         | None => ret (Failed 404 "Seeker not found")
         | Some doc =>
             (* Collect allowed credentialIds from issued VCs only *)
             let allowed := allowedIds (Seeker.vcs doc) in
             (* Keep only IDs that belong to this seeker *)
             let canonical := List.filter (JS.includes allowed) ids in
             writeChecked env "share-default/doc.save" Seekers
                          (saveSeeker
                             (Seeker.set_vcs_and_defaults (Seeker.vcs doc)
                                                          canonical doc)) ;;;
             ret (Replied 200 canonical)
         end
     end)
    (fun _ => ret (Failed 500 "Failed to update default VC sharing selection")).

(** [String(v.credentialId || v.id || "") === String(credentialId)] *)
Definition names (credentialId : string) (v : Seeker.VcEntry) : bool :=
  String.eqb (JS.orElse (Seeker.credentialId v) (JS.orElse (Seeker.id v) ""))
             credentialId.

(** GET /seekers/vcs/:credentialId; the payload is the stored signed
    document and the credential's id. *)
Definition getStoredVc (env : Env) (session : option Session)
           (credentialId : string) : M (Reply (Json * string)) :=
  tryCatch
    (if String.eqb credentialId ""
     then ret (Failed 400 "credentialId is required")
     else
       seeker <- SeekerIdentity.findSeekerBySession env session ;;
       match seeker with
       | None => ret (Failed 404 "Seeker not found")
       | Some seeker =>
           (* Ownership check *)
           if negb (existsb (names credentialId) (Seeker.vcs seeker))
           then ret (Failed 403 "Forbidden: VC does not belong to this seeker")
           else
             cred <- query env "vcs/Credential.findOne"
                       (fun st => Mongo.findOne
                                    (fun c => String.eqb (Credential.credentialId c)
                                                         credentialId)
                                    (credentials st)) ;;
             match cred with
             | None => ret (Failed 404 "Credential not found")
             | Some cred =>
                 if negb (jsonTruthy (Credential.vcRaw cred))
                 then ret (Failed 404 "vcRaw not found for this credential")
                 else
                   match Credential.vcRaw cred with
                   | Some (JStr raw) =>
                       (* keep as string if parsing fails *)
                       ret (Replied 200
                              (match JSON_parse env raw with
                               | Some vc => vc
                               | None => JStr raw
                               end,
                               Credential.credentialId cred))
                   | Some vc => ret (Replied 200 (vc, Credential.credentialId cred))
                   | None => ret (Failed 404 "vcRaw not found for this credential")
                   end
             end
       end)
    (fun _ => ret (Failed 500 "Failed to load stored VC for this credential")).

End SeekerVcRoutes.

(* ===================================================================== *)
(** ** Issuing a credential (routes/issuer.ts) *)
(* ===================================================================== *)

(** The [claims] of POST /issuer/vc/issue: the three members the route
    reads, typed as its casts type them, and the object itself. *)
Record Claims : Type := mkClaims {
  c_section : option string;
  c_credentialType : option string;
  c_title : option string;
  c_object : Json
}.

(** [a ?? b] on an optional string. *)
Definition nullish (a : option string) (b : string) : string :=
  match a with Some v => v | None => b end.

(** POST /issuer/vc/issue; the payload is the created Credential. *)
Definition issueVc (env : Env) (session : option Session)
           (user : option User.doc) (subjectDid : option string)
           (claims : option Claims) : M (Reply Credential.doc) :=
  match requireRoleActive IssuerRole user with
  | Some _ => ret (Failed 403 "Forbidden")
  | None =>
      tryCatch
        (s <- lift (mustGetSession session) ;;
         let did := option_map JS.trim (s_did s) in
         let email := option_map (fun e => JS.toLowerCase (JS.trim e)) (s_email s) in
         byDid <-
           (if JS.truthy did
            then query env "issue/Issuer.findOne(did)"
                   (fun st => Mongo.findOne
                                (fun i => String.eqb (Issuer.did i) (optString did))
                                (issuers st))
            else ret None) ;;
         issuer <-
           (match byDid with
            | Some i => ret (Some i)
            | None =>
                if JS.truthy email
                then query env "issue/Issuer.findOne(email)"
                       (fun st => Mongo.findOne (issuerHasEmail (optString email))
                                                (issuers st))
                else ret None
            end) ;;
         match issuer with
         | None => ret (Failed 404 "Issuer not found")
         | Some issuer =>
             match claims with
             | None => ret (Failed 400 "subjectDid and claims are required")
             | Some claims =>
                 if negb (JS.truthy subjectDid)
                 then ret (Failed 400 "subjectDid and claims are required")
                 else
                   let subjectDid := optString subjectDid in
                   let issuerDid := Issuer.did issuer in
                   let section := nullish (c_section claims) "recruiter" in
                   let credentialType :=
                     nullish (c_credentialType claims) "GenericCredential" in
                   let title :=
                     nullish (c_title claims)
                             (String.append "Verified "
                                (String.append credentialType
                                   (String.append " from " issuerDid))) in
                   issued <- external (SigningRequest subjectDid)
                               (issueSimpleVc env
                                  (mkPayload subjectDid issuerDid section title
                                             credentialType (c_object claims)))
                               "issueSimpleVc rejected" ;;
                   let cred :=
                     Credential.mk (vcId issued) subjectDid issuerDid (Some title)
                                   (vc_type issued) (Some (vc_issuanceDate issued))
                                   Credential.Active None None (Some (vc issued))
                                   None in
                   writeChecked env "issue/Credential.create" Credentials
                                (createCredential cred) ;;;
                   ret (Replied 201 cred)
             end
         end)
        (fun _ => ret (Failed 500 "Failed to issue VC"))
  end.

(* ===================================================================== *)
(** ** Trust shown on job listings (routes/jobs.ts) *)
(* ===================================================================== *)

Definition Kyc_eqb (a b : Recruiter.Kyc) : bool :=
  match a, b with
  | Recruiter.KycNone, Recruiter.KycNone
  | Recruiter.KycPending, Recruiter.KycPending
  | Recruiter.KycApproved, Recruiter.KycApproved
  | Recruiter.KycRejected, Recruiter.KycRejected => true
  | _, _ => false
  end.

(** The assignments [attachRecruiterMeta] makes to a job whose owner has
    a recruiter record. *)
Definition withRecruiterMeta (rec : Recruiter.doc) (doc : Job.doc) : Job.doc :=
  let kyc := Recruiter.kycStatus rec in
  let verified := badgeVerified (Some rec) in
  let put (v : bool) (t : string) :=
    Job.mk (Job._id doc) (Job.title doc) (Job.company doc) (Job.location doc)
           (Job.didOwner doc) (Some v) (Some t) in
  if Kyc_eqb kyc Recruiter.KycApproved && verified then put true "Active"
  else if Kyc_eqb kyc Recruiter.KycPending then put false "Suspended"
  else if Kyc_eqb kyc Recruiter.KycRejected then put false "Revoked"
  else put false "None".

(** [recruitersByDid.get(did)] after
    [recruiters.forEach(r => recruitersByDid.set(r.did, r))]. *)
Definition recruitersByDidGet (recruiters : list Recruiter.doc) (did : string)
  : option Recruiter.doc :=
  List.find (fun r => String.eqb (Recruiter.did r) did) (List.rev recruiters).

(** The DIDs [attachRecruiterMeta] asks the store for: the owners that
    are strings with something besides white space, without repeats. *)
Definition ownerDids (docs : list Job.doc) : list string :=
  nodup string_dec
        (List.filter (fun d => negb (String.eqb (JS.trim d) ""))
                     (List.flat_map (fun j => match Job.didOwner j with
                                              | Some d => [d]
                                              | None => []
                                              end)
                                    docs)).

(** [attachRecruiterMeta], up to the conversion of each document by
    [toJobDTO], which copies [verified] and [trustStatus]. *)
Definition attachRecruiterMeta (env : Env) (docs : list Job.doc)
  : M (list Job.doc) :=
  let dids := ownerDids docs in
  found <-
    (match dids with
     | [] => ret []
     | _ => query env "jobs/Recruiter.find"
              (fun st => Mongo.findMany
                           (fun r => JS.includes dids (Recruiter.did r))
                           (recruiters st))
     end) ;;
  ret (List.map
         (fun doc =>
            match (if JS.truthy (Job.didOwner doc)
                   then recruitersByDidGet found (optString (Job.didOwner doc))
                   else None)
            with
            | Some rec => withRecruiterMeta rec doc
            | None => doc
            end)
         docs).

(* ===================================================================== *)
(** ** Observations on the additional routes *)
(* ===================================================================== *)

(** Between two stores no recruiter gained a badge: every recruiter
    record of [st'] has the [_id], the DID and the badge of a record of
    [st], or holds the unverified badge a new record starts with. *)
Definition noBadgeGranted (st st' : Store) : Prop :=
  forall r', In r' (recruiters st') ->
    (exists r, In r (recruiters st)
               /\ Recruiter._id r = Recruiter._id r'
               /\ Recruiter.did r = Recruiter.did r'
               /\ Recruiter.badge r = Recruiter.badge r')
    \/ (badgeVerified (Some r') = false
        /\ storedBadgeStatus r' = Some "None").

(** An effect that reaches the ledger. *)
Definition isLedgerCall (e : Effect) : bool :=
  match e with
  | LedgerIssueBadge _ _ | LedgerRevokeBadge _ | LedgerRegisterDid _ => true
  | _ => false
  end.

(* ===================================================================== *)
(** * Properties *)
(* ===================================================================== *)

(** ** The string helpers on concrete inputs *)

Example trim_strips_both_ends : JS.trim "  did:key z6Mk   " = "did:key z6Mk".
Proof. reflexivity. Qed.

Example toLowerCase_on_address :
  JS.toLowerCase "0xAbCdEF0123" = "0xabcdef0123".
Proof. reflexivity. Qed.

Example isWalletAddress_accepts :
  JS.isWalletAddress "0x1111111111111111111111111111111111111111" = true.
Proof. reflexivity. Qed.

Example isWalletAddress_rejects_longer :
  JS.isWalletAddress "0x11111111111111111111111111111111111111112" = false.
Proof. reflexivity. Qed.

Example matchWalletAddress_inside_did :
  JS.matchWalletAddress
    "did:pkh:eip155:80002:0x1111111111111111111111111111111111111111"
  = Some "0x1111111111111111111111111111111111111111".
Proof. reflexivity. Qed.

Example deriveDidFromSession_prefers_pkh :
  SeekerIdentity.deriveDidFromSession
    (mkSession (Some " did:pkh:eip155:1:0xabc ") None
               (Some "0x1111111111111111111111111111111111111111") None)
  = Some "did:pkh:eip155:1:0xabc".
Proof. reflexivity. Qed.

Example deriveDidFromSession_falls_back :
  SeekerIdentity.deriveDidFromSession
    (mkSession (Some "did:privy:abc") None (Some "not-an-address") None)
  = Some "did:privy:abc".
Proof. reflexivity. Qed.

Example mustGetDid_trims :
  mustGetDid (Some (mkSession (Some " did:key:issuer1 ") None None None))
  = Ok "did:key:issuer1".
Proof. reflexivity. Qed.

(** ** Collections *)

Section CollectionFacts.
Context {A : Type}.
Implicit Types (p q : A -> bool) (f : A -> A) (coll : list A).

Lemma findOne_In p coll x :
  Mongo.findOne p coll = Some x -> In x coll /\ p x = true.
Proof. unfold Mongo.findOne. apply find_some. Qed.

Lemma findOne_None p coll x :
  Mongo.findOne p coll = None -> In x coll -> p x = false.
Proof. unfold Mongo.findOne. intros H. apply (find_none _ _ H). Qed.

Lemma findOne_updateOne_same p f coll :
  (forall x, p x = true -> p (f x) = true) ->
  Mongo.findOne p (Mongo.updateOne p f coll)
  = option_map f (Mongo.findOne p coll).
Proof.
  intros Hp. unfold Mongo.findOne.
  induction coll as [|x rest IH]; simpl; [reflexivity|].
  destruct (p x) eqn:E; simpl.
  - rewrite (Hp x E). reflexivity.
  - rewrite E. exact IH.
Qed.

Lemma findOne_updateOne_frame p q f coll :
  (forall x, q (f x) = q x) ->
  (forall x, q x = true -> f x = x \/ p x = false) ->
  Mongo.findOne q (Mongo.updateOne p f coll) = Mongo.findOne q coll.
Proof.
  intros Hq Hfix. unfold Mongo.findOne.
  induction coll as [|x rest IH]; simpl; [reflexivity|].
  destruct (p x) eqn:E; simpl.
  - rewrite Hq. destruct (q x) eqn:Q; [|reflexivity].
    destruct (Hfix x Q) as [F|F]; [rewrite F; reflexivity | congruence].
  - destruct (q x); [reflexivity | exact IH].
Qed.

Lemma In_updateOne p f coll y :
  In y (Mongo.updateOne p f coll) ->
  In y coll \/ exists x, In x coll /\ p x = true /\ y = f x.
Proof.
  induction coll as [|x rest IH]; simpl; [tauto|].
  destruct (p x) eqn:E; simpl.
  - intros [<-|H]; [right; exists x; auto | left; auto].
  - intros [<-|H]; [left; auto|].
    destruct (IH H) as [H'|[z [Hz [Pz ->]]]]; [left; auto|].
    right; exists z; auto.
Qed.

Lemma updateOne_none p f coll :
  (forall x, In x coll -> p x = false) -> Mongo.updateOne p f coll = coll.
Proof.
  induction coll as [|x rest IH]; simpl; intros H; [reflexivity|].
  rewrite (H x (or_introl eq_refl)). f_equal. apply IH. intros; apply H; auto.
Qed.

Lemma In_updateMany p f coll y :
  In y (Mongo.updateMany p f coll) ->
  exists x, In x coll /\ y = (if p x then f x else x).
Proof.
  unfold Mongo.updateMany. rewrite in_map_iff.
  intros [x [<- Hx]]. exists x; auto.
Qed.

Lemma In_deleteMany p coll y :
  In y (Mongo.deleteMany p coll) <-> In y coll /\ p y = false.
Proof.
  unfold Mongo.deleteMany. rewrite filter_In.
  destruct (p y); simpl; intuition congruence.
Qed.


End CollectionFacts.

Lemma includes_In arr v : JS.includes arr v = true <-> In v arr.
Proof.
  unfold JS.includes. rewrite existsb_exists. split.
  - intros [x [Hx E]]. apply String.eqb_eq in E. subst; assumption.
  - intros H. exists v. split; [assumption | apply String.eqb_refl].
Qed.

Lemma pull_spec v arr x : In x (Mongo.pull v arr) <-> In x arr /\ x <> v.
Proof.
  unfold Mongo.pull. rewrite filter_In.
  destruct (String.eqb_spec x v); simpl; intuition congruence.
Qed.

Lemma pull_removes v arr : ~ In v (Mongo.pull v arr).
Proof. rewrite pull_spec. tauto. Qed.

(** ** The handler monad *)

Lemma await_accepts {A} env site (m : M A) st :
  rejects env site = false -> await env site m st = m st.
Proof. unfold await. intros ->. reflexivity. Qed.

Lemma await_rejects {A} env site (m : M A) st :
  rejects env site = true ->
  await env site m st = (Thrown (JsError "store call rejected"), st).
Proof. unfold await. intros ->. reflexivity. Qed.

Lemma documents_record e st : documents (record e st) = documents st.
Proof. reflexivity. Qed.

(** ** Role-state derivation *)

Lemma badgeStatusOrNone_stored r s :
  storedBadgeStatus r = Some s -> badgeStatusOrNone r = s.
Proof.
  unfold storedBadgeStatus, badgeStatusOrNone.
  destruct (Recruiter.badge r) as [b|]; [|discriminate].
  destruct (Recruiter.status b); congruence.
Qed.

Lemma roleState_active_inv r :
  computeRecruiterRoleState (Some r) = active ->
  Recruiter.onboarded r = true /\ storedBadgeStatus r = Some "Active".
Proof.
  unfold computeRecruiterRoleState, storedBadgeStatus, badgeStatusOrNone.
  destruct (Recruiter.onboarded r); simpl; [|discriminate].
  destruct (Recruiter.badge r) as [b|]; simpl.
  - destruct (Recruiter.status b) as [s|]; simpl.
    + destruct (String.eqb_spec s "Active") as [->|]; [auto|].
      destruct (String.eqb s "Pending"); [discriminate|].
      destruct (String.eqb s "Revoked" || String.eqb s "Rejected"); discriminate.
    + discriminate.
  - discriminate.
Qed.

(** C6. The recruiter role state is a function of the recruiter record
    alone: [none] without a record or when the record is not onboarded,
    whatever badge status is stored; otherwise Active gives [active],
    Pending gives [pending], Revoked and Rejected give [rejected], and any
    other or missing badge status gives [pending]; an onboarded recruiter
    whose badge status is not Active is never [active]. *)
Theorem computeRecruiterRoleState_table (recruiter : option Recruiter.doc) :
  (recruiter = None -> computeRecruiterRoleState recruiter = none)
  /\ (forall r, recruiter = Some r -> Recruiter.onboarded r = false ->
        computeRecruiterRoleState recruiter = none)
  /\ (forall r, recruiter = Some r -> Recruiter.onboarded r = true ->
        (storedBadgeStatus r = Some "Active" ->
           computeRecruiterRoleState recruiter = active)
        /\ (storedBadgeStatus r = Some "Pending" ->
           computeRecruiterRoleState recruiter = pending)
        /\ (storedBadgeStatus r = Some "Revoked"
            \/ storedBadgeStatus r = Some "Rejected" ->
           computeRecruiterRoleState recruiter = rejected)
        /\ (storedBadgeStatus r <> Some "Active" ->
            storedBadgeStatus r <> Some "Pending" ->
            storedBadgeStatus r <> Some "Revoked" ->
            storedBadgeStatus r <> Some "Rejected" ->
           computeRecruiterRoleState recruiter = pending)
        /\ (storedBadgeStatus r <> Some "Active" ->
           computeRecruiterRoleState recruiter <> active)).
Proof.
  split; [intros ->; reflexivity|].
  split; [intros r -> H; unfold computeRecruiterRoleState; rewrite H; reflexivity|].
  intros r -> Hon.
  repeat split.
  - intros H. unfold computeRecruiterRoleState.
    rewrite Hon, (badgeStatusOrNone_stored _ _ H). reflexivity.
  - intros H. unfold computeRecruiterRoleState.
    rewrite Hon, (badgeStatusOrNone_stored _ _ H). reflexivity.
  - intros [H|H]; unfold computeRecruiterRoleState;
      rewrite Hon, (badgeStatusOrNone_stored _ _ H); reflexivity.
  - intros NA NP NR NJ. unfold computeRecruiterRoleState. rewrite Hon. simpl.
    unfold storedBadgeStatus, badgeStatusOrNone in *.
    destruct (Recruiter.badge r) as [b|]; [|reflexivity].
    destruct (Recruiter.status b) as [s|]; [|reflexivity].
    destruct (String.eqb_spec s "Active") as [->|]; [congruence|].
    destruct (String.eqb_spec s "Pending") as [->|]; [congruence|].
    destruct (String.eqb_spec s "Revoked") as [->|]; [congruence|].
    destruct (String.eqb_spec s "Rejected") as [->|]; [congruence|].
    reflexivity.
  - intros NA H. apply roleState_active_inv in H. tauto.
Qed.

Lemma computeRecruiterRoleState_table_witness :
  computeRecruiterRoleState (Some Fixture.org) = active
  /\ computeRecruiterRoleState (Some Fixture.pendingOrg) <> active.
Proof.
  split.
  - destruct (computeRecruiterRoleState_table (Some Fixture.org))
      as (_ & _ & H).
    destruct (H Fixture.org eq_refl eq_refl) as (Hactive & _).
    apply Hactive. reflexivity.
  - destruct (computeRecruiterRoleState_table (Some Fixture.pendingOrg))
      as (_ & _ & H).
    destruct (H Fixture.pendingOrg eq_refl eq_refl) as (_ & _ & _ & _ & Hnever).
    apply Hnever. discriminate.
Defined.

(** ** Trust-status reads *)

Lemma getRecruiterTrustStatusFromChain_on_failure env did :
  ledgerReadFails env did ->
  getRecruiterTrustStatusFromChain env did = "None".
Proof.
  unfold getRecruiterTrustStatusFromChain.
  intros [[e ->]|H]; [reflexivity|].
  destruct (getTrustBadgeRegistryContract env); [|reflexivity].
  rewrite H. reflexivity.
Qed.

(** C8, as the code has it.  A trust-status read never fails its caller
    because of the ledger.  With a registry address configured, a ledger
    that cannot be reached or whose read errors is answered with "None",
    whatever the local record says; the local record is consulted only
    when no registry address is configured, and then the answer is
    "Active" exactly when the local badge's verified flag is true (the
    KYC status is not read) and "None" otherwise. *)
Theorem computeTrustStatusForJob_degrades env didOwner st :
  (TRUST_BADGE_REGISTRY_ADDR env = true ->
   ledgerReadFails env didOwner ->
   computeTrustStatusForJob env didOwner st = (Ok "None", st))
  /\ (TRUST_BADGE_REGISTRY_ADDR env = false ->
      rejects env "jobs/Recruiter.findOne" = false ->
      computeTrustStatusForJob env didOwner st
      = (Ok (if badgeVerified
                  (Mongo.findOne (fun r => String.eqb (Recruiter.did r) didOwner)
                                 (recruiters st))
             then "Active" else "None"), st)).
Proof.
  unfold computeTrustStatusForJob. split.
  - intros -> F. rewrite (getRecruiterTrustStatusFromChain_on_failure _ _ F).
    reflexivity.
  - intros -> R. unfold bind, query. rewrite (await_accepts _ _ _ _ R).
    destruct (badgeVerified _); reflexivity.
Qed.

Lemma computeTrustStatusForJob_degrades_witness :
  computeTrustStatusForJob Fixture.envLedgerDown Fixture.orgDid Fixture.store
  = (Ok "None", Fixture.store)
  /\ computeTrustStatusForJob Fixture.envNoRegistry Fixture.orgDid Fixture.store
     = (Ok "Active", Fixture.store).
Proof.
  split.
  - apply (computeTrustStatusForJob_degrades Fixture.envLedgerDown);
      [reflexivity | right; reflexivity].
  - apply (computeTrustStatusForJob_degrades Fixture.envNoRegistry
             Fixture.orgDid Fixture.store); reflexivity.
Defined.

(** C8, as the claim states it, fails: the organisation is KYC-approved
    and its local badge is verified, the registry is configured and the
    ledger read errors; the read answers "None", not "Active". *)
Lemma trust_read_ignores_local_record_on_ledger_error :
  Recruiter.kycStatus Fixture.org = Recruiter.KycApproved
  /\ badgeVerified (Some Fixture.org) = true
  /\ Mongo.findOne (fun r => String.eqb (Recruiter.did r) Fixture.orgDid)
                   (recruiters Fixture.store) = Some Fixture.org
  /\ ledgerReadFails Fixture.envLedgerDown Fixture.orgDid
  /\ fst (computeTrustStatusForJob Fixture.envLedgerDown Fixture.orgDid
                                   Fixture.store) = Ok "None".
Proof.
  repeat split; try reflexivity. right; reflexivity.
Qed.

(** ** Duplicate applications *)

(** C10. Creating an application is idempotent per (jobId, seeker DID):
    when an application for the job and the session's seeker already
    exists, a create call leaves the whole store as it was (no new
    application, no new disclosure), and answers 200 with the existing
    application marked alreadyApplied. *)
Theorem createApplication_idempotent
        env session jobId recruiterDid sharedVcIds st existing :
  JS.truthy (sessionDid session) = true ->
  JS.truthy jobId = true ->
  JS.truthy recruiterDid = true ->
  Mongo.findOne (sameJobAndSeeker (optString jobId)
                                  (JS.trim (optString (sessionDid session))))
                (applications st) = Some existing ->
  snd (ApplicationRoutes.createApplication env session jobId recruiterDid
                                           sharedVcIds st) = st
  /\ (rejects env "create/Application.findOne" = false ->
      fst (ApplicationRoutes.createApplication env session jobId recruiterDid
                                               sharedVcIds st)
      = Ok (mkResponse 200 (AlreadyAppliedBody existing))).
Proof.
  intros Hs Hj Hr Hfind.
  unfold ApplicationRoutes.createApplication, tryCatch, bind, query.
  rewrite Hs, Hj, Hr. simpl.
  unfold await. destruct (rejects env "create/Application.findOne").
  - split; [reflexivity | discriminate].
  - rewrite Hfind. split; reflexivity.
Qed.

Lemma createApplication_idempotent_witness :
  snd (ApplicationRoutes.createApplication
         Fixture.env Fixture.holderSession (Some "job-1")
         (Some Fixture.orgDid) (Some ["vc-1"]) Fixture.store) = Fixture.store
  /\ fst (ApplicationRoutes.createApplication
            Fixture.env Fixture.holderSession (Some "job-1")
            (Some Fixture.orgDid) (Some ["vc-1"]) Fixture.store)
     = Ok (mkResponse 200 (AlreadyAppliedBody Fixture.app)).
Proof.
  destruct (createApplication_idempotent
              Fixture.env Fixture.holderSession (Some "job-1")
              (Some Fixture.orgDid) (Some ["vc-1"]) Fixture.store Fixture.app)
    as [H1 H2]; try reflexivity.
  split; [exact H1 | apply H2; reflexivity].
Defined.

(** ** Invariants kept by handler steps *)

Section Preservation.
Variable I : Store -> Prop.

Lemma preserves_ret {A} (a : A) : preserves I (ret a).
Proof. intros st r st' H E. inversion E; subst; assumption. Qed.

Lemma preserves_throw {A} e : preserves I (@throw A e).
Proof. intros st r st' H E. inversion E; subst; assumption. Qed.

Lemma preserves_lift {A} (o : Outcome A) : preserves I (lift o).
Proof. intros st r st' H E. inversion E; subst; assumption. Qed.

Lemma preserves_respond c b : preserves I (respond c b).
Proof. apply preserves_ret. Qed.

Lemma preserves_bind {A B} (m : M A) (k : A -> M B) :
  preserves I m -> (forall a, preserves I (k a)) -> preserves I (bind m k).
Proof.
  intros Hm Hk st r st' H. unfold bind.
  destruct (m st) as [[a|e] st1] eqn:E; intros E'.
  - eapply Hk; [eapply Hm; eassumption | eassumption].
  - inversion E'; subst. eapply Hm; eassumption.
Qed.

Lemma preserves_tryCatch {A} (m : M A) (h : Err -> M A) :
  preserves I m -> (forall e, preserves I (h e)) -> preserves I (tryCatch m h).
Proof.
  intros Hm Hh st r st' H. unfold tryCatch.
  destruct (m st) as [[a|e] st1] eqn:E; intros E'.
  - inversion E'; subst. eapply Hm; eassumption.
  - eapply Hh; [eapply Hm; eassumption | eassumption].
Qed.

Lemma preserves_await {A} env site (m : M A) :
  preserves I m -> preserves I (await env site m).
Proof.
  intros Hm st r st' H. unfold await.
  destruct (rejects env site); intros E.
  - inversion E; subst; assumption.
  - eapply Hm; eassumption.
Qed.

Lemma preserves_query {A} env site (f : Store -> A) :
  preserves I (query env site f).
Proof.
  apply preserves_await. intros st r st' H E. inversion E; subst; assumption.
Qed.

Lemma preserves_write env site c f :
  (forall st, I st -> I (record (Wrote site c) (f st))) ->
  preserves I (write env site c f).
Proof.
  intros Hf. apply preserves_await.
  intros st r st' H E. inversion E; subst. apply Hf; assumption.
Qed.

Lemma preserves_writeChecked env site c f :
  (forall st st1, I st -> f st = Ok st1 -> I (record (Wrote site c) st1)) ->
  preserves I (writeChecked env site c f).
Proof.
  intros Hf. apply preserves_await.
  intros st r st' H. destruct (f st) as [st1|e] eqn:E; intros E'.
  - inversion E'; subst. eapply Hf; eassumption.
  - inversion E'; subst; assumption.
Qed.

Lemma preserves_external {A} e (answer : option A) failure :
  (forall st, I st -> I (record e st)) ->
  preserves I (external e answer failure).
Proof.
  intros He st r st' H. unfold external.
  destruct answer; intros E; inversion E; subst; apply He; assumption.
Qed.

End Preservation.

Lemma tryCatch_bind_ok {A B} (m : M A) (k : A -> M B) h st a st1 :
  m st = (Ok a, st1) -> tryCatch (bind m k) h st = tryCatch (k a) h st1.
Proof. intros E. unfold tryCatch, bind. rewrite E. reflexivity. Qed.

Lemma tryCatch_bind_thrown {A B} (m : M A) (k : A -> M B) h st e st1 :
  m st = (Thrown e, st1) -> tryCatch (bind m k) h st = h e st1.
Proof. intros E. unfold tryCatch, bind. rewrite E. reflexivity. Qed.

Lemma bind_ok {A B} (m : M A) (k : A -> M B) st a st1 :
  m st = (Ok a, st1) -> bind m k st = k a st1.
Proof. intros E. unfold bind. rewrite E. reflexivity. Qed.

Lemma bind_thrown {A B} (m : M A) (k : A -> M B) st e st1 :
  m st = (Thrown e, st1) -> bind m k st = (Thrown e, st1).
Proof. intros E. unfold bind. rewrite E. reflexivity. Qed.

Lemma query_accepts {A} env site (f : Store -> A) st :
  rejects env site = false -> query env site f st = (Ok (f st), st).
Proof. intros R. unfold query. rewrite await_accepts by assumption. reflexivity. Qed.

Lemma query_rejects {A} env site (f : Store -> A) st :
  rejects env site = true ->
  query env site f st = (Thrown (JsError "store call rejected"), st).
Proof. intros R. unfold query. apply await_rejects; assumption. Qed.

Lemma write_accepts env site c f st :
  rejects env site = false ->
  write env site c f st = (Ok tt, record (Wrote site c) (f st)).
Proof. intros R. unfold write. rewrite await_accepts by assumption. reflexivity. Qed.

Lemma write_rejects env site c f st :
  rejects env site = true ->
  write env site c f st = (Thrown (JsError "store call rejected"), st).
Proof. intros R. unfold write. apply await_rejects; assumption. Qed.

(** ** Revocation *)

Lemma traceExtends_record prefix e st :
  traceExtends prefix st -> traceExtends prefix (record e st).
Proof.
  intros [later H]. exists (later ++ [e]). simpl. rewrite H.
  symmetry. apply app_assoc.
Qed.

Lemma ownedCredential_set_status cid did s c :
  ownedCredential cid did (Credential.set_status s c) = ownedCredential cid did c.
Proof. reflexivity. Qed.

Lemma ownedCredential_set_tx cid did h c :
  ownedCredential cid did (Credential.set_revocationTxHash h c)
  = ownedCredential cid did c.
Proof. reflexivity. Qed.

Lemma readsRevoked_after_update cid did st cred :
  Mongo.findOne (ownedCredential cid did) (credentials st) = Some cred ->
  readsRevoked cid did
    (upd_credentials
       (Mongo.updateOne (ownedCredential cid did)
                        (Credential.set_status Credential.Revoked)) st).
Proof.
  intros H. exists (Credential.set_status Credential.Revoked cred). split.
  - simpl. rewrite findOne_updateOne_same.
    + rewrite H. reflexivity.
    + intros x Hx. rewrite ownedCredential_set_status. exact Hx.
  - reflexivity.
Qed.

Lemma readsRevoked_keeps_tx cid did h st :
  readsRevoked cid did st ->
  readsRevoked cid did
    (upd_credentials
       (Mongo.updateOne (ownedCredential cid did)
                        (Credential.set_revocationTxHash h)) st).
Proof.
  intros [c [H S]]. exists (Credential.set_revocationTxHash h c). split.
  - simpl. rewrite findOne_updateOne_same.
    + rewrite H. reflexivity.
    + intros x Hx. rewrite ownedCredential_set_tx. exact Hx.
  - exact S.
Qed.

(** Splits a goal [preserves I m] along the structure of [m]; what is left
    are the obligations of the writes and external calls. *)
Ltac preserve :=
  repeat first
    [ apply preserves_ret
    | apply preserves_respond
    | apply preserves_lift
    | apply preserves_query
    | apply preserves_bind; [| intros ?]
    | apply preserves_tryCatch; [| intros ?]
    | apply preserves_write; intros ? ?
    | apply preserves_writeChecked; intros ? ? ? ?
    | apply preserves_external; intros ? ?
    | match goal with
      | |- preserves _ (if ?b then _ else _) => destruct b
      | |- preserves _ (match ?x with _ => _ end) => destruct x
      end ].

(** C1. On an existing credential owned by the calling issuer, the
    revocation route sets the credential's status to revoked in the
    Credential Store before any downstream effect: nothing at all has
    happened when the lookup or the status update rejects, and otherwise
    the status update is the first effect of the request and the
    credential reads back as revoked, whether the later steps (ledger
    revocation, badge update, holder repair, disclosure cleanup) succeed
    or fail. *)
Theorem revoke_marks_credential_first
        env session user credentialId reason st issuerDid cred r st' :
  requireRoleActive IssuerRole user = None ->
  JS.truthy credentialId = true ->
  mustGetDid session = Ok issuerDid ->
  Mongo.findOne (ownedCredential (optString credentialId) issuerDid)
                (credentials st) = Some cred ->
  revokeVc env session user credentialId reason st = (r, st') ->
  (rejects env "revoke/Credential.findOne" = true
   \/ rejects env "revoke/Credential.findOneAndUpdate" = true ->
   st' = st)
  /\ (rejects env "revoke/Credential.findOne" = false ->
      rejects env "revoke/Credential.findOneAndUpdate" = false ->
      readsRevoked (optString credentialId) issuerDid st'
      /\ traceExtends
           (trace st ++ [Wrote "revoke/Credential.findOneAndUpdate" Credentials])
           st').
Proof.
  intros Hgate Hcid Hdid Hfind.
  unfold revokeVc. rewrite Hgate, Hcid. simpl.
  rewrite (bind_ok _ _ st issuerDid st) by (unfold lift; rewrite Hdid; reflexivity).
  destruct (rejects env "revoke/Credential.findOne") eqn:R1.
  { rewrite (tryCatch_bind_thrown _ _ _ _ _ _ (query_rejects _ _ _ _ R1)).
    intros E; inversion E; subst. split; [reflexivity | discriminate]. }
  rewrite (tryCatch_bind_ok _ _ _ _ _ _ (query_accepts _ _ _ _ R1)).
  rewrite Hfind.
  destruct (rejects env "revoke/Credential.findOneAndUpdate") eqn:R2.
  { rewrite (tryCatch_bind_thrown _ _ _ st (JsError "store call rejected") st)
      by (unfold findOneAndUpdateCredential; apply await_rejects; exact R2).
    intros E; inversion E; subst. split; [reflexivity | discriminate]. }
  erewrite tryCatch_bind_ok
    by (unfold findOneAndUpdateCredential; rewrite await_accepts by exact R2;
        reflexivity).
  intros E. split; [intros [?|?]; discriminate|]. intros _ _.
  revert E.
  match goal with
  | |- tryCatch ?m ?h ?st1 = _ -> _ =>
      assert (P : preserves
                    (fun s => readsRevoked (optString credentialId) issuerDid s
                              /\ traceExtends
                                   (trace st ++ [Wrote "revoke/Credential.findOneAndUpdate" Credentials]) s)
                    (tryCatch m h))
  end.
  { preserve;
      match goal with
      | H : _ /\ _ |- _ => destruct H as [Hrev Htr]
      end;
      (split; [| apply traceExtends_record; exact Htr]);
      try exact Hrev.
    apply readsRevoked_keeps_tx. exact Hrev. }
  intros E. eapply P; [|exact E]. split.
  - apply readsRevoked_after_update with (cred := cred). exact Hfind.
  - exists []. simpl. rewrite app_nil_r. reflexivity.
Qed.

Lemma revoke_marks_credential_first_witness :
  let run := revokeVc Fixture.envRepairDown Fixture.issuerSession
                      (Some Fixture.issuerUser) (Some "vc-1") None
                      Fixture.store in
  fst run = Ok (mkResponse 500 (ErrorBody "Failed to revoke VC"))
  /\ readsRevoked "vc-1" Fixture.issuerDid (snd run)
  /\ traceExtends [Wrote "revoke/Credential.findOneAndUpdate" Credentials]
                  (snd run).
Proof.
  split; [reflexivity|].
  destruct (revoke_marks_credential_first
              Fixture.envRepairDown Fixture.issuerSession
              (Some Fixture.issuerUser) (Some "vc-1") None Fixture.store
              Fixture.issuerDid Fixture.personalVc
              (fst (revokeVc Fixture.envRepairDown Fixture.issuerSession
                             (Some Fixture.issuerUser) (Some "vc-1") None
                             Fixture.store))
              (snd (revokeVc Fixture.envRepairDown Fixture.issuerSession
                             (Some Fixture.issuerUser) (Some "vc-1") None
                             Fixture.store)))
    as [_ H]; try reflexivity.
  apply H; reflexivity.
Defined.

(** What the route does to a holder's record. *)
Lemma repairHolder_spec cid h :
  (forall v, In v (Seeker.vcs (repairHolder cid h)) ->
             Seeker.credentialId v = Some cid ->
             Seeker.status v = Some "revoked")
  /\ ~ In cid (Seeker.defaultSharedVcIds (repairHolder cid h)).
Proof.
  split.
  - simpl. intros v Hv Hc. apply in_map_iff in Hv. destruct Hv as [v0 [<- _]].
    destruct (Seeker.credentialId v0) as [c|] eqn:E.
    + destruct (String.eqb_spec c cid) as [->|N].
      * reflexivity.
      * rewrite E in Hc. congruence.
    + rewrite E in Hc. discriminate.
  - simpl. apply pull_removes.
Qed.

Lemma seekerHasDid_repairHolder did cid h :
  seekerHasDid did (repairHolder cid h) = seekerHasDid did h.
Proof. reflexivity. Qed.

(** C2. When the revocation route revokes a personal credential (one that
    is not an organisation-trust credential) and answers 200, then
    afterwards the credential reads back as revoked, every entry for it
    in the holder's issued-credentials list has status revoked, its id is
    absent from the holder's defaultSharedVcIds and from every
    application's sharedVcIds, and no SharedProof record carries its id. *)
Theorem revoke_personal_cascade_complete
        env session user credentialId reason st issuerDid cred resp st' :
  requireRoleActive IssuerRole user = None ->
  JS.truthy credentialId = true ->
  mustGetDid session = Ok issuerDid ->
  Mongo.findOne (ownedCredential (optString credentialId) issuerDid)
                (credentials st) = Some cred ->
  JS.includes (Credential.type cred) "RecruiterCredential" = false ->
  revokeVc env session user credentialId reason st = (Ok resp, st') ->
  code resp = 200 ->
  readsRevoked (optString credentialId) issuerDid st'
  /\ (forall holder,
        Mongo.findOne (seekerHasDid (Credential.subjectDid cred)) (seekers st')
        = Some holder ->
        (forall v, In v (Seeker.vcs holder) ->
                   Seeker.credentialId v = Some (optString credentialId) ->
                   Seeker.status v = Some "revoked")
        /\ ~ In (optString credentialId) (Seeker.defaultSharedVcIds holder))
  /\ (forall a, In a (applications st') ->
                ~ In (optString credentialId) (Application.sharedVcIds a))
  /\ (forall p, In p (sharedProofs st') ->
                SharedProof.vcId p <> optString credentialId).
Proof.
  intros Hgate Hcid Hdid Hfind Hkind Hrun Hcode.
  revert Hrun. unfold revokeVc. rewrite Hgate, Hcid. simpl.
  rewrite (bind_ok _ _ st issuerDid st)
    by (unfold lift; rewrite Hdid; reflexivity).
  unfold tryCatch, bind, query, findOneAndUpdateCredential, write, await, respond, ret.
  destruct (rejects env "revoke/Credential.findOne");
    [intros E; inversion E; subst; discriminate|].
  rewrite Hfind.
  destruct (rejects env "revoke/Credential.findOneAndUpdate");
    [intros E; inversion E; subst; discriminate|].
  rewrite Hkind.
  destruct (rejects env "revoke/Seeker.updateOne");
    [intros E; inversion E; subst; discriminate|].
  destruct (rejects env "revoke/Application.updateMany");
    [intros E; inversion E; subst; discriminate|].
  destruct (rejects env "revoke/SharedProof.deleteMany");
    [intros E; inversion E; subst; discriminate|].
  intros E; inversion E; subst; clear E.
  split; [apply readsRevoked_after_update with (cred := cred); exact Hfind|].
  simpl. split; [|split].
  - intros holder. rewrite findOne_updateOne_same
      by (intros x Hx; rewrite seekerHasDid_repairHolder; exact Hx).
    destruct (Mongo.findOne _ (seekers st)) as [h0|]; simpl; [|discriminate].
    intros E; inversion E; subst. apply repairHolder_spec.
  - intros a Ha. apply In_updateMany in Ha. destruct Ha as [a0 [_ ->]].
    destruct (JS.includes (Application.sharedVcIds a0) (optString credentialId)) eqn:I.
    + simpl. apply pull_removes.
    + intros H. apply includes_In in H. congruence.
  - intros p Hp. apply In_deleteMany in Hp. destruct Hp as [_ Hp].
    intros H. rewrite H, String.eqb_refl in Hp. discriminate.
Qed.

Lemma revoke_personal_cascade_complete_witness :
  let run := revokeVc Fixture.env Fixture.issuerSession
                      (Some Fixture.issuerUser) (Some "vc-1") None
                      Fixture.store in
  readsRevoked "vc-1" Fixture.issuerDid (snd run)
  /\ (forall a, In a (applications (snd run)) ->
                ~ In "vc-1" (Application.sharedVcIds a))
  /\ (forall p, In p (sharedProofs (snd run)) -> SharedProof.vcId p <> "vc-1").
Proof.
  destruct (revoke_personal_cascade_complete
              Fixture.env Fixture.issuerSession (Some Fixture.issuerUser)
              (Some "vc-1") None Fixture.store Fixture.issuerDid
              Fixture.personalVc
              (mkResponse 200
                 (RevokedBody "unspecified"
                    (Some (Credential.set_status Credential.Revoked
                                                 Fixture.personalVc))
                    None))
              (snd (revokeVc Fixture.env Fixture.issuerSession
                             (Some Fixture.issuerUser) (Some "vc-1") None
                             Fixture.store)))
    as (H1 & _ & H3 & H4); try reflexivity.
  repeat split; assumption.
Defined.

(** C2, as the claim states it, fails: the store rejects the repair of
    the holder's record, the first cleanup step.  The route answers 500;
    the personal credential is revoked all the same, while the holder's
    entry for it still has status active, its id is still among the
    holder's defaultSharedVcIds and the application's sharedVcIds, and
    the SharedProof record that carries it is still stored. *)
Lemma revoked_personal_credential_with_cleanup_undone :
  let run := revokeVc Fixture.envRepairDown Fixture.issuerSession
                      (Some Fixture.issuerUser) (Some "vc-1") None
                      Fixture.store in
  JS.includes (Credential.type Fixture.personalVc) "RecruiterCredential" = false
  /\ fst run = Ok (mkResponse 500 (ErrorBody "Failed to revoke VC"))
  /\ Mongo.findOne (ownedCredential "vc-1" Fixture.issuerDid)
                   (credentials (snd run))
     = Some (Credential.set_status Credential.Revoked Fixture.personalVc)
  /\ Mongo.findOne (seekerHasDid Fixture.holderDid) (seekers (snd run))
     = Some Fixture.holder
  /\ List.map (fun v => (Seeker.credentialId v, Seeker.status v))
              (Seeker.vcs Fixture.holder)
     = [(Some "vc-1", Some "active")]
  /\ In "vc-1" (Seeker.defaultSharedVcIds Fixture.holder)
  /\ applications (snd run) = [Fixture.app]
  /\ In "vc-1" (Application.sharedVcIds Fixture.app)
  /\ sharedProofs (snd run) = [Fixture.disclosure]
  /\ SharedProof.vcId Fixture.disclosure = "vc-1".
Proof.
  repeat split; try reflexivity; simpl; auto.
Qed.

(** ** Revocation of an organisation's trust credential *)

Lemma findOne_updateOne_by_key {A} (key : A -> string) p f (coll : list A) r :
  NoDup (List.map key coll) ->
  Mongo.findOne p coll = Some r ->
  p (f r) = true ->
  Mongo.findOne p (Mongo.updateOne (fun x => String.eqb (key x) (key r)) f coll)
  = Some (f r).
Proof.
  unfold Mongo.findOne. intros ND Hfind Hp.
  induction coll as [|x rest IH]; simpl in *; [discriminate|].
  inversion ND as [|? ? Hnotin ND']; subst.
  destruct (p x) eqn:E.
  - inversion Hfind; subst. rewrite String.eqb_refl. simpl. rewrite Hp. reflexivity.
  - destruct (String.eqb_spec (key x) (key r)) as [K|K].
    + exfalso. apply Hnotin. rewrite K. apply in_map.
      apply (find_some _ _ Hfind).
    + simpl. rewrite E. apply IH; assumption.
Qed.

Lemma revokedBadge_status env reason tx r :
  storedBadgeStatus (revokedBadge env reason tx r) = Some "Revoked"
  /\ badgeVerified (Some (revokedBadge env reason tx r)) = false
  /\ Recruiter.did (revokedBadge env reason tx r) = Recruiter.did r
  /\ Recruiter.onboarded (revokedBadge env reason tx r) = Recruiter.onboarded r
  /\ Recruiter.kycStatus (revokedBadge env reason tx r) = Recruiter.kycStatus r.
Proof. repeat split. Qed.

(** C7. An organisation is KYC-approved, its badge status is Active and its
    derived recruiter role state is active; the issuer revokes its trust
    credential and the route answers 200.  Then the persisted recruiter
    record has badge status Revoked (and is no longer verified), its
    derived role state is rejected, and the role-state synchronisation of
    the organisation's next request replaces a cached active recruiter
    role state by rejected and saves it. *)
Theorem revoke_trust_credential_rejects_recruiter
        env session user credentialId reason st issuerDid cred org resp st' :
  requireRoleActive IssuerRole user = None ->
  JS.truthy credentialId = true ->
  mustGetDid session = Ok issuerDid ->
  Mongo.findOne (ownedCredential (optString credentialId) issuerDid)
                (credentials st) = Some cred ->
  JS.includes (Credential.type cred) "RecruiterCredential" = true ->
  NoDup (List.map Recruiter._id (recruiters st)) ->
  Mongo.findOne (fun r => String.eqb (Recruiter.did r) (Credential.subjectDid cred))
                (recruiters st) = Some org ->
  Recruiter.kycStatus org = Recruiter.KycApproved ->
  storedBadgeStatus org = Some "Active" ->
  computeRecruiterRoleState (Some org) = active ->
  revokeVc env session user credentialId reason st = (Ok resp, st') ->
  code resp = 200 ->
  exists org',
    Mongo.findOne (fun r => String.eqb (Recruiter.did r) (Recruiter.did org))
                  (recruiters st') = Some org'
    /\ storedBadgeStatus org' = Some "Revoked"
    /\ badgeVerified (Some org') = false
    /\ computeRecruiterRoleState (Some org') = rejected
    /\ forall env' session' u out st'',
        sessionDidTrimmed session' = Some (Recruiter.did org) ->
        Recruiter.did org <> "" ->
        User.recruiter (User.roles u) = active ->
        syncRecruiterRoleFromRecruiterDoc env' session' (Some u) st'
        = (Ok out, st'') ->
        out = Some (set_recruiter_role rejected u)
        /\ users st''
           = Mongo.updateOne
               (fun x => String.eqb (User.privyUserId x) (User.privyUserId u))
               (fun _ => set_recruiter_role rejected u)
               (users st').
Proof.
  intros Hgate Hcid Hdid Hfind Hkind ND Horg Hkyc Hbadge Hrole Hrun Hcode.
  assert (Hd : Recruiter.did org = Credential.subjectDid cred).
  { apply findOne_In in Horg. destruct Horg as [_ H].
    apply String.eqb_eq in H. exact H. }
  apply roleState_active_inv in Hrole. destruct Hrole as [Hon _].
  revert Hrun. unfold revokeVc. rewrite Hgate, Hcid. simpl.
  rewrite (bind_ok _ _ st issuerDid st)
    by (unfold lift; rewrite Hdid; reflexivity).
  unfold tryCatch, bind, query, findOneAndUpdateCredential, write, external,
    await, respond, ret.
  destruct (rejects env "revoke/Credential.findOne");
    [intros E; inversion E; subst; discriminate|].
  rewrite Hfind.
  destruct (rejects env "revoke/Credential.findOneAndUpdate");
    [intros E; inversion E; subst; discriminate|].
  rewrite Hkind.
  destruct (rejects env "revoke/Recruiter.findOne");
    [intros E; inversion E; subst; discriminate|].
  simpl. rewrite Horg.
  destruct (revokeRecruiterBadgeOnChain env (Recruiter.did org)) as [tx|];
    [|intros E; inversion E; subst; discriminate].
  destruct (rejects env "revoke/Recruiter.updateOne");
    [intros E; inversion E; subst; discriminate|].
  destruct (rejects env "revoke/Credential.updateOne");
    [intros E; inversion E; subst; discriminate|].
  intros E; inversion E; subst; clear E.
  set (org' := revokedBadge env (JS.orElse reason "unspecified") tx org).
  assert (Hfind' :
            Mongo.findOne (fun r => String.eqb (Recruiter.did r) (Recruiter.did org))
                          (Mongo.updateOne
                             (byRecruiterId (Recruiter._id org))
                             (revokedBadge env (JS.orElse reason "unspecified") tx)
                             (recruiters st))
            = Some org').
  { apply (findOne_updateOne_by_key Recruiter._id); [exact ND | |].
    - rewrite Hd. exact Horg.
    - simpl. apply String.eqb_refl. }
  exists org'. simpl.
  split; [exact Hfind'|].
  split; [reflexivity|]. split; [reflexivity|].
  assert (Hrej : computeRecruiterRoleState (Some org') = rejected).
  { unfold computeRecruiterRoleState. subst org'. simpl. rewrite Hon. reflexivity. }
  split; [exact Hrej|].
  intros env' session' u out st'' Hsess Hne Hcached.
  unfold syncRecruiterRoleFromRecruiterDoc. rewrite Hsess.
  assert (Ht : JS.truthy (Some (Recruiter.did org)) = true).
  { simpl. destruct (String.eqb_spec (Recruiter.did org) ""); [contradiction | reflexivity]. }
  rewrite Ht. unfold bind, query, saveUser, write, await, ret.
  destruct (rejects env' "sync/Recruiter.findOne(did)"); [discriminate|].
  simpl. rewrite Hfind'. rewrite Hrej, Hcached. simpl.
  destruct (rejects env' "sync/user.save"); [discriminate|].
  intros E; inversion E; subst. split; reflexivity.
Qed.

Lemma revoke_trust_credential_rejects_recruiter_witness :
  let st' := snd (revokeVc Fixture.env Fixture.issuerSession
                           (Some Fixture.issuerUser) (Some "vc-org") None
                           Fixture.store) in
  exists org',
    Mongo.findOne (fun r => String.eqb (Recruiter.did r) Fixture.orgDid)
                  (recruiters st') = Some org'
    /\ storedBadgeStatus org' = Some "Revoked"
    /\ computeRecruiterRoleState (Some org') = rejected
    /\ fst (syncRecruiterRoleFromRecruiterDoc
              Fixture.env Fixture.orgSession (Some Fixture.orgUser) st')
       = Ok (Some (set_recruiter_role rejected Fixture.orgUser)).
Proof.
  destruct (revoke_trust_credential_rejects_recruiter
              Fixture.env Fixture.issuerSession (Some Fixture.issuerUser)
              (Some "vc-org") None Fixture.store Fixture.issuerDid
              Fixture.trustVc Fixture.org
              (mkResponse 200
                 (RevokedBody "unspecified"
                    (Some (Credential.set_status Credential.Revoked
                                                 Fixture.trustVc))
                    (Some (mkTx "0xrevoke" "polygon-amoy"))))
              (snd (revokeVc Fixture.env Fixture.issuerSession
                             (Some Fixture.issuerUser) (Some "vc-org") None
                             Fixture.store)))
    as (org' & H1 & H2 & _ & H4 & H5); try reflexivity.
  { repeat constructor; simpl; intuition discriminate. }
  exists org'. split; [exact H1|]. split; [exact H2|]. split; [exact H4|].
  reflexivity.
Defined.

(** C7, as the claim states it, fails: the organisation is KYC-approved
    with badge status Active and role state active, and the ledger
    rejects the revocation of its badge.  The route answers 500; the
    trust credential is revoked all the same, while the persisted
    recruiter record is as before, with badge status Active, and the
    role-state synchronisation of the organisation's next request leaves
    the cached recruiter role state active, so that [requireRoleActive]
    lets the request through. *)
Lemma revoked_trust_credential_with_badge_still_active :
  let run := revokeVc Fixture.envLedgerDown Fixture.issuerSession
                      (Some Fixture.issuerUser) (Some "vc-org") None
                      Fixture.store in
  let next := syncRecruiterRoleFromRecruiterDoc
                Fixture.envLedgerDown Fixture.orgSession
                (Some Fixture.orgUser) (snd run) in
  Recruiter.kycStatus Fixture.org = Recruiter.KycApproved
  /\ storedBadgeStatus Fixture.org = Some "Active"
  /\ computeRecruiterRoleState (Some Fixture.org) = active
  /\ revokeRecruiterBadgeOnChain Fixture.envLedgerDown Fixture.orgDid = None
  /\ fst run = Ok (mkResponse 500 (ErrorBody "Failed to revoke VC"))
  /\ Mongo.findOne (ownedCredential "vc-org" Fixture.issuerDid)
                   (credentials (snd run))
     = Some (Credential.set_status Credential.Revoked Fixture.trustVc)
  /\ Mongo.findOne (fun r => String.eqb (Recruiter.did r) Fixture.orgDid)
                   (recruiters (snd run))
     = Some Fixture.org
  /\ fst next = Ok (Some Fixture.orgUser)
  /\ User.recruiter (User.roles Fixture.orgUser) = active
  /\ users (snd next) = users Fixture.store
  /\ requireRoleActive RecruiterRole (Some Fixture.orgUser) = None.
Proof.
  repeat split; reflexivity.
Qed.

(** ** Badge issuance *)

Lemma issueRecruiterBadgeOnChain_fails env did level st :
  ledgerIssueFails env did level ->
  exists e st1, issueRecruiterBadgeOnChain env did level st = (Thrown e, st1)
                /\ documents st1 = documents st.
Proof.
  unfold issueRecruiterBadgeOnChain, bind, lift, external.
  intros [[e H]|H].
  - rewrite H. eauto.
  - destruct (getTrustBadgeRegistryContract env) as [u|e]; [|eauto].
    rewrite H. simpl. eauto.
Qed.

Lemma issueRecruiterBadgeOnChain_ok env did level st tx st1 :
  issueRecruiterBadgeOnChain env did level st = (Ok tx, st1) ->
  contract_issueBadge env did level = Some (txHash tx)
  /\ st1 = record (LedgerIssueBadge did level) st.
Proof.
  unfold issueRecruiterBadgeOnChain, bind, lift, external.
  destruct (getTrustBadgeRegistryContract env) as [u|e]; [|discriminate].
  destruct (contract_issueBadge env did level) as [h|]; simpl; [|discriminate].
  intros E; inversion E; subst. auto.
Qed.

Lemma issueRecruiterBadgeOnChain_trace env did level st r st1 :
  issueRecruiterBadgeOnChain env did level st = (r, st1) ->
  st1 = st \/ st1 = record (LedgerIssueBadge did level) st.
Proof.
  unfold issueRecruiterBadgeOnChain, bind, lift, external.
  destruct (getTrustBadgeRegistryContract env) as [u|e].
  - destruct (contract_issueBadge env did level); simpl;
      intros E; inversion E; auto.
  - intros E; inversion E; auto.
Qed.

Lemma createCredential_ok c st st1 :
  createCredential c st = Ok st1 ->
  st1 = upd_credentials (fun l => l ++ [c]) st.
Proof.
  unfold createCredential.
  destruct (String.eqb (Credential.credentialId c) ""); [discriminate|].
  destruct (String.eqb (Credential.subjectDid c) ""); [discriminate|].
  destruct (String.eqb (Credential.issuerDid c) ""); [discriminate|].
  destruct (existsb _ (credentials st)); [discriminate|].
  intros E; inversion E; reflexivity.
Qed.

(** C5, as the code has it.  The approval route calls the ledger before
    any local write: every effect of the request comes after the ledger
    call.  When the ledger call fails, no collection changes (the
    recruiter's badge and KYC status are as before) and the route answers
    500.  When the route answers 200, which takes the ledger call, the
    signing of the credential, the creation of the Credential document
    and the save of the recruiter to succeed, the stored recruiter is
    KYC-approved and its badge is verified, Active, and carries the
    transaction hash the ledger call returned. *)
Theorem approve_ledger_before_local_write
        env session user recruiterId st issuerDid issuerDoc recruiter r st' :
  requireRoleActive IssuerRole user = None ->
  mustGetDid session = Ok issuerDid ->
  Mongo.findOne (fun i => String.eqb (Issuer.did i) issuerDid) (issuers st)
  = Some issuerDoc ->
  Mongo.findOne (byRecruiterId recruiterId) (recruiters st) = Some recruiter ->
  approveRecruiter env session user recruiterId st = (r, st') ->
  (st' = st
   \/ traceExtends (trace st ++ [LedgerIssueBadge (Recruiter.did recruiter) 1]) st')
  /\ (ledgerIssueFails env (Recruiter.did recruiter) 1 ->
      documents st' = documents st
      /\ r = Ok (mkResponse 500 (ErrorBody "Failed to approve recruiter")))
  /\ (forall resp, r = Ok resp -> code resp = 200 ->
      exists h b r',
        contract_issueBadge env (Recruiter.did recruiter) 1 = Some h
        /\ Mongo.findOne (byRecruiterId recruiterId) (recruiters st') = Some r'
        /\ Recruiter.kycStatus r' = Recruiter.KycApproved
        /\ Recruiter.badge r' = Some b
        /\ Recruiter.verified b = true
        /\ Recruiter.status b = Some "Active"
        /\ Recruiter.txHash b = Some h).
Proof.
  intros Hgate Hdid Hissuer Hrec.
  assert (Hid : Recruiter._id recruiter = recruiterId).
  { apply findOne_In in Hrec. destruct Hrec as [_ H].
    apply String.eqb_eq in H. exact H. }
  unfold approveRecruiter. rewrite Hgate.
  rewrite (tryCatch_bind_ok _ _ _ st issuerDid st)
    by (unfold lift; rewrite Hdid; reflexivity).
  destruct (rejects env "approve/Issuer.findOne") eqn:R1.
  { rewrite (tryCatch_bind_thrown _ _ _ _ _ _ (query_rejects _ _ _ _ R1)).
    intros E; inversion E; subst.
    split; [left; reflexivity|]. split; [auto | intros ? [= <-]; discriminate]. }
  rewrite (tryCatch_bind_ok _ _ _ _ _ _ (query_accepts _ _ _ _ R1)), Hissuer.
  destruct (rejects env "approve/Recruiter.findById") eqn:R2.
  { rewrite (tryCatch_bind_thrown _ _ _ _ _ _ (query_rejects _ _ _ _ R2)).
    intros E; inversion E; subst.
    split; [left; reflexivity|]. split; [auto | intros ? [= <-]; discriminate]. }
  rewrite (tryCatch_bind_ok _ _ _ _ _ _ (query_accepts _ _ _ _ R2)), Hrec.
  destruct (issueRecruiterBadgeOnChain env (Recruiter.did recruiter) 1 st)
    as [[tx|e] st1] eqn:L.
  2:{ rewrite (tryCatch_bind_thrown _ _ _ _ _ _ L).
      intros E; inversion E; subst.
      assert (D : documents st' = documents st).
      { destruct (issueRecruiterBadgeOnChain_trace _ _ _ _ _ _ L) as [->| ->];
          reflexivity. }
      split.
      - destruct (issueRecruiterBadgeOnChain_trace _ _ _ _ _ _ L) as [->| ->];
          [left; reflexivity | right; exists []; simpl; rewrite app_nil_r; reflexivity].
      - split; [auto | intros ? [= <-]; discriminate]. }
  rewrite (tryCatch_bind_ok _ _ _ _ _ _ L).
  destruct (issueRecruiterBadgeOnChain_ok _ _ _ _ _ _ L) as [Hh ->].
  intros E. split; [|split].
  - right. revert E.
    match goal with
    | |- tryCatch ?m ?h ?s1 = _ -> _ =>
        assert (P : preserves
                      (traceExtends
                         (trace st ++ [LedgerIssueBadge (Recruiter.did recruiter) 1]))
                      (tryCatch m h))
    end.
    { preserve; try (apply traceExtends_record; assumption).
      match goal with
      | H : createCredential _ _ = Ok _ |- _ =>
          apply createCredential_ok in H; subst
      end.
      apply traceExtends_record. assumption. }
    intros E. eapply P; [|exact E].
    exists []. simpl. rewrite app_nil_r. reflexivity.
  - intros F. exfalso.
    destruct (issueRecruiterBadgeOnChain_fails env (Recruiter.did recruiter) 1 st F)
      as (e & s1 & Hf & _).
    congruence.
  - intros resp -> Hcode. revert E.
    unfold tryCatch, bind, external, writeChecked, write, await, respond, ret.
    destruct (issueSimpleVc env _) as [issued|];
      [|intros E; inversion E; subst; discriminate].
    destruct (rejects env "approve/Credential.create");
      [intros E; inversion E; subst; discriminate|].
    destruct (createCredential _ _) as [sc|ec] eqn:C;
      [|intros E; inversion E; subst; discriminate].
    apply createCredential_ok in C. subst sc.
    destruct (rejects env "approve/recruiter.save");
      [intros E; inversion E; subst; discriminate|].
    intros E; inversion E; subst; clear E.
    exists (txHash tx), (approvedBadge env tx (vcId issued)).
    eexists. split; [exact Hh|]. simpl.
    rewrite findOne_updateOne_same by (intros x Hx; exact Hx).
    split; [rewrite Hrec; reflexivity|].
    repeat split; reflexivity.
Qed.

Lemma approve_ledger_before_local_write_witness :
  let run := approveRecruiter Fixture.env Fixture.issuerSession
                              (Some Fixture.issuerUser) "rec-2" Fixture.store in
  exists h b r',
    contract_issueBadge Fixture.env (Recruiter.did Fixture.pendingOrg) 1 = Some h
    /\ Mongo.findOne (byRecruiterId "rec-2") (recruiters (snd run)) = Some r'
    /\ Recruiter.kycStatus r' = Recruiter.KycApproved
    /\ Recruiter.badge r' = Some b
    /\ Recruiter.verified b = true
    /\ Recruiter.status b = Some "Active"
    /\ Recruiter.txHash b = Some h.
Proof.
  destruct (approve_ledger_before_local_write
              Fixture.env Fixture.issuerSession (Some Fixture.issuerUser)
              "rec-2" Fixture.store Fixture.issuerDid
              (Issuer.mk Fixture.issuerDid None (Some "Acme University") true)
              Fixture.pendingOrg
              (fst (approveRecruiter Fixture.env Fixture.issuerSession
                                     (Some Fixture.issuerUser) "rec-2"
                                     Fixture.store))
              (snd (approveRecruiter Fixture.env Fixture.issuerSession
                                     (Some Fixture.issuerUser) "rec-2"
                                     Fixture.store)))
    as (_ & _ & H); try reflexivity.
  apply (H (mkResponse 200 (ApprovedBody "urn:securehire:vc:new" "0xissue")));
    reflexivity.
Defined.

(** C5, as the claim states it, fails: the ledger call succeeds and the
    signing service then rejects; the route answers 500 and the stored
    recruiter is as before, neither verified nor Active, although the
    badge was issued on the ledger. *)
Lemma approve_ledger_success_without_projection :
  let run := approveRecruiter Fixture.envSigningDown Fixture.issuerSession
                              (Some Fixture.issuerUser) "rec-2" Fixture.store in
  issueRecruiterBadgeOnChain Fixture.envSigningDown
                             (Recruiter.did Fixture.pendingOrg) 1 Fixture.store
  = (Ok (mkTx "0xissue" "polygon-amoy"),
     record (LedgerIssueBadge (Recruiter.did Fixture.pendingOrg) 1) Fixture.store)
  /\ fst run = Ok (mkResponse 500 (ErrorBody "Failed to approve recruiter"))
  /\ In (LedgerIssueBadge (Recruiter.did Fixture.pendingOrg) 1) (trace (snd run))
  /\ Mongo.findOne (byRecruiterId "rec-2") (recruiters (snd run))
     = Some Fixture.pendingOrg
  /\ badgeVerified (Some Fixture.pendingOrg) = false
  /\ storedBadgeStatus Fixture.pendingOrg = Some "None".
Proof.
  repeat split; try reflexivity. simpl. auto.
Qed.

(** ** Listing the active disclosures of an application *)

Lemma existsb_active_currentStatus creds v :
  NoDup (List.map Credential.credentialId creds) ->
  existsb (fun c => String.eqb (Credential.credentialId c) v
                    && Credential.isActive (Credential.status c)) creds
  = match option_map Credential.status
            (Mongo.findOne (fun c => String.eqb (Credential.credentialId c) v) creds)
    with
    | Some Credential.Active => true
    | _ => false
    end.
Proof.
  unfold Mongo.findOne.
  induction creds as [|c rest IH]; simpl; intros ND; [reflexivity|].
  inversion ND as [|? ? Hnotin ND']; subst.
  destruct (String.eqb_spec (Credential.credentialId c) v) as [E|E]; simpl.
  - assert (R : existsb (fun c0 => String.eqb (Credential.credentialId c0) v
                                   && Credential.isActive (Credential.status c0))
                        rest = false).
    { apply not_true_is_false. intros H. apply existsb_exists in H.
      destruct H as [c' [Hin Hc']]. apply andb_prop in Hc'. destruct Hc' as [Hc' _].
      apply String.eqb_eq in Hc'. apply Hnotin. rewrite E, <- Hc'.
      apply in_map. exact Hin. }
    rewrite R, orb_false_r. destruct (Credential.status c); reflexivity.
  - apply IH. exact ND'.
Qed.

Lemma filter_none {A} (f : A -> bool) l :
  (forall x, In x l -> f x = false) -> List.filter f l = [].
Proof.
  induction l as [|x rest IH]; simpl; intros H; [reflexivity|].
  rewrite (H x (or_introl eq_refl)). apply IH. intros; apply H; auto.
Qed.

Lemma includes_map_filter creds (Q : Credential.doc -> bool) v :
  JS.includes (List.map Credential.credentialId (List.filter Q creds)) v
  = existsb (fun c => String.eqb (Credential.credentialId c) v && Q c) creds.
Proof.
  unfold JS.includes.
  induction creds as [|c rest IH]; simpl; [reflexivity|].
  destruct (Q c); simpl.
  - rewrite IH, andb_true_r, (String.eqb_sym v). reflexivity.
  - rewrite IH, andb_false_r. reflexivity.
Qed.

Lemma existsb_guarded creds v (g : string -> bool) :
  existsb (fun c => String.eqb (Credential.credentialId c) v
                    && (g (Credential.credentialId c)
                        && Credential.isActive (Credential.status c)))
          creds
  = g v && existsb (fun c => String.eqb (Credential.credentialId c) v
                             && Credential.isActive (Credential.status c))
                   creds.
Proof.
  induction creds as [|c rest IH]; simpl; [symmetry; apply andb_false_r|].
  rewrite IH. destruct (String.eqb_spec (Credential.credentialId c) v) as [->|N]; simpl.
  - symmetry. apply andb_orb_distrib_r.
  - reflexivity.
Qed.

Lemma filterActiveSharedProofs_run env l st res st' :
  ApplicationRoutes.filterActiveSharedProofs env l st = (Ok res, st') ->
  st' = st
  /\ res = List.filter
             (fun p => negb (String.eqb (SharedProof.vcId p) "")
                       && existsb (fun c => String.eqb (Credential.credentialId c)
                                                       (SharedProof.vcId p)
                                            && Credential.isActive (Credential.status c))
                                  (credentials st))
             l.
Proof.
  unfold ApplicationRoutes.filterActiveSharedProofs.
  destruct l as [|p0 l0] eqn:El; [intros E; inversion E; auto|].
  rewrite <- El. clear El p0 l0.
  set (vcIds := nodup string_dec
                      (List.filter (fun s => negb (String.eqb s ""))
                                   (List.map SharedProof.vcId l))).
  assert (Hids : forall p, In p l ->
                 JS.includes vcIds (SharedProof.vcId p)
                 = negb (String.eqb (SharedProof.vcId p) "")).
  { intros p Hp. destruct (String.eqb_spec (SharedProof.vcId p) "") as [E|E]; simpl.
    - apply not_true_is_false. intros H. apply includes_In in H.
      subst vcIds. apply nodup_In, filter_In in H. destruct H as [_ H].
      rewrite E in H. discriminate.
    - apply includes_In. subst vcIds. apply nodup_In, filter_In. split.
      + apply in_map. exact Hp.
      + destruct (String.eqb_spec (SharedProof.vcId p) ""); [contradiction|reflexivity]. }
  destruct vcIds as [|v0 vs] eqn:Ev.
  - intros E; inversion E; subst. split; [reflexivity|].
    symmetry. apply filter_none. intros p Hp.
    rewrite <- (Hids p Hp). reflexivity.
  - rewrite <- Ev in *. clear Ev v0 vs.
    unfold bind, query, await, ret.
    destruct (rejects env "filterActiveSharedProofs/Credential.find"); [discriminate|].
    intros E; inversion E; subst. split; [reflexivity|].
    apply filter_ext_in. intros p Hp.
    unfold Mongo.findMany. rewrite includes_map_filter.
    rewrite <- (Hids p Hp).
    apply (existsb_guarded (credentials st') (SharedProof.vcId p) (JS.includes vcIds)).
Qed.

Lemma currentlyActive_filter st l :
  NoDup (List.map Credential.credentialId (credentials st)) ->
  (forall p, In p l -> SharedProof.vcId p <> "") ->
  List.filter
    (fun p => negb (String.eqb (SharedProof.vcId p) "")
              && existsb (fun c => String.eqb (Credential.credentialId c)
                                              (SharedProof.vcId p)
                                   && Credential.isActive (Credential.status c))
                         (credentials st))
    l
  = List.filter (currentlyActive st) l.
Proof.
  intros ND Hne. apply filter_ext_in. intros p Hp.
  unfold currentlyActive, currentStatus.
  rewrite (existsb_active_currentStatus _ _ ND).
  destruct (String.eqb_spec (SharedProof.vcId p) "") as [E|E];
    [exfalso; exact (Hne p Hp E) | reflexivity].
Qed.

(** C3. Listing the active disclosures of an application (the [proofs]
    of GET /applications/:id) returns exactly the stored disclosure
    records of that application whose credential's current status in the
    Credential Store is active: a disclosure whose credential is active
    is returned, and one whose credential is revoked, expired or gone is
    not, although its record is still stored. *)
Theorem getApplication_lists_active_disclosures env session id st resp st' :
  NoDup (List.map Credential.credentialId (credentials st)) ->
  (forall p, In p (sharedProofs st) -> SharedProof.vcId p <> "") ->
  ApplicationRoutes.getApplication env session id st = (Ok resp, st') ->
  code resp = 200 ->
  proofsOf resp
  = List.map ApplicationRoutes.proofView
             (List.filter (currentlyActive st) (storedDisclosures st id))
  /\ (forall p, In p (storedDisclosures st id) ->
                currentStatus st (SharedProof.vcId p) = Some Credential.Active ->
                In (ApplicationRoutes.proofView p) (proofsOf resp))
  /\ (forall p, In p (storedDisclosures st id) ->
                currentStatus st (SharedProof.vcId p) <> Some Credential.Active ->
                ~ In (ApplicationRoutes.proofView p) (proofsOf resp)).
Proof.
  intros ND Hne Hrun Hcode.
  assert (Hmain : proofsOf resp
                  = List.map ApplicationRoutes.proofView
                             (List.filter (currentlyActive st)
                                          (storedDisclosures st id))).
  { revert Hrun.
    unfold ApplicationRoutes.getApplication, tryCatch, bind, lift, query, await,
      respond, ret.
    destruct (ApplicationRoutes.mustGetDid session) as [sessionDid|e];
      [|intros E; inversion E; subst; discriminate].
    destruct (rejects env "get/Application.findById");
      [intros E; inversion E; subst; discriminate|].
    destruct (Mongo.findOne (ApplicationRoutes.byAppId id) (applications st)) as [app|];
      [|intros E; inversion E; subst; discriminate].
    destruct (negb (ApplicationRoutes.isOwnerOfApplication sessionDid app));
      [intros E; inversion E; subst; discriminate|].
    destruct (rejects env "get/Recruiter.findOne");
      [intros E; inversion E; subst; discriminate|].
    destruct (rejects env "get/Job.findById");
      [intros E; inversion E; subst; discriminate|].
    destruct (rejects env "get/Seeker.findOne");
      [intros E; inversion E; subst; discriminate|].
    destruct (rejects env "get/SharedProof.find");
      [intros E; inversion E; subst; discriminate|].
    fold (storedDisclosures st id).
    destruct (ApplicationRoutes.filterActiveSharedProofs env
                (storedDisclosures st id) st) as [[safe|e] s1] eqn:F;
      [|intros E; inversion E; subst; discriminate].
    apply filterActiveSharedProofs_run in F. destruct F as [-> ->].
    intros E. injection E as Hresp _. subst resp.
    rewrite currentlyActive_filter.
    - unfold proofsOf. simpl.
      destruct (List.filter (currentlyActive st) (storedDisclosures st id));
        reflexivity.
    - exact ND.
    - intros p Hp. apply Hne. unfold storedDisclosures, Mongo.findMany in Hp.
      apply filter_In in Hp. tauto. }
  split; [exact Hmain|]. rewrite Hmain. split.
  - intros p Hp Hs. apply in_map. apply filter_In. split; [exact Hp|].
    unfold currentlyActive. rewrite Hs. reflexivity.
  - intros p Hp Hs H. apply in_map_iff in H. destruct H as [q [Hv Hq]].
    apply filter_In in Hq. destruct Hq as [_ Hq].
    assert (Hid : SharedProof.vcId q = SharedProof.vcId p).
    { change (pv_vcId (ApplicationRoutes.proofView q)
              = pv_vcId (ApplicationRoutes.proofView p)).
      rewrite Hv. reflexivity. }
    unfold currentlyActive in Hq. rewrite Hid in Hq.
    destruct (currentStatus st (SharedProof.vcId p)) as [[| |]|];
      congruence.
Qed.

Lemma getApplication_lists_active_disclosures_witness :
  let revoked := snd (revokeVc Fixture.envRepairDown Fixture.issuerSession
                               (Some Fixture.issuerUser) (Some "vc-1") None
                               Fixture.store) in
  In Fixture.disclosure (storedDisclosures revoked "app-1")
  /\ proofsOf (mkResponse 200
                 (ApplicationBody Fixture.app (Some "Active") (Some true) None))
     = List.map ApplicationRoutes.proofView
                (List.filter (currentlyActive revoked)
                             (storedDisclosures revoked "app-1"))
  /\ proofsOf (mkResponse 200
                 (ApplicationBody Fixture.app (Some "Active") (Some true)
                    (Some [ApplicationRoutes.proofView Fixture.disclosure])))
     = List.map ApplicationRoutes.proofView
                (List.filter (currentlyActive Fixture.store)
                             (storedDisclosures Fixture.store "app-1")).
Proof.
  split; [left; reflexivity|]. split.
  - apply (getApplication_lists_active_disclosures
             Fixture.env Fixture.orgSession "app-1"
             (snd (revokeVc Fixture.envRepairDown Fixture.issuerSession
                            (Some Fixture.issuerUser) (Some "vc-1") None
                            Fixture.store))
             (mkResponse 200
                (ApplicationBody Fixture.app (Some "Active") (Some true) None))
             (snd (revokeVc Fixture.envRepairDown Fixture.issuerSession
                            (Some Fixture.issuerUser) (Some "vc-1") None
                            Fixture.store)));
      try reflexivity.
    + repeat constructor; simpl; intuition discriminate.
    + intros p [<-|[]]; discriminate.
  - apply (getApplication_lists_active_disclosures
             Fixture.env Fixture.orgSession "app-1" Fixture.store
             (mkResponse 200
                (ApplicationBody Fixture.app (Some "Active") (Some true)
                   (Some [ApplicationRoutes.proofView Fixture.disclosure])))
             Fixture.store);
      try reflexivity.
    + repeat constructor; simpl; intuition discriminate.
    + intros p [<-|[]]; discriminate.
Defined.

(** ** Sharing credentials into an application *)

Lemma proofKey_eq aid v p :
  ApplicationRoutes.proofKey aid v p = true <-> SharedProof.applicationId p = aid /\ SharedProof.vcId p = v.
Proof.
  unfold ApplicationRoutes.proofKey. rewrite andb_true_iff, !String.eqb_eq. tauto.
Qed.












Lemma buildBulkOps_ok env app creds valid ops :
  ApplicationRoutes.buildBulkOps env app creds valid = Ok ops ->
  ops = List.map (ApplicationRoutes.disclosureFor env app creds) valid
  /\ forall v, In v valid ->
       ApplicationRoutes.deepCloneVcRawUntouched env
         (match ApplicationRoutes.byIdGet creds v with
          | Some c => Credential.vcRaw c
          | None => None
          end)
       = Ok (SharedProof.revealedDocument
               (ApplicationRoutes.disclosureFor env app creds v)).
Proof.
  revert ops. induction valid as [|v rest IH]; simpl; intros ops H.
  - inversion H; subst. split; [reflexivity | intros ? []].
  - destruct (ApplicationRoutes.deepCloneVcRawUntouched env _) as [vcObj|e] eqn:C;
      [|discriminate].
    destruct (ApplicationRoutes.buildBulkOps env app creds rest) as [ops'|e] eqn:B;
      [|discriminate].
    inversion H; subst. destruct (IH _ eq_refl) as [-> Hc]. split.
    + unfold ApplicationRoutes.disclosureFor at 2. rewrite C. reflexivity.
    + intros w [<-|Hw]; [|apply Hc; exact Hw].
      unfold ApplicationRoutes.disclosureFor. simpl. rewrite C. reflexivity.
Qed.


















(** ** Onboarding never overwrites a DID *)

Lemma In_updateOne_keep {A} (p : A -> bool) f coll x :
  In x coll -> p x = false -> In x (Mongo.updateOne p f coll).
Proof.
  induction coll as [|y rest IH]; simpl; [tauto|].
  intros [->|H] Hp.
  - rewrite Hp. left; reflexivity.
  - destruct (p y); [right; exact H | right; apply IH; assumption].
Qed.

Lemma In_updateOne_const {A} (p : A -> bool) (v : A) coll :
  existsb p coll = true -> In v (Mongo.updateOne p (fun _ => v) coll).
Proof.
  induction coll as [|y rest IH]; simpl; [discriminate|].
  destruct (p y); simpl; [auto|]. intros H. right. apply IH. exact H.
Qed.

Lemma NoDup_key_inj {A} (key : A -> string) coll a b :
  NoDup (List.map key coll) -> In a coll -> In b coll -> key a = key b -> a = b.
Proof.
  induction coll as [|x rest IH]; simpl; [tauto|].
  intros ND Ha Hb E. inversion ND as [|? ? Hnotin ND']; subst.
  destruct Ha as [->|Ha], Hb as [->|Hb]; auto.
  - exfalso. apply Hnotin. rewrite E. apply in_map. exact Hb.
  - exfalso. apply Hnotin. rewrite <- E. apply in_map. exact Ha.
Qed.

Lemma saveSeeker_keepsDid s d doc st st1 :
  In s (seekers st) ->
  Seeker.did s = Some d ->
  (Seeker._id doc = Seeker._id s -> Seeker.did doc = Some d) ->
  saveSeeker doc st = Ok st1 ->
  keepsDid s d st1.
Proof.
  intros Hin Hd Hdoc. unfold saveSeeker.
  destruct (negb (JS.truthy (Seeker.email doc))); [discriminate|].
  destruct (negb (JS.truthy (Seeker.name doc))); [discriminate|].
  destruct (existsb _ (seekers st)); [discriminate|].
  intros E; inversion E; subst; clear E. unfold keepsDid. simpl.
  destruct (existsb (fun x => String.eqb (Seeker._id x) (Seeker._id doc))
                    (seekers st)) eqn:X.
  - destruct (String.eqb_spec (Seeker._id s) (Seeker._id doc)) as [K|K].
    + exists doc. split; [apply In_updateOne_const; exact X|].
      split; [symmetry; exact K | apply Hdoc; symmetry; exact K].
    + exists s. split; [|auto]. apply In_updateOne_keep; [exact Hin|].
      destruct (String.eqb_spec (Seeker._id s) (Seeker._id doc)); [contradiction|reflexivity].
  - exists s. split; [apply in_or_app; left; exact Hin | auto].
Qed.

Lemma registerDidBestEffort_run env did st r st1 :
  registerDidBestEffort env did st = (r, st1) ->
  r = Ok tt /\ documents st1 = documents st.
Proof.
  unfold registerDidBestEffort, tryCatch, bind, external, ret.
  destruct (JS.matchWalletAddress did); [|intros E; inversion E; auto].
  destruct (DID_REGISTRY_ADDRESS env); [|intros E; inversion E; auto].
  destruct (registerDidOnChain env _ did); intros E; inversion E; auto.
Qed.

Lemma bind_inv {A B} (m : M A) (k : A -> M B) st b st' :
  bind m k st = (Ok b, st') ->
  exists a st1, m st = (Ok a, st1) /\ k a st1 = (Ok b, st').
Proof.
  unfold bind. destruct (m st) as [[a|e] st1]; [eauto | discriminate].
Qed.

Lemma ret_inv {A} (a b : A) st st1 :
  ret a st = (Ok b, st1) -> b = a /\ st1 = st.
Proof. intros E; inversion E; auto. Qed.

Lemma lift_inv {A} (o : Outcome A) a st st1 :
  lift o st = (Ok a, st1) -> o = Ok a /\ st1 = st.
Proof. intros E; inversion E; auto. Qed.

Lemma query_inv {A} env site (f : Store -> A) a st st1 :
  query env site f st = (Ok a, st1) -> a = f st /\ st1 = st.
Proof.
  unfold query, await. destruct (rejects env site); [discriminate|].
  intros E; inversion E; auto.
Qed.

Lemma guarded_findOne_inv env (guard : bool) site p found st st1 :
  (if guard
   then query env site (fun s => Mongo.findOne p (seekers s))
   else ret None) st = (Ok found, st1) ->
  st1 = st /\ forall doc0 : Seeker.doc, found = Some doc0 -> In doc0 (seekers st).
Proof.
  destruct guard; intros H.
  - apply query_inv in H. destruct H as [-> ->]. split; [reflexivity|].
    intros doc0 F. apply (findOne_In _ _ _ F).
  - apply ret_inv in H. destruct H as [-> ->]. split; [reflexivity | discriminate].
Qed.

Lemma findSeekerBySession_run env session st found st1 :
  SeekerIdentity.findSeekerBySession env session st = (Ok found, st1) ->
  st1 = st /\ forall doc0, found = Some doc0 -> In doc0 (seekers st).
Proof.
  unfold SeekerIdentity.findSeekerBySession. intros H.
  apply bind_inv in H. destruct H as (s & sa & Hs & H).
  apply lift_inv in Hs. destruct Hs as [_ ->].
  apply bind_inv in H. destruct H as (byDid & sb & Hb & H).
  apply guarded_findOne_inv in Hb. destruct Hb as [-> Hb].
  destruct byDid as [d0|].
  { apply ret_inv in H. destruct H as [-> ->]. auto. }
  apply bind_inv in H. destruct H as (byPkh & sc & Hc & H).
  apply guarded_findOne_inv in Hc. destruct Hc as [-> Hc].
  destruct byPkh as [d1|].
  { apply ret_inv in H. destruct H as [-> ->]. auto. }
  apply guarded_findOne_inv in H. exact H.
Qed.

Lemma findSeekerBySession_thrown env session st e st1 :
  SeekerIdentity.findSeekerBySession env session st = (Thrown e, st1) ->
  st1 = st.
Proof.
  intros H.
  assert (P : preserves (fun s => s = st)
                        (SeekerIdentity.findSeekerBySession env session)).
  { unfold SeekerIdentity.findSeekerBySession. preserve. }
  exact (P st _ _ eq_refl H).
Qed.

Lemma bind_cases {A B} (m : M A) (k : A -> M B) st r st' :
  bind m k st = (r, st') ->
  (exists e, m st = (Thrown e, st') /\ r = Thrown e)
  \/ (exists a st1, m st = (Ok a, st1) /\ k a st1 = (r, st')).
Proof.
  unfold bind. destruct (m st) as [[a|e] st1]; intros E.
  - right. eauto.
  - left. inversion E; subst. eauto.
Qed.

Lemma tryCatch_post {A} (m : M A) h (I : Store -> Prop) st r st' :
  (forall r1 s1, m st = (r1, s1) -> I s1) ->
  (forall e, preserves I (h e)) ->
  tryCatch m h st = (r, st') -> I st'.
Proof.
  intros Hm Hh. unfold tryCatch.
  destruct (m st) as [[a|e] s1] eqn:E; intros E'.
  - inversion E'; subst. exact (Hm _ _ eq_refl).
  - exact (Hh e s1 r st' (Hm _ _ eq_refl) E').
Qed.

Lemma keepsDid_documents s d st st1 :
  documents st1 = documents st -> keepsDid s d st -> keepsDid s d st1.
Proof.
  intros E [s' H]. exists s'.
  apply (f_equal (fun t => let '(_, _, sk, _, _, _, _, _) := t in sk)) in E.
  simpl in E. rewrite E. exact H.
Qed.

Lemma keepsDid_here s d st :
  In s (seekers st) -> Seeker.did s = Some d -> keepsDid s d st.
Proof. intros. exists s. auto. Qed.

Lemma onboardFailure_preserves (I : Store -> Prop) sessionRoute e :
  preserves I (onboardFailure sessionRoute e).
Proof.
  unfold onboardFailure.
  destruct e as [k|p|m]; [|apply preserves_respond|].
  - destruct (string_dec k "did") as [->|N]; [apply preserves_respond|].
    destruct k as [|c k']; [apply preserves_respond|].
    repeat match goal with
           | |- preserves _ (match ?x with _ => _ end) => destruct x
           | |- preserves _ (if ?x then _ else _) => destruct x
           | |- _ => apply preserves_respond
           end.
  - destruct (sessionRoute && strIncludes "Missing session identity" m);
      apply preserves_respond.
Qed.

(** The assignment of a DID, in both versions of the route: it happens
    only when the record has none, never throws, and touches no
    collection. *)
Lemma assignDid_run env (candidate : option string) doc1 st r st2 :
  (if JS.truthy candidate && negb (JS.truthy (Seeker.did doc1))
   then bind (registerDidBestEffort env (optString candidate))
             (fun _ => ret (Seeker.set_did candidate doc1))
   else ret doc1) st = (r, st2) ->
  documents st2 = documents st
  /\ exists doc2,
      r = Ok doc2
      /\ Seeker._id doc2 = Seeker._id doc1
      /\ (JS.truthy (Seeker.did doc1) = true -> Seeker.did doc2 = Seeker.did doc1).
Proof.
  destruct (JS.truthy (Seeker.did doc1)) eqn:T.
  - rewrite andb_false_r. intros E; inversion E; subst.
    split; [reflexivity|]. exists doc1. auto.
  - rewrite andb_true_r. destruct (JS.truthy candidate).
    + unfold bind.
      destruct (registerDidBestEffort env (optString candidate) st) as [o s1] eqn:R.
      apply registerDidBestEffort_run in R. destruct R as [-> D].
      intros E; inversion E; subst. split; [exact D|].
      exists (Seeker.set_did candidate doc1). split; [reflexivity|].
      split; [reflexivity | discriminate].
    + intros E; inversion E; subst. split; [reflexivity|].
      exists doc1. split; [reflexivity|]. split; [reflexivity | discriminate].
Qed.

Lemma writeChecked_cases env site c f st r st' :
  writeChecked env site c f st = (r, st') ->
  (st' = st /\ exists e, r = Thrown e)
  \/ (exists st1, f st = Ok st1 /\ st' = record (Wrote site c) st1 /\ r = Ok tt).
Proof.
  unfold writeChecked, await. destruct (rejects env site).
  - intros E; inversion E; subst. left. eauto.
  - destruct (f st) as [st1|e] eqn:F; intros E; inversion E; subst.
    + right. eauto.
    + left. eauto.
Qed.

Lemma save_then_keepsDid env site doc (rest : M Response) s d st2 r st' :
  In s (seekers st2) ->
  Seeker.did s = Some d ->
  (Seeker._id doc = Seeker._id s -> Seeker.did doc = Some d) ->
  preserves (keepsDid s d) rest ->
  bind (writeChecked env site Seekers (saveSeeker doc)) (fun _ => rest) st2
  = (r, st') ->
  keepsDid s d st'.
Proof.
  intros Hin Hd Hdoc Hrest H.
  apply bind_cases in H. destruct H as [(e & H & _)|(u & s3 & H & Hr)].
  - apply writeChecked_cases in H.
    destruct H as [[-> _]|(s1 & _ & _ & H)]; [|discriminate].
    apply keepsDid_here; assumption.
  - apply writeChecked_cases in H.
    destruct H as [[_ [e H]]|(s1 & Hs & -> & _)]; [discriminate|].
    eapply Hrest; [|exact Hr].
    apply (keepsDid_documents s d s1); [reflexivity|].
    eapply saveSeeker_keepsDid; eassumption.
Qed.

Lemma applyBody_identity name b doc :
  Seeker._id (applyBody name b doc) = Seeker._id doc
  /\ Seeker.did (applyBody name b doc) = Seeker.did doc.
Proof. split; reflexivity. Qed.

Lemma truthy_some d : d <> "" -> JS.truthy (Some d) = true.
Proof.
  intros H. simpl. destruct (String.eqb_spec d ""); [contradiction | reflexivity].
Qed.

(** What both versions of the route do once they hold the record [doc1]
    they will save: assign a DID if there is none, apply the body, save,
    and run [rest]. *)
Lemma assign_and_save_keepsDid
      env site (candidate : option string) name b doc1 (rest : Seeker.doc -> M Response)
      s d st r st' :
  NoDup (List.map Seeker._id (seekers st)) ->
  In s (seekers st) ->
  Seeker.did s = Some d ->
  d <> "" ->
  (Seeker._id doc1 = Seeker._id s -> Seeker.did doc1 = Some d) ->
  (forall doc, preserves (keepsDid s d) (rest doc)) ->
  bind (if JS.truthy candidate && negb (JS.truthy (Seeker.did doc1))
        then bind (registerDidBestEffort env (optString candidate))
                  (fun _ => ret (Seeker.set_did candidate doc1))
        else ret doc1)
       (fun doc2 =>
          bind (writeChecked env site Seekers (saveSeeker (applyBody name b doc2)))
               (fun _ => rest (applyBody name b doc2))) st
  = (r, st') ->
  keepsDid s d st'.
Proof.
  intros ND Hin Hd Hne Hdoc1 Hrest H.
  apply bind_cases in H. destruct H as [(e & H & _)|(doc2 & s2 & H & Hr)].
  - apply assignDid_run in H. destruct H as [_ (doc2 & H & _)]. discriminate.
  - apply assignDid_run in H. destruct H as [D (doc2' & H & Hid & Hkeep)].
    inversion H; subst doc2'. clear H.
    assert (Hin2 : In s (seekers s2)).
    { apply (f_equal (fun t => let '(_, _, sk, _, _, _, _, _) := t in sk)) in D.
      simpl in D. rewrite D. exact Hin. }
    eapply save_then_keepsDid; [exact Hin2 | exact Hd | | apply Hrest | exact Hr].
    intros K. simpl in K. rewrite Hid in K. specialize (Hdoc1 K).
    simpl. rewrite Hkeep; [exact Hdoc1|].
    rewrite Hdoc1. apply truthy_some. exact Hne.
Qed.

Lemma found_or_new_identity env found (fresh : Seeker.doc) s d st :
  NoDup (List.map Seeker._id (seekers st)) ->
  ~ In (newObjectId env) (List.map Seeker._id (seekers st)) ->
  In s (seekers st) ->
  Seeker.did s = Some d ->
  (forall doc0, found = Some doc0 -> In doc0 (seekers st)) ->
  Seeker._id fresh = newObjectId env ->
  Seeker._id (match found with Some x => x | None => fresh end) = Seeker._id s ->
  Seeker.did (match found with Some x => x | None => fresh end) = Some d.
Proof.
  intros ND Hfresh Hin Hd Hfound Hnew K.
  destruct found as [doc0|].
  - assert (doc0 = s)
      by (apply (NoDup_key_inj Seeker._id (seekers st)); auto).
    subst doc0. exact Hd.
  - exfalso. apply Hfresh. rewrite <- Hnew, K. apply in_map. exact Hin.
Qed.

Lemma legacy_onboard_keepsDid env b st s d r st' :
  NoDup (List.map Seeker._id (seekers st)) ->
  ~ In (newObjectId env) (List.map Seeker._id (seekers st)) ->
  In s (seekers st) ->
  Seeker.did s = Some d ->
  d <> "" ->
  LegacySeekerRoutes.onboard env b st = (r, st') ->
  keepsDid s d st'.
Proof.
  intros ND Hfresh Hin Hd Hne.
  unfold LegacySeekerRoutes.onboard.
  apply tryCatch_post; [|intros; apply onboardFailure_preserves].
  intros r1 s1.
  destruct (negb (JS.truthy (b_email b)) || negb (JS.truthy (b_name b))).
  { intros E; inversion E; subst. apply keepsDid_here; assumption. }
  intros H. apply bind_cases in H.
  destruct H as [(e & H & _)|(found & sq & H & Hr)].
  { unfold query, await in H. destruct (rejects env "legacy/Seeker.findOne");
      inversion H; subst. apply keepsDid_here; assumption. }
  apply query_inv in H. destruct H as [Hfound ->].
  eapply assign_and_save_keepsDid with (rest := fun doc => respond 200 (SeekerBody doc));
    [exact ND | exact Hin | exact Hd | exact Hne | | intros; apply preserves_respond
     | exact Hr].
  apply (found_or_new_identity env found _ s d st); try assumption.
  - intros doc0 F. rewrite Hfound in F. apply (findOne_In _ _ _ F).
  - reflexivity.
Qed.

Lemma session_onboard_keepsDid env session user b st s d r st' :
  NoDup (List.map Seeker._id (seekers st)) ->
  ~ In (newObjectId env) (List.map Seeker._id (seekers st)) ->
  In s (seekers st) ->
  Seeker.did s = Some d ->
  d <> "" ->
  SeekerRoutes.onboard env session user b st = (r, st') ->
  keepsDid s d st'.
Proof.
  intros ND Hfresh Hin Hd Hne.
  unfold SeekerRoutes.onboard.
  destruct (requireRoleStateIn SeekerRole [none; active] user).
  { intros E; inversion E; subst. apply keepsDid_here; assumption. }
  apply tryCatch_post; [|intros; apply onboardFailure_preserves].
  intros r1 s1 H. apply bind_cases in H.
  destruct H as [(e & H & _)|(sess & sq & H & Hr)].
  { inversion H; subst. apply keepsDid_here; assumption. }
  apply lift_inv in H. destruct H as [_ ->].
  revert Hr.
  destruct (negb (JS.truthy (b_name b))
            || negb (JS.truthy (Some (JS.trim (optString (b_name b)))))).
  { intros E; inversion E; subst. apply keepsDid_here; assumption. }
  intros H. apply bind_cases in H.
  destruct H as [(e & H & _)|(found & sf & H & Hr)].
  { apply findSeekerBySession_thrown in H. subst. apply keepsDid_here; assumption. }
  apply findSeekerBySession_run in H. destruct H as [-> Hfound].
  revert Hr.
  match goal with
  | |- bind ?assign ?k st = _ -> _ =>
      match assign with
      | (if JS.truthy ?cand && negb (JS.truthy (Seeker.did ?doc1)) then _ else _) =>
          intros Hr;
          apply (assign_and_save_keepsDid
                   env "onboard/doc.save" cand (JS.trim (optString (b_name b))) b doc1
                   (fun doc =>
                      bind (match user with
                            | Some u =>
                                saveUser env "onboard/req.user.save"
                                         (set_seeker_role
                                            (if Seeker.onboarded doc then active else none) u)
                            | None => ret tt
                            end)
                           (fun _ => respond 200 (SeekerBody doc)))
                   s d st r1 s1 ND Hin Hd Hne)
      end
  end.
  - intros K.
    destruct (JS.truthy (s_email sess)
              && negb (JS.truthy
                         (Seeker.email
                            match found with
                            | Some d0 => d0
                            | None => newSeeker env (s_email sess)
                                        (Some (JS.trim (optString (b_name b))))
                                        match b_onboarded b with
                                        | Some o => o
                                        | None => false
                                        end
                            end)));
      apply (found_or_new_identity env found _ s d st); try assumption;
        reflexivity.
  - intros doc. unfold saveUser. preserve;
      match goal with
      | H : keepsDid _ _ _ |- _ => exact H
      end.
  - exact Hr.
Qed.

(** C9. A seeker record whose DID is set keeps it through any later
    onboarding call, in the session-based version of the route and in the
    legacy one, whatever DID or wallet address the call supplies and
    whatever its outcome: the DID is assigned only to a record that has
    none. *)
Theorem seeker_did_is_never_overwritten env st s d :
  NoDup (List.map Seeker._id (seekers st)) ->
  ~ In (newObjectId env) (List.map Seeker._id (seekers st)) ->
  In s (seekers st) ->
  Seeker.did s = Some d ->
  d <> "" ->
  (forall session user b r st',
      SeekerRoutes.onboard env session user b st = (r, st') -> keepsDid s d st')
  /\ (forall b r st',
      LegacySeekerRoutes.onboard env b st = (r, st') -> keepsDid s d st').
Proof.
  intros ND Hfresh Hin Hd Hne. split.
  - intros session user b r st' H.
    exact (session_onboard_keepsDid _ _ _ _ _ _ _ _ _ ND Hfresh Hin Hd Hne H).
  - intros b r st' H.
    exact (legacy_onboard_keepsDid _ _ _ _ _ _ _ ND Hfresh Hin Hd Hne H).
Qed.

Lemma seeker_did_is_never_overwritten_witness :
  SeekerIdentity.deriveDidFromSession
    (mkSession (Some "did:privy:other") (Some "h@mail.test")
               (Some "0x1111111111111111111111111111111111111111") None)
  = Some "did:pkh:eip155:80002:0x1111111111111111111111111111111111111111"
  /\ fst (SeekerRoutes.onboard Fixture.env Fixture.otherDidSession
                               (Some Fixture.holderUser) Fixture.onboardBody
                               Fixture.store)
     = Ok (mkResponse 200
             (SeekerBody (applyBody "Hana" Fixture.onboardBody Fixture.holder)))
  /\ keepsDid Fixture.holder Fixture.holderDid
              (snd (SeekerRoutes.onboard Fixture.env Fixture.otherDidSession
                                         (Some Fixture.holderUser)
                                         Fixture.onboardBody Fixture.store))
  /\ keepsDid Fixture.holder Fixture.holderDid
              (snd (LegacySeekerRoutes.onboard Fixture.env Fixture.onboardBody
                                               Fixture.store)).
Proof.
  split; [reflexivity|]. split; [reflexivity|].
  destruct (seeker_did_is_never_overwritten
              Fixture.env Fixture.store Fixture.holder Fixture.holderDid)
    as [Hsession Hlegacy].
  - repeat constructor; simpl; intuition discriminate.
  - simpl. intuition discriminate.
  - left; reflexivity.
  - reflexivity.
  - discriminate.
  - split.
    + apply (Hsession Fixture.otherDidSession (Some Fixture.holderUser)
                      Fixture.onboardBody
                      (fst (SeekerRoutes.onboard Fixture.env Fixture.otherDidSession
                                                 (Some Fixture.holderUser)
                                                 Fixture.onboardBody Fixture.store))).
      apply surjective_pairing.
    + apply (Hlegacy Fixture.onboardBody
                     (fst (LegacySeekerRoutes.onboard Fixture.env Fixture.onboardBody
                                                      Fixture.store))).
      apply surjective_pairing.
Defined.

(* ===================================================================== *)
(** * Further properties of the handlers *)
(* ===================================================================== *)

(** ** General facts used below *)

Lemma gate_refusal_code role allowed user resp :
  requireRoleStateIn role allowed user = Some resp -> code resp = 403.
Proof.
  unfold requireRoleStateIn. destruct (negb _); [|discriminate].
  intros E; inversion E; reflexivity.
Qed.

Lemma preserves_findOneAndUpdateCredential (I : Store -> Prop) env site p f :
  (forall st, I st ->
     I (record (Wrote site Credentials)
               (upd_credentials (Mongo.updateOne p f) st))) ->
  preserves I (findOneAndUpdateCredential env site p f).
Proof.
  intros H. unfold findOneAndUpdateCredential. apply preserves_await.
  intros st r st' Hst E. inversion E; subst. apply H; assumption.
Qed.

(** [preserve], extended to the credential update of the revocation
    route. *)
Ltac preserve_all :=
  repeat first
    [ apply preserves_findOneAndUpdateCredential; intros ? ?
    | progress preserve ].

Lemma filter_updateOne_frame {A} (p q : A -> bool) f (coll : list A) :
  (forall x, p x = true -> q x = false) ->
  (forall x, p x = true -> q (f x) = false) ->
  List.filter q (Mongo.updateOne p f coll) = List.filter q coll.
Proof.
  intros H1 H2. induction coll as [|x rest IH]; simpl; [reflexivity|].
  destruct (p x) eqn:E; simpl.
  - rewrite (H1 x E), (H2 x E). reflexivity.
  - destruct (q x); [f_equal|]; exact IH.
Qed.

(** ** Revocation: ownership and frame *)

(** X1. An issuer can revoke only a credential it issued: when the
    Credential Store holds no credential with the requested id and the
    session's issuer DID, the revocation route changes nothing at all (no
    write, no ledger call) and answers 403, 400, 404 or 500, never 200. *)
Theorem revoke_requires_ownership
        env session user credentialId reason st issuerDid r st' :
  mustGetDid session = Ok issuerDid ->
  Mongo.findOne (ownedCredential (optString credentialId) issuerDid)
                (credentials st) = None ->
  revokeVc env session user credentialId reason st = (r, st') ->
  st' = st
  /\ exists resp,
      r = Ok resp
      /\ (code resp = 403 \/ code resp = 400 \/ code resp = 404
          \/ code resp = 500).
Proof.
  intros Hdid Hnone. unfold revokeVc.
  destruct (requireRoleActive IssuerRole user) as [forbidden|] eqn:G.
  { intros E; inversion E; subst. split; [reflexivity|].
    exists forbidden. split; [reflexivity|]. left.
    exact (gate_refusal_code _ _ _ _ G). }
  destruct (negb (JS.truthy credentialId)).
  { intros E; inversion E; subst. split; [reflexivity|].
    eexists. split; [reflexivity|]. right; left; reflexivity. }
  rewrite (bind_ok _ _ st issuerDid st)
    by (unfold lift; rewrite Hdid; reflexivity).
  destruct (rejects env "revoke/Credential.findOne") eqn:R1.
  { rewrite (tryCatch_bind_thrown _ _ _ _ _ _ (query_rejects _ _ _ _ R1)).
    intros E; inversion E; subst. split; [reflexivity|].
    eexists. split; [reflexivity|]. do 3 right; reflexivity. }
  rewrite (tryCatch_bind_ok _ _ _ _ _ _ (query_accepts _ _ _ _ R1)), Hnone.
  intros E; inversion E; subst. split; [reflexivity|].
  eexists. split; [reflexivity|]. right; right; left; reflexivity.
Qed.

Lemma revoke_requires_ownership_witness :
  Mongo.findOne (ownedCredential "vc-1" Fixture.orgDid)
                (credentials Fixture.store) = None
  /\ snd (revokeVc Fixture.env Fixture.orgSession (Some Fixture.issuerUser)
                   (Some "vc-1") None Fixture.store)
     = Fixture.store.
Proof.
  split; [reflexivity|].
  apply (revoke_requires_ownership
           Fixture.env Fixture.orgSession (Some Fixture.issuerUser)
           (Some "vc-1") None Fixture.store Fixture.orgDid
           (fst (revokeVc Fixture.env Fixture.orgSession
                          (Some Fixture.issuerUser) (Some "vc-1") None
                          Fixture.store))).
  - reflexivity.
  - reflexivity.
  - apply surjective_pairing.
Defined.

(** X2. Revoking one credential never changes another: whatever the
    outcome of the revocation route (any answer, any rejected call), the
    credentials whose id is not the requested one are exactly as they
    were, in the same order. *)
Theorem revoke_leaves_other_credentials
        env session user credentialId reason st :
  let other c := negb (String.eqb (Credential.credentialId c)
                                  (optString credentialId)) in
  List.filter other
              (credentials (snd (revokeVc env session user credentialId
                                          reason st)))
  = List.filter other (credentials st).
Proof.
  intros other.
  assert (P : preserves
                (fun s => List.filter other (credentials s)
                          = List.filter other (credentials st))
                (revokeVc env session user credentialId reason)).
  { assert (Hown : forall did x,
               ownedCredential (optString credentialId) did x = true ->
               other x = false).
    { intros did x H. unfold ownedCredential in H.
      apply andb_true_iff in H. destruct H as [H _].
      unfold other. rewrite H. reflexivity. }
    unfold revokeVc. preserve_all; simpl; try assumption.
    - rewrite filter_updateOne_frame; [assumption | apply Hown |].
      intros x Hx. apply (Hown _ _ Hx).
    - rewrite filter_updateOne_frame; [assumption | apply Hown |].
      intros x Hx. apply (Hown _ _ Hx). }
  destruct (revokeVc env session user credentialId reason st) as [r st'] eqn:E.
  exact (P st r st' eq_refl E).
Qed.

(** ** Approval: what a 200 stands for *)

Lemma approveRecruiter_ok env session user recruiterId st resp st' :
  approveRecruiter env session user recruiterId st = (Ok resp, st') ->
  code resp = 200 ->
  exists issuerDid issuer recruiter h issued c,
    requireRoleActive IssuerRole user = None
    /\ mustGetDid session = Ok issuerDid
    /\ Mongo.findOne (fun i => String.eqb (Issuer.did i) issuerDid) (issuers st)
       = Some issuer
    /\ Mongo.findOne (byRecruiterId recruiterId) (recruiters st) = Some recruiter
    /\ contract_issueBadge env (Recruiter.did recruiter) 1 = Some h
    /\ resp = mkResponse 200 (ApprovedBody (vcId issued) h)
    /\ c = Credential.mk (vcId issued) (Recruiter.did recruiter) issuerDid
             (Some (String.append "Recruiter Verification for "
                      (interpolate (Recruiter.orgLegalName recruiter))))
             (vc_type issued) (Some (vc_issuanceDate issued))
             Credential.Active (Some h) None (Some (vc issued))
             (Some "polygon-amoy")
    /\ existsb (fun x => String.eqb (Credential.credentialId x) (vcId issued))
               (credentials st) = false
    /\ credentials st' = credentials st ++ [c]
    /\ recruiters st'
       = Mongo.updateOne
           (byRecruiterId (Recruiter._id recruiter))
           (fun r => Recruiter.set_badge
                       (Some (approvedBadge env (mkTx h "polygon-amoy")
                                            (vcId issued)))
                       (Recruiter.set_kycStatus Recruiter.KycApproved r))
           (recruiters st)
    /\ seekers st' = seekers st
    /\ applications st' = applications st
    /\ sharedProofs st' = sharedProofs st
    /\ users st' = users st.
Proof.
  unfold approveRecruiter.
  destruct (requireRoleActive IssuerRole user) as [forbidden|] eqn:G.
  { intros E Hc. inversion E; subst.
    rewrite (gate_refusal_code _ _ _ _ G) in Hc. discriminate. }
  unfold tryCatch, bind, lift, query, issueRecruiterBadgeOnChain, external,
    writeChecked, write, await, respond, ret.
  destruct (mustGetDid session) as [issuerDid|e];
    [|intros E Hc; inversion E; subst; discriminate].
  destruct (rejects env "approve/Issuer.findOne");
    [intros E Hc; inversion E; subst; discriminate|].
  destruct (Mongo.findOne _ (issuers st)) as [issuer|] eqn:Hi;
    [|intros E Hc; inversion E; subst; discriminate].
  destruct (rejects env "approve/Recruiter.findById");
    [intros E Hc; inversion E; subst; discriminate|].
  destruct (Mongo.findOne _ (recruiters st)) as [recruiter|] eqn:Hr;
    [|intros E Hc; inversion E; subst; discriminate].
  unfold bind, lift.
  destruct (getTrustBadgeRegistryContract env);
    [|intros E Hc; inversion E; subst; discriminate].
  destruct (contract_issueBadge env (Recruiter.did recruiter) 1) as [h|] eqn:Hh;
    simpl; [|intros E Hc; inversion E; subst; discriminate].
  destruct (issueSimpleVc env _) as [issued|];
    [|intros E Hc; inversion E; subst; discriminate].
  destruct (rejects env "approve/Credential.create");
    [intros E Hc; inversion E; subst; discriminate|].
  destruct (createCredential _ _) as [sc|ec] eqn:C;
    [|intros E Hc; inversion E; subst; discriminate].
  assert (Hfresh :
            existsb (fun x => String.eqb (Credential.credentialId x) (vcId issued))
                    (credentials st) = false).
  { revert C. unfold createCredential. simpl.
    destruct (String.eqb (vcId issued) ""); [discriminate|].
    destruct (String.eqb (Recruiter.did recruiter) ""); [discriminate|].
    destruct (String.eqb issuerDid ""); [discriminate|].
    destruct (existsb _ (credentials st)); [discriminate | reflexivity]. }
  apply createCredential_ok in C. subst sc.
  destruct (rejects env "approve/recruiter.save");
    [intros E Hc; inversion E; subst; discriminate|].
  intros E _. inversion E; subst; clear E.
  exists issuerDid, issuer, recruiter, h, issued. eexists.
  repeat split; try reflexivity; assumption.
Qed.

(** X3. An approval that answers 200 has minted exactly one credential:
    the Credential Store is the old one followed by one new credential
    whose id was not in use, which is active, names the approved
    recruiter's DID as subject and the session's DID as issuer, and
    carries the hash of the ledger transaction; the response names this
    credential and this hash, and so does the stored recruiter's badge
    (its credential reference and its transaction hash). *)
Theorem approve_mints_one_trust_credential
        env session user recruiterId st resp st' :
  approveRecruiter env session user recruiterId st = (Ok resp, st') ->
  code resp = 200 ->
  exists issuerDid recruiter h c r' b,
    mustGetDid session = Ok issuerDid
    /\ Mongo.findOne (byRecruiterId recruiterId) (recruiters st) = Some recruiter
    /\ contract_issueBadge env (Recruiter.did recruiter) 1 = Some h
    /\ credentials st' = credentials st ++ [c]
    /\ (forall x, In x (credentials st) ->
                  Credential.credentialId x <> Credential.credentialId c)
    /\ Credential.subjectDid c = Recruiter.did recruiter
    /\ Credential.issuerDid c = issuerDid
    /\ Credential.status c = Credential.Active
    /\ Credential.onChainTxHash c = Some h
    /\ body resp = ApprovedBody (Credential.credentialId c) h
    /\ Mongo.findOne (byRecruiterId recruiterId) (recruiters st') = Some r'
    /\ Recruiter.badge r' = Some b
    /\ Recruiter.credentialId b = Some (Credential.credentialId c)
    /\ Recruiter.txHash b = Some h.
Proof.
  intros Hrun Hcode.
  destruct (approveRecruiter_ok _ _ _ _ _ _ _ Hrun Hcode)
    as (issuerDid & issuer & recruiter & h & issued & c & _ & Hdid & _ & Hrec
        & Hh & -> & -> & Hfresh & Hcreds & Hrecs & _).
  exists issuerDid, recruiter, h. eexists. eexists. eexists.
  split; [exact Hdid|]. split; [exact Hrec|]. split; [exact Hh|].
  split; [exact Hcreds|]. split.
  { intros x Hx Heq. simpl in Heq.
    assert (F : existsb (fun x => String.eqb (Credential.credentialId x)
                                             (vcId issued))
                        (credentials st) = true).
    { apply existsb_exists. exists x. split; [exact Hx|].
      rewrite Heq. apply String.eqb_refl. }
    congruence. }
  do 5 (split; [reflexivity|]).
  rewrite Hrecs.
  assert (Hid : Recruiter._id recruiter = recruiterId).
  { apply findOne_In in Hrec. destruct Hrec as [_ H].
    apply String.eqb_eq in H. exact H. }
  rewrite Hid.
  rewrite findOne_updateOne_same by (intros x Hx; exact Hx).
  rewrite Hrec. simpl. split; [reflexivity|]. split; [reflexivity|].
  split; reflexivity.
Qed.

Lemma approve_mints_one_trust_credential_witness :
  let run := approveRecruiter Fixture.env Fixture.issuerSession
                              (Some Fixture.issuerUser) "rec-2" Fixture.store in
  exists c,
    credentials (snd run) = credentials Fixture.store ++ [c]
    /\ Credential.subjectDid c = Recruiter.did Fixture.pendingOrg
    /\ Credential.status c = Credential.Active.
Proof.
  destruct (approve_mints_one_trust_credential
              Fixture.env Fixture.issuerSession (Some Fixture.issuerUser)
              "rec-2" Fixture.store
              (mkResponse 200 (ApprovedBody "urn:securehire:vc:new" "0xissue"))
              (snd (approveRecruiter Fixture.env Fixture.issuerSession
                                     (Some Fixture.issuerUser) "rec-2"
                                     Fixture.store)))
    as (issuerDid & recruiter & h & c & r' & b & _ & Hrec & _ & Hc & _ & Hs
        & _ & Ha & _); try reflexivity.
  exists c. split; [exact Hc|]. split; [|exact Ha].
  rewrite Hs. inversion Hrec. reflexivity.
Defined.

(** X4. The approval route has no effect at all (no ledger call, no
    signing request, no write) unless the caller passes the issuer gate,
    the session carries a DID under which an Issuer document is stored,
    and the recruiter id names a stored recruiter. *)
Theorem approve_effect_requires_registered_issuer
        env session user recruiterId st r st' :
  approveRecruiter env session user recruiterId st = (r, st') ->
  st' <> st ->
  requireRoleActive IssuerRole user = None
  /\ exists issuerDid issuer recruiter,
      mustGetDid session = Ok issuerDid
      /\ Mongo.findOne (fun i => String.eqb (Issuer.did i) issuerDid)
                       (issuers st) = Some issuer
      /\ Mongo.findOne (byRecruiterId recruiterId) (recruiters st)
         = Some recruiter.
Proof.
  unfold approveRecruiter.
  destruct (requireRoleActive IssuerRole user) as [forbidden|] eqn:G.
  { intros E N. inversion E; subst. contradiction N; reflexivity. }
  unfold tryCatch at 1. unfold bind at 1. unfold lift.
  destruct (mustGetDid session) as [issuerDid|e].
  2:{ intros E N. inversion E; subst. contradiction N; reflexivity. }
  unfold bind at 1. unfold query at 1. unfold await at 1.
  destruct (rejects env "approve/Issuer.findOne").
  { intros E N. inversion E; subst. contradiction N; reflexivity. }
  destruct (Mongo.findOne _ (issuers st)) as [issuer|] eqn:Hi.
  2:{ intros E N. inversion E; subst. contradiction N; reflexivity. }
  unfold bind at 1. unfold query at 1. unfold await at 1.
  destruct (rejects env "approve/Recruiter.findById").
  { intros E N. inversion E; subst. contradiction N; reflexivity. }
  destruct (Mongo.findOne _ (recruiters st)) as [recruiter|] eqn:Hr.
  2:{ intros E N. inversion E; subst. contradiction N; reflexivity. }
  intros _ _. split; [reflexivity|].
  exists issuerDid, issuer, recruiter. auto.
Qed.

Lemma approve_effect_requires_registered_issuer_witness :
  requireRoleActive IssuerRole (Some Fixture.issuerUser) = None
  /\ exists issuerDid issuer recruiter,
      mustGetDid Fixture.issuerSession = Ok issuerDid
      /\ Mongo.findOne (fun i => String.eqb (Issuer.did i) issuerDid)
                       (issuers Fixture.store) = Some issuer
      /\ Mongo.findOne (byRecruiterId "rec-2") (recruiters Fixture.store)
         = Some recruiter.
Proof.
  apply (approve_effect_requires_registered_issuer
           Fixture.env Fixture.issuerSession (Some Fixture.issuerUser)
           "rec-2" Fixture.store
           (fst (approveRecruiter Fixture.env Fixture.issuerSession
                                  (Some Fixture.issuerUser) "rec-2"
                                  Fixture.store))
           (snd (approveRecruiter Fixture.env Fixture.issuerSession
                                  (Some Fixture.issuerUser) "rec-2"
                                  Fixture.store))).
  - apply surjective_pairing.
  - intros H. apply (f_equal trace) in H. vm_compute in H. discriminate.
Defined.

(** ** Application routes: who may read and edit, and what an edit leaves alone *)

Lemma preserves_bind_query {A B} (I : Store -> Prop) env site
      (f : Store -> A) (k : A -> M B) :
  (forall st0, preserves I (k (f st0))) ->
  preserves I (bind (query env site f) k).
Proof.
  intros H st r st' Hst. unfold bind, query, await.
  destruct (rejects env site); intros E.
  - inversion E; subst; assumption.
  - exact (H st st r st' Hst E).
Qed.

Lemma preserves_bind_lift {A B} (I : Store -> Prop) (o : Outcome A)
      (k : A -> M B) :
  (forall a, o = Ok a -> preserves I (k a)) ->
  preserves I (bind (lift o) k).
Proof.
  intros H st r st' Hst. unfold bind, lift.
  destruct o as [a|e]; intros E.
  - exact (H a eq_refl st r st' Hst E).
  - inversion E; subst; assumption.
Qed.

(** [preserve], keeping what a read returned and what a pure step
    computed as equations in the context. *)
Ltac preserve_ctx :=
  repeat first
    [ apply preserves_ret
    | apply preserves_respond
    | apply preserves_lift
    | apply preserves_query
    | apply preserves_bind_lift; intros ? ?
    | apply preserves_bind_query; intros ?
    | apply preserves_bind; [| intros ?]
    | apply preserves_tryCatch; [| intros ?]
    | apply preserves_write; intros ? ?
    | apply preserves_writeChecked; intros ? ? ? ?
    | apply preserves_external; intros ? ?
    | apply preserves_findOneAndUpdateCredential; intros ? ?
    | match goal with
      | |- preserves _ (if ?b then _ else _) => destruct b eqn:?
      | |- preserves _ (match ?x with _ => _ end) => destruct x eqn:?
      end ].

(** X5. GET /applications/:id is a pure read, whatever it answers, and it
    answers 200 only to a session whose DID is the application's seeker
    DID or its recruiter DID; the application it returns is the stored
    one. *)
Theorem getApplication_reads_only_for_parties env session id st r st' :
  ApplicationRoutes.getApplication env session id st = (r, st') ->
  st' = st
  /\ forall resp, r = Ok resp -> code resp = 200 ->
       exists did app trust verified proofs,
         ApplicationRoutes.mustGetDid session = Ok did
         /\ Mongo.findOne (ApplicationRoutes.byAppId id) (applications st)
            = Some app
         /\ (JS.trim did = Application.seekerDid app
             \/ JS.trim did = Application.recruiterDid app)
         /\ body resp = ApplicationBody app trust verified proofs.
Proof.
  intros Hrun. split.
  { assert (P : preserves (fun s => s = st)
                          (ApplicationRoutes.getApplication env session id)).
    { unfold ApplicationRoutes.getApplication,
        ApplicationRoutes.filterActiveSharedProofs. preserve. }
    exact (P st r st' eq_refl Hrun). }
  intros resp -> Hcode. revert Hrun.
  unfold ApplicationRoutes.getApplication, tryCatch, bind, lift, query, await,
    respond, ret.
  destruct (ApplicationRoutes.mustGetDid session) as [did|e];
    [|intros E; inversion E; subst; discriminate].
  destruct (rejects env "get/Application.findById");
    [intros E; inversion E; subst; discriminate|].
  destruct (Mongo.findOne _ (applications st)) as [app|];
    [|intros E; inversion E; subst; discriminate].
  destruct (negb (ApplicationRoutes.isOwnerOfApplication did app)) eqn:O;
    [intros E; inversion E; subst; discriminate|].
  destruct (rejects env "get/Recruiter.findOne");
    [intros E; inversion E; subst; discriminate|].
  destruct (rejects env "get/Job.findById");
    [intros E; inversion E; subst; discriminate|].
  destruct (rejects env "get/Seeker.findOne");
    [intros E; inversion E; subst; discriminate|].
  destruct (rejects env "get/SharedProof.find");
    [intros E; inversion E; subst; discriminate|].
  destruct (ApplicationRoutes.filterActiveSharedProofs env _ st)
    as [[safe|e] s1]; [|intros E; inversion E; subst; discriminate].
  intros E; inversion E; subst; clear E.
  exists did, app. do 3 eexists. split; [reflexivity|]. split; [reflexivity|].
  split; [|reflexivity].
  apply negb_false_iff in O. unfold ApplicationRoutes.isOwnerOfApplication in O.
  apply orb_true_iff in O. destruct O as [O|O]; apply String.eqb_eq in O; auto.
Qed.

Lemma getApplication_reads_only_for_parties_witness :
  snd (ApplicationRoutes.getApplication Fixture.env Fixture.orgSession "app-1"
                                        Fixture.store)
  = Fixture.store.
Proof.
  apply (getApplication_reads_only_for_parties
           Fixture.env Fixture.orgSession "app-1" Fixture.store
           (fst (ApplicationRoutes.getApplication Fixture.env Fixture.orgSession
                                                  "app-1" Fixture.store))).
  apply surjective_pairing.
Defined.

(** X6. PATCH /applications/:id/shared-vcs has no effect at all unless the
    session's DID is the seeker DID of the stored application and the
    application is still in status submitted: the recruiter, a third
    party, or the seeker after review has begun change nothing. *)
Theorem patchSharedVcs_only_by_applicant_while_submitted
        env session id sharedVcIds st r st' :
  ApplicationRoutes.patchSharedVcs env session id sharedVcIds st = (r, st') ->
  st' <> st ->
  exists did app,
    ApplicationRoutes.mustGetDid session = Ok did
    /\ Mongo.findOne (ApplicationRoutes.byAppId id) (applications st) = Some app
    /\ Application.seekerDid app = did
    /\ Application.status app = Application.Submitted.
Proof.
  unfold ApplicationRoutes.patchSharedVcs.
  unfold tryCatch at 1. unfold bind at 1. unfold lift.
  destruct (ApplicationRoutes.mustGetDid session) as [did|e].
  2:{ intros E N. inversion E; subst. contradiction N; reflexivity. }
  unfold bind at 1. unfold query at 1. unfold await at 1.
  destruct (rejects env "patch/Application.findById").
  { intros E N. inversion E; subst. contradiction N; reflexivity. }
  destruct (Mongo.findOne _ (applications st)) as [app|] eqn:F.
  2:{ intros E N. inversion E; subst. contradiction N; reflexivity. }
  destruct (negb (String.eqb (Application.seekerDid app) did)) eqn:O.
  { intros E N. inversion E; subst. contradiction N; reflexivity. }
  destruct (negb (Application.isSubmitted (Application.status app))) eqn:S.
  { intros E N. inversion E; subst. contradiction N; reflexivity. }
  intros _ _. exists did, app. split; [reflexivity|]. split; [reflexivity|].
  apply negb_false_iff in O. apply String.eqb_eq in O.
  apply negb_false_iff in S. split; [exact O|].
  destruct (Application.status app); try discriminate. reflexivity.
Qed.

Lemma patchSharedVcs_only_by_applicant_while_submitted_witness :
  exists did app,
    ApplicationRoutes.mustGetDid Fixture.holderSession = Ok did
    /\ Mongo.findOne (ApplicationRoutes.byAppId "app-1")
                     (applications Fixture.store) = Some app
    /\ Application.seekerDid app = did
    /\ Application.status app = Application.Submitted.
Proof.
  apply (patchSharedVcs_only_by_applicant_while_submitted
           Fixture.env Fixture.holderSession "app-1" (Some [])
           Fixture.store
           (fst (ApplicationRoutes.patchSharedVcs
                   Fixture.env Fixture.holderSession "app-1" (Some [])
                   Fixture.store))
           (snd (ApplicationRoutes.patchSharedVcs
                   Fixture.env Fixture.holderSession "app-1" (Some [])
                   Fixture.store))).
  - apply surjective_pairing.
  - intros H. apply (f_equal trace) in H. vm_compute in H. discriminate.
Defined.

Lemma filter_deleteMany_frame {A} (del q : A -> bool) (coll : list A) :
  (forall x, q x = true -> del x = false) ->
  List.filter q (Mongo.deleteMany del coll) = List.filter q coll.
Proof.
  intros H. unfold Mongo.deleteMany.
  induction coll as [|x rest IH]; simpl; [reflexivity|].
  destruct (q x) eqn:Q.
  - rewrite (H x Q). simpl. rewrite Q. f_equal. exact IH.
  - destruct (negb (del x)); simpl; [rewrite Q|]; exact IH.
Qed.

Lemma filter_upsertOne_frame {A} (p q : A -> bool) f fresh (coll : list A) :
  (forall x, p x = true -> q x = false) ->
  (forall x, p x = true -> q (f x) = false) ->
  q fresh = false ->
  List.filter q (Mongo.upsertOne p f fresh coll) = List.filter q coll.
Proof.
  intros H1 H2 H3. unfold Mongo.upsertOne. destruct (existsb p coll).
  - apply filter_updateOne_frame; assumption.
  - rewrite filter_app. simpl. rewrite H3. apply app_nil_r.
Qed.

Lemma filter_bulkWrite_frame (q : SharedProof.doc -> bool) ops coll :
  (forall d, In d ops ->
             q d = false
             /\ forall x, ApplicationRoutes.sameProofKey d x = true -> q x = false) ->
  List.filter q (ApplicationRoutes.bulkWrite ops coll) = List.filter q coll.
Proof.
  unfold ApplicationRoutes.bulkWrite. revert coll.
  induction ops as [|d ops IH]; simpl; intros coll H; [reflexivity|].
  rewrite IH by (intros d' Hd'; apply H; auto).
  destruct (H d (or_introl eq_refl)) as [Hd Hk].
  apply filter_upsertOne_frame; auto.
Qed.

(** X7. Sharing into one application never alters what was shared into
    another: whatever the outcome of PATCH /applications/:id/shared-vcs,
    the disclosures stored for every other application id and every other
    application document are exactly as before. *)
Theorem patchSharedVcs_leaves_other_applications
        env session id sharedVcIds st other :
  other <> id ->
  let st' := snd (ApplicationRoutes.patchSharedVcs env session id sharedVcIds st) in
  storedDisclosures st' other = storedDisclosures st other
  /\ List.filter (fun a => negb (ApplicationRoutes.byAppId id a)) (applications st')
     = List.filter (fun a => negb (ApplicationRoutes.byAppId id a)) (applications st).
Proof.
  intros Hother st'.
  assert (P : preserves
                (fun s => storedDisclosures s other = storedDisclosures st other
                          /\ List.filter (fun a => negb (ApplicationRoutes.byAppId id a))
                                         (applications s)
                             = List.filter (fun a => negb (ApplicationRoutes.byAppId id a))
                                           (applications st))
                (ApplicationRoutes.patchSharedVcs env session id sharedVcIds)).
  { unfold ApplicationRoutes.patchSharedVcs. preserve_ctx;
      match goal with
      | H : _ /\ _ |- _ => destruct H as [HD HA]
      end;
      match goal with
      | F : Mongo.findOne (ApplicationRoutes.byAppId id) _ = Some ?app |- _ =>
          assert (Hid : Application._id app = id)
            by (apply findOne_In in F; destruct F as [_ F];
                apply String.eqb_eq in F; exact F)
      end;
      (split; [| simpl; try exact HA]).
    - (* deleteMany *)
      unfold storedDisclosures in *. simpl. unfold Mongo.findMany in *.
      rewrite filter_deleteMany_frame; [exact HD|].
      intros x Hx. apply String.eqb_eq in Hx. rewrite Hid.
      destruct (String.eqb_spec (SharedProof.applicationId x) id) as [K|K];
        [congruence | reflexivity].
    - (* bulkWrite *)
      unfold storedDisclosures in *. simpl. unfold Mongo.findMany in *.
      rewrite filter_bulkWrite_frame; [exact HD|].
      match goal with
      | B : ApplicationRoutes.buildBulkOps _ _ _ _ = Ok _ |- _ =>
          apply buildBulkOps_ok in B; destruct B as [-> _]
      end.
      intros d0 Hd0. apply in_map_iff in Hd0. destruct Hd0 as [v0 [<- _]].
      simpl. rewrite Hid. split.
      + apply String.eqb_neq. congruence.
      + intros x Hx. unfold ApplicationRoutes.sameProofKey in Hx.
        apply proofKey_eq in Hx. destruct Hx as [Hx _]. simpl in Hx.
        rewrite Hx, Hid. apply String.eqb_neq. congruence.
    - (* app.save *)
      unfold storedDisclosures in *. simpl. exact HD.
    - rewrite filter_updateOne_frame; [exact HA | |].
      + intros x Hx. unfold ApplicationRoutes.byAppId in *.
        rewrite Hid in Hx. rewrite Hx. reflexivity.
      + intros x Hx. unfold ApplicationRoutes.byAppId in *. simpl.
        rewrite Hid in Hx. rewrite Hx. reflexivity. }
  destruct (ApplicationRoutes.patchSharedVcs env session id sharedVcIds st)
    as [r s1] eqn:E.
  exact (P st r s1 (conj eq_refl eq_refl) E).
Qed.

Lemma patchSharedVcs_leaves_other_applications_witness :
  storedDisclosures
    (snd (ApplicationRoutes.patchSharedVcs Fixture.env Fixture.holderSession
                                           "app-2" (Some ["vc-1"])
                                           Fixture.store))
    "app-1"
  = [Fixture.disclosure].
Proof.
  apply (patchSharedVcs_leaves_other_applications
           Fixture.env Fixture.holderSession "app-2" (Some ["vc-1"])
           Fixture.store "app-1").
  discriminate.
Defined.

(** ** Role synchronisation and the capability gate *)

Lemma truthy_inv o : JS.truthy o = true -> exists s, o = Some s /\ s <> "".
Proof.
  destruct o as [s|]; simpl; [|discriminate].
  intros H. exists s. split; [reflexivity|].
  intros ->. discriminate.
Qed.

Lemma gate_active_inv role user :
  requireRoleActive role user = None ->
  exists u, user = Some u /\ User.roleOf role u = active.
Proof.
  unfold requireRoleActive, requireRoleStateIn.
  destruct user as [u|]; simpl.
  - destruct (User.roleOf role u) eqn:R; simpl; try discriminate.
    intros _. exists u. auto.
  - discriminate.
Qed.

Lemma query_cases {A} env site (f : Store -> A) st r st' :
  query env site f st = (r, st') ->
  st' = st /\ (r = Ok (f st) \/ exists e, r = Thrown e).
Proof.
  unfold query, await. destruct (rejects env site);
    intros E; inversion E; subst; eauto.
Qed.

Lemma syncRecruiter_tail env user recruiter st r st' :
  (let desired := computeRecruiterRoleState recruiter in
   if negb (RoleState_eqb (User.recruiter (User.roles user)) desired)
   then
     let user' := set_recruiter_role desired user in
     saveUser env "sync/user.save" user' ;;;
     ret (Some user')
   else ret (Some user)) st = (r, st') ->
  let desired := computeRecruiterRoleState recruiter in
  (exists e, r = Thrown e /\ st' = st)
  \/ (r = Ok (Some (set_recruiter_role desired user))
      /\ ((User.recruiter (User.roles user) = desired /\ st' = st)
          \/ (User.recruiter (User.roles user) <> desired
              /\ st' = record (Wrote "sync/user.save" Users)
                         (upd_users
                            (Mongo.updateOne
                               (fun x => String.eqb (User.privyUserId x)
                                                    (User.privyUserId user))
                               (fun _ => set_recruiter_role desired user))
                            st)))).
Proof.
  cbv zeta.
  destruct (RoleState_eqb (User.recruiter (User.roles user))
                          (computeRecruiterRoleState recruiter)) eqn:Q; simpl.
  - assert (Heq : User.recruiter (User.roles user)
                  = computeRecruiterRoleState recruiter).
    { destruct (User.recruiter (User.roles user)),
               (computeRecruiterRoleState recruiter);
        simpl in Q; try discriminate; reflexivity. }
    intros E; inversion E; subst. right. split.
    + rewrite <- Heq. destruct user as [? ? ? ? []]. reflexivity.
    + left. auto.
  - assert (Hne : User.recruiter (User.roles user)
                  <> computeRecruiterRoleState recruiter).
    { intros Heq. rewrite Heq in Q.
      destruct (computeRecruiterRoleState recruiter); discriminate. }
    unfold bind, saveUser, write, await, ret.
    destruct (rejects env "sync/user.save").
    + intros E; inversion E; subst. left. eauto.
    + intros E; inversion E; subst. right. split; [reflexivity|]. right.
      split; [exact Hne|]. reflexivity.
Qed.

(** Every run of the recruiter synchronisation, spelled out: the role
    state it derives from the record the session resolves to, and
    whether it saves. *)
Lemma syncRecruiter_shape env session user st r st' :
  syncRecruiterRoleFromRecruiterDoc env session (Some user) st = (r, st') ->
  let desired := computeRecruiterRoleState (recruiterOfSession session st) in
  (exists e, r = Thrown e /\ st' = st)
  \/ (r = Ok (Some (set_recruiter_role desired user))
      /\ ((User.recruiter (User.roles user) = desired /\ st' = st)
          \/ (User.recruiter (User.roles user) <> desired
              /\ st' = record (Wrote "sync/user.save" Users)
                         (upd_users
                            (Mongo.updateOne
                               (fun x => String.eqb (User.privyUserId x)
                                                    (User.privyUserId user))
                               (fun _ => set_recruiter_role desired user))
                            st)))).
Proof.
  unfold syncRecruiterRoleFromRecruiterDoc, recruiterOfSession. cbv zeta.
  intros H. apply bind_cases in H.
  destruct H as [(e & Hm & ->)|(byDid & s1 & Hm & H)].
  { left. exists e. split; [reflexivity|].
    destruct (JS.truthy (sessionDidTrimmed session)).
    - apply query_cases in Hm. tauto.
    - inversion Hm. }
  assert (Hb : s1 = st
               /\ byDid = if JS.truthy (sessionDidTrimmed session)
                          then Mongo.findOne
                                 (fun r => String.eqb (Recruiter.did r)
                                             (optString (sessionDidTrimmed session)))
                                 (recruiters st)
                          else None).
  { destruct (JS.truthy (sessionDidTrimmed session)).
    - apply query_inv in Hm. tauto.
    - apply ret_inv in Hm. tauto. }
  destruct Hb as [-> Hb]. rewrite <- Hb. clear Hb Hm.
  apply bind_cases in H.
  destruct H as [(e & Hm & ->)|(recruiter & s1 & Hm & H)].
  { left. exists e. split; [reflexivity|].
    destruct byDid; [inversion Hm|].
    destruct (JS.truthy (sessionEmailNormalised session)).
    - apply query_cases in Hm. tauto.
    - inversion Hm. }
  assert (Hr : s1 = st
               /\ recruiter
                  = match byDid with
                    | Some r => Some r
                    | None =>
                        if JS.truthy (sessionEmailNormalised session)
                        then Mongo.findOne
                               (fun r => match Recruiter.contactEmail r with
                                         | Some e =>
                                             String.eqb e
                                               (optString (sessionEmailNormalised session))
                                         | None => false
                                         end)
                               (recruiters st)
                        else None
                    end).
  { destruct byDid.
    - apply ret_inv in Hm. tauto.
    - destruct (JS.truthy (sessionEmailNormalised session)).
      + apply query_inv in Hm. tauto.
      + apply ret_inv in Hm. tauto. }
  destruct Hr as [-> Hr]. rewrite <- Hr. clear Hr Hm.
  apply syncRecruiter_tail in H. exact H.
Qed.

Lemma recruiterOfSession_inv session st r :
  recruiterOfSession session st = Some r ->
  In r (recruiters st)
  /\ (sessionDidTrimmed session = Some (Recruiter.did r)
      \/ exists e, sessionEmailNormalised session = Some e
                   /\ Recruiter.contactEmail r = Some e).
Proof.
  unfold recruiterOfSession. cbv zeta.
  assert (Hemail :
            (if JS.truthy (sessionEmailNormalised session)
             then Mongo.findOne
                    (fun r => match Recruiter.contactEmail r with
                              | Some e =>
                                  String.eqb e
                                    (optString (sessionEmailNormalised session))
                              | None => false
                              end)
                    (recruiters st)
             else None) = Some r ->
            In r (recruiters st)
            /\ exists e, sessionEmailNormalised session = Some e
                         /\ Recruiter.contactEmail r = Some e).
  { destruct (JS.truthy (sessionEmailNormalised session)) eqn:Te;
      [|discriminate].
    apply truthy_inv in Te. destruct Te as (m & Hm & _). rewrite Hm. simpl.
    intros F. apply findOne_In in F. destruct F as [Hin Hp].
    split; [exact Hin|]. exists m. split; [reflexivity|].
    destruct (Recruiter.contactEmail r) as [c|]; [|discriminate].
    apply String.eqb_eq in Hp. congruence. }
  destruct (JS.truthy (sessionDidTrimmed session)) eqn:Td.
  - apply truthy_inv in Td. destruct Td as (d & Hd & _). rewrite Hd. simpl.
    destruct (Mongo.findOne (fun r0 => String.eqb (Recruiter.did r0) d)
                            (recruiters st)) as [r0|] eqn:F.
    + intros E; inversion E; subst.
      apply findOne_In in F. destruct F as [Hin Hp].
      apply String.eqb_eq in Hp. split; [exact Hin|]. left. congruence.
    + intros E. destruct (Hemail E) as [Hin He]. auto.
  - intros E. destruct (Hemail E) as [Hin He]. auto.
Qed.

(** X8. The recruiter gate opens only for an organisation with an Active
    badge: when the role synchronisation has run and [requireRoleActive]
    lets the request through, the store holds a recruiter record that is
    onboarded, whose badge status is Active, and that carries the
    session's DID or, failing a record with that DID, the session's
    email as contact email. *)
Theorem recruiter_gate_opens_only_for_active_badge
        env session user st user' st' :
  syncRecruiterRoleFromRecruiterDoc env session user st = (Ok user', st') ->
  requireRoleActive RecruiterRole user' = None ->
  exists r,
    In r (recruiters st)
    /\ Recruiter.onboarded r = true
    /\ storedBadgeStatus r = Some "Active"
    /\ (sessionDidTrimmed session = Some (Recruiter.did r)
        \/ exists e, sessionEmailNormalised session = Some e
                     /\ Recruiter.contactEmail r = Some e).
Proof.
  intros Hrun Hgate.
  destruct user as [user|].
  2:{ inversion Hrun; subst. discriminate. }
  apply syncRecruiter_shape in Hrun.
  destruct Hrun as [(e & Hr & _)|(Hr & _)]; [discriminate|].
  inversion Hr; subst user'; clear Hr.
  apply gate_active_inv in Hgate. destruct Hgate as (u & Hu & Hact).
  inversion Hu; subst u; clear Hu. simpl in Hact.
  destruct (recruiterOfSession session st) as [r|] eqn:R; [|discriminate].
  apply roleState_active_inv in Hact. destruct Hact as [Ho Hs].
  apply recruiterOfSession_inv in R. destruct R as [Hin Hid].
  exists r. auto.
Qed.

Lemma recruiter_gate_opens_only_for_active_badge_witness :
  exists r,
    In r (recruiters Fixture.store)
    /\ Recruiter.onboarded r = true
    /\ storedBadgeStatus r = Some "Active"
    /\ (sessionDidTrimmed Fixture.orgSession = Some (Recruiter.did r)
        \/ exists e, sessionEmailNormalised Fixture.orgSession = Some e
                     /\ Recruiter.contactEmail r = Some e).
Proof.
  apply (recruiter_gate_opens_only_for_active_badge
           Fixture.env Fixture.orgSession (Some Fixture.orgUser) Fixture.store
           (Some Fixture.orgUser) Fixture.store); reflexivity.
Defined.

(** X9. The role synchronisation settles: once it has run, running it
    again for the same session on the store it left, whatever calls
    reject this time, writes nothing and, when it returns, returns the
    same user. *)
Theorem sync_recruiter_role_settles
        env session user st user1 st1 env2 r2 st2 :
  syncRecruiterRoleFromRecruiterDoc env session user st = (Ok user1, st1) ->
  syncRecruiterRoleFromRecruiterDoc env2 session user1 st1 = (r2, st2) ->
  st2 = st1 /\ (r2 = Ok user1 \/ exists e, r2 = Thrown e).
Proof.
  intros H1 H2.
  destruct user as [user|].
  2:{ inversion H1; subst. inversion H2; subst. auto. }
  apply syncRecruiter_shape in H1.
  destruct H1 as [(e & Hr & _)|(Hr & Hst)]; [discriminate|].
  inversion Hr; subst user1; clear Hr.
  assert (Hrec : recruiterOfSession session st1 = recruiterOfSession session st).
  { destruct Hst as [[_ ->]|[_ ->]]; reflexivity. }
  apply syncRecruiter_shape in H2. rewrite Hrec in H2.
  destruct H2 as [(e & -> & ->)|(-> & [[_ ->]|[Hne _]])].
  - split; [reflexivity|]. right. eauto.
  - split; [reflexivity|]. left. reflexivity.
  - exfalso. apply Hne. reflexivity.
Qed.

Lemma sync_recruiter_role_settles_witness :
  let stale := User.mk "privy-org" None (Some Fixture.orgDid) None
                       (User.mkRoles none none none) in
  let st := mkStore [] [Fixture.org] [] [] [] [] [] [stale] [] in
  let first := syncRecruiterRoleFromRecruiterDoc Fixture.env Fixture.orgSession
                                                 (Some stale) st in
  fst first = Ok (Some Fixture.orgUser)
  /\ snd (syncRecruiterRoleFromRecruiterDoc Fixture.envLedgerDown
                                            Fixture.orgSession
                                            (Some Fixture.orgUser) (snd first))
     = snd first.
Proof.
  split; [reflexivity|].
  apply (sync_recruiter_role_settles
           Fixture.env Fixture.orgSession
           (Some (User.mk "privy-org" None (Some Fixture.orgDid) None
                          (User.mkRoles none none none)))
           (mkStore [] [Fixture.org] [] [] [] [] []
                    [User.mk "privy-org" None (Some Fixture.orgDid) None
                             (User.mkRoles none none none)] [])
           (Some Fixture.orgUser)
           (snd (syncRecruiterRoleFromRecruiterDoc
                   Fixture.env Fixture.orgSession
                   (Some (User.mk "privy-org" None (Some Fixture.orgDid) None
                                  (User.mkRoles none none none)))
                   (mkStore [] [Fixture.org] [] [] [] [] []
                            [User.mk "privy-org" None (Some Fixture.orgDid) None
                                     (User.mkRoles none none none)] [])))
           Fixture.envLedgerDown
           (fst (syncRecruiterRoleFromRecruiterDoc
                   Fixture.envLedgerDown Fixture.orgSession
                   (Some Fixture.orgUser)
                   (snd (syncRecruiterRoleFromRecruiterDoc
                           Fixture.env Fixture.orgSession
                           (Some (User.mk "privy-org" None (Some Fixture.orgDid)
                                          None (User.mkRoles none none none)))
                           (mkStore [] [Fixture.org] [] [] [] [] []
                                    [User.mk "privy-org" None
                                             (Some Fixture.orgDid) None
                                             (User.mkRoles none none none)]
                                    [])))))).
  - reflexivity.
  - apply surjective_pairing.
Defined.

Lemma roleState_eqb_eq a b : RoleState_eqb a b = true <-> a = b.
Proof. destruct a, b; simpl; split; intros H; try discriminate; reflexivity. Qed.

(** What the last step of a role synchronisation hands on: a user whose
    role is the derived one. *)
Lemma sync_tail_role env site (get : User.doc -> RoleState)
      (set : RoleState -> User.doc -> User.doc) user desired st out st' :
  (forall d u, get (set d u) = d) ->
  (if negb (RoleState_eqb (get user) desired)
   then saveUser env site (set desired user) ;;; ret (Some (set desired user))
   else ret (Some user)) st = (Ok out, st') ->
  exists u, out = Some u /\ get u = desired.
Proof.
  intros Hget.
  destruct (RoleState_eqb (get user) desired) eqn:Q; simpl.
  - apply roleState_eqb_eq in Q. intros E. apply ret_inv in E.
    destruct E as [-> _]. eauto.
  - intros E. apply bind_inv in E. destruct E as (u & s1 & _ & E).
    apply ret_inv in E. destruct E as [-> _]. eauto.
Qed.

(** X10. The issuer gate opens only for an onboarded issuer: when the
    issuer role synchronisation has run and [requireRoleActive] lets the
    request through, the store holds an Issuer document that is onboarded
    and carries the session's DID or, failing a document with that DID,
    the session's email. *)
Theorem issuer_gate_opens_only_for_onboarded_issuer
        env session user st user' st' :
  syncIssuerRoleFromIssuerDoc env session user st = (Ok user', st') ->
  requireRoleActive IssuerRole user' = None ->
  exists i,
    In i (issuers st)
    /\ Issuer.onboarded i = true
    /\ (sessionDidTrimmed session = Some (Issuer.did i)
        \/ exists e, sessionEmailNormalised session = Some e
                     /\ Issuer.email i = Some e).
Proof.
  intros Hrun Hgate.
  destruct user as [user|].
  2:{ inversion Hrun; subst. discriminate. }
  unfold syncIssuerRoleFromIssuerDoc in Hrun. cbv zeta in Hrun.
  apply bind_inv in Hrun. destruct Hrun as (byDid & s1 & Hd & Hrun).
  apply bind_inv in Hrun. destruct Hrun as (issuer & s2 & He & Hrun).
  apply (sync_tail_role env "syncIssuer/user.save"
                        (fun u => User.issuer (User.roles u)) set_issuer_role)
    in Hrun; [|reflexivity].
  destruct Hrun as (u & -> & Hrole).
  apply gate_active_inv in Hgate. destruct Hgate as (u0 & Hu & Hact).
  inversion Hu; subst u0; clear Hu. simpl in Hact. rewrite Hact in Hrole.
  destruct issuer as [i|]; [|discriminate].
  simpl in Hrole.
  destruct (Issuer.onboarded i) eqn:On; [|discriminate].
  exists i.
  destruct (JS.truthy (sessionDidTrimmed session)) eqn:Td.
  - apply truthy_inv in Td. destruct Td as (d & Hdid & _).
    apply query_inv in Hd. destruct Hd as [-> ->].
    rewrite Hdid in He. simpl in He.
    destruct (Mongo.findOne (fun i0 => String.eqb (Issuer.did i0) d) (issuers st))
      as [i0|] eqn:F.
    + apply ret_inv in He. destruct He as [E _]. inversion E; subst i0.
      apply findOne_In in F. destruct F as [Hin Hp].
      apply String.eqb_eq in Hp. split; [exact Hin|]. split; [exact On|].
      left. congruence.
    + destruct (JS.truthy (sessionEmailNormalised session)) eqn:Te.
      * apply truthy_inv in Te. destruct Te as (m & Hm & _).
        apply query_inv in He. destruct He as [E _]. rewrite Hm in E. simpl in E.
        symmetry in E. apply findOne_In in E. destruct E as [Hin Hp].
        split; [exact Hin|]. split; [exact On|]. right. exists m.
        split; [exact Hm|]. unfold issuerHasEmail in Hp.
        destruct (Issuer.email i) as [c|]; [|discriminate].
        apply String.eqb_eq in Hp. congruence.
      * apply ret_inv in He. destruct He as [E _]. discriminate.
  - apply ret_inv in Hd. destruct Hd as [-> ->].
    destruct (JS.truthy (sessionEmailNormalised session)) eqn:Te.
    + apply truthy_inv in Te. destruct Te as (m & Hm & _).
      apply query_inv in He. destruct He as [E _]. rewrite Hm in E. simpl in E.
      symmetry in E. apply findOne_In in E. destruct E as [Hin Hp].
      split; [exact Hin|]. split; [exact On|]. right. exists m.
      split; [exact Hm|]. unfold issuerHasEmail in Hp.
      destruct (Issuer.email i) as [c|]; [|discriminate].
      apply String.eqb_eq in Hp. congruence.
    + apply ret_inv in He. destruct He as [E _]. discriminate.
Qed.

Lemma issuer_gate_opens_only_for_onboarded_issuer_witness :
  exists i,
    In i (issuers Fixture.store)
    /\ Issuer.onboarded i = true
    /\ (sessionDidTrimmed Fixture.issuerSession = Some (Issuer.did i)
        \/ exists e, sessionEmailNormalised Fixture.issuerSession = Some e
                     /\ Issuer.email i = Some e).
Proof.
  apply (issuer_gate_opens_only_for_onboarded_issuer
           Fixture.env Fixture.issuerSession (Some Fixture.issuerUser)
           Fixture.store (Some Fixture.issuerUser) Fixture.store); reflexivity.
Defined.

(** X11. The seeker gate opens only for an onboarded seeker: when the
    seeker role synchronisation has run and [requireRoleActive] lets the
    request through, the session carries a DID or an email and the store
    holds a Seeker document that is onboarded and carries that DID or,
    failing a document with that DID, that email. *)
Theorem seeker_gate_opens_only_for_onboarded_seeker
        env session user st user' st' :
  syncSeekerRoleFromSeekerDoc env session user st = (Ok user', st') ->
  requireRoleActive SeekerRole user' = None ->
  exists s,
    In s (seekers st)
    /\ Seeker.onboarded s = true
    /\ ((exists d, sessionDidTrimmed session = Some d
                    /\ Seeker.did s = Some d)
        \/ (exists e, sessionEmailNormalised session = Some e
                      /\ Seeker.email s = Some e)).
Proof.
  intros Hrun Hgate.
  destruct user as [user|].
  2:{ inversion Hrun; subst. discriminate. }
  unfold syncSeekerRoleFromSeekerDoc in Hrun. cbv zeta in Hrun.
  apply bind_inv in Hrun. destruct Hrun as (byDid & s1 & Hd & Hrun).
  apply bind_inv in Hrun. destruct Hrun as (seeker & s2 & He & Hrun).
  apply (sync_tail_role env "syncSeeker/user.save"
                        (fun u => User.seeker (User.roles u)) set_seeker_role)
    in Hrun; [|reflexivity].
  destruct Hrun as (u & -> & Hrole).
  apply gate_active_inv in Hgate. destruct Hgate as (u0 & Hu & Hact).
  inversion Hu; subst u0; clear Hu. simpl in Hact. rewrite Hact in Hrole.
  destruct seeker as [s|]; [|discriminate].
  simpl in Hrole.
  destruct (Seeker.onboarded s) eqn:On; [|discriminate].
  exists s.
  assert (Hemail :
            forall m, sessionEmailNormalised session = Some m ->
                      Mongo.findOne (seekerHasEmail m) (seekers st) = Some s ->
                      In s (seekers st)
                      /\ Seeker.onboarded s = true
                      /\ ((exists d, sessionDidTrimmed session = Some d
                                      /\ Seeker.did s = Some d)
                          \/ (exists e, sessionEmailNormalised session = Some e
                                        /\ Seeker.email s = Some e))).
  { intros m Hm F. apply findOne_In in F. destruct F as [Hin Hp].
    split; [exact Hin|]. split; [exact On|]. right.
    exists m. split; [exact Hm|].
    unfold seekerHasEmail in Hp.
    destruct (Seeker.email s) as [c|]; [|discriminate].
    apply String.eqb_eq in Hp. congruence. }
  destruct (JS.truthy (sessionDidTrimmed session)) eqn:Td.
  - apply truthy_inv in Td. destruct Td as (d & Hdid & _).
    apply query_inv in Hd. destruct Hd as [-> ->].
    rewrite Hdid in He. simpl in He.
    destruct (Mongo.findOne (seekerHasDid d) (seekers st)) as [s0|] eqn:F.
    + apply ret_inv in He. destruct He as [E _]. inversion E; subst s0.
      apply findOne_In in F. destruct F as [Hin Hp].
      split; [exact Hin|]. split; [exact On|]. left.
      exists d. split; [exact Hdid|].
      unfold seekerHasDid in Hp.
      destruct (Seeker.did s) as [c|]; [|discriminate].
      apply String.eqb_eq in Hp. congruence.
    + destruct (JS.truthy (sessionEmailNormalised session)) eqn:Te.
      * apply truthy_inv in Te. destruct Te as (m & Hm & _).
        apply query_inv in He. destruct He as [E _]. rewrite Hm in E. simpl in E.
        symmetry in E. exact (Hemail m Hm E).
      * apply ret_inv in He. destruct He as [E _]. discriminate.
  - apply ret_inv in Hd. destruct Hd as [-> ->].
    destruct (JS.truthy (sessionEmailNormalised session)) eqn:Te.
    + apply truthy_inv in Te. destruct Te as (m & Hm & _).
      apply query_inv in He. destruct He as [E _]. rewrite Hm in E. simpl in E.
      symmetry in E. exact (Hemail m Hm E).
    + apply ret_inv in He. destruct He as [E _]. discriminate.
Qed.

Lemma seeker_gate_opens_only_for_onboarded_seeker_witness :
  exists s,
    In s (seekers Fixture.store)
    /\ Seeker.onboarded s = true
    /\ ((exists d, sessionDidTrimmed Fixture.holderSession = Some d
                    /\ Seeker.did s = Some d)
        \/ (exists e, sessionEmailNormalised Fixture.holderSession = Some e
                      /\ Seeker.email s = Some e)).
Proof.
  apply (seeker_gate_opens_only_for_onboarded_seeker
           Fixture.env Fixture.holderSession (Some Fixture.holderUser)
           Fixture.store (Some Fixture.holderUser) Fixture.store); reflexivity.
Defined.

(** ** Loading the user *)

Lemma findOne_existsb {A} (p q : A -> bool) (coll : list A) x :
  Mongo.findOne p coll = Some x -> q x = true -> existsb q coll = true.
Proof.
  intros F Q. apply existsb_exists. exists x.
  apply findOne_In in F. tauto.
Qed.

(** X12. [requireUser] never grants a role.  The user it hands on is
    stored; if a capability gate then lets that user through for some
    role, a user with the same primary id was already stored with that
    role active; users with another primary id are untouched. *)
Theorem requireUser_never_grants_a_role env session st u st' :
  requireUser env session st = (Ok (Next u), st') ->
  In u (users st')
  /\ (forall role,
        requireRoleActive role (Some u) = None ->
        exists old, In old (users st)
                    /\ User.privyUserId old = User.privyUserId u
                    /\ User.roleOf role old = active)
  /\ (forall other, In other (users st) ->
                    User.privyUserId other <> User.privyUserId u ->
                    In other (users st')).
Proof.
  unfold requireUser, tryCatch, bind, query, writeChecked, saveUser, write,
    await, ret.
  destruct (negb (JS.truthy _)); [discriminate|].
  destruct (rejects env "requireUser/User.findOne"); [discriminate|].
  destruct (Mongo.findOne _ (users st)) as [old|] eqn:F.
  - destruct (rejects env "requireUser/user.save"); [discriminate|].
    intros E; inversion E; subst; clear E. simpl. split; [|split].
    + apply In_updateOne_const.
      apply (findOne_existsb _ _ _ _ F). apply String.eqb_refl.
    + intros role G. apply gate_active_inv in G.
      destruct G as (u0 & Hu & Hact). inversion Hu; subst u0; clear Hu.
      exists old. apply findOne_In in F. destruct F as [Hin _].
      split; [exact Hin|]. split; [reflexivity|].
      destruct role; exact Hact.
    + intros other Hin Hne. apply In_updateOne_keep; [exact Hin|].
      apply String.eqb_neq. exact Hne.
  - destruct (rejects env "requireUser/User.create"); [discriminate|].
    unfold createUser.
    destruct (String.eqb _ ""); [discriminate|].
    destruct (existsb _ (users st)); [discriminate|].
    intros E; inversion E; subst; clear E. simpl. split; [|split].
    + apply in_or_app. right. left. reflexivity.
    + intros role G. exfalso. destruct role; discriminate.
    + intros other Hin _. apply in_or_app. left. exact Hin.
Qed.

Lemma requireUser_never_grants_a_role_witness :
  exists old,
    In old (users Fixture.store)
    /\ User.privyUserId old = "privy-holder"
    /\ User.roleOf SeekerRole old = active.
Proof.
  apply (proj1 (proj2 (requireUser_never_grants_a_role
                         Fixture.env Fixture.holderSession Fixture.store
                         Fixture.holderUser
                         (snd (requireUser Fixture.env Fixture.holderSession
                                           Fixture.store))
                         eq_refl))
               SeekerRole).
  reflexivity.
Defined.

(** ** Rejection of a recruiter by an issuer *)

(** X13. A rejection that answers 200 is a local decision only: the
    stored recruiter becomes KYC-rejected with an unverified badge of
    status Rejected (so the role state derived for an onboarded recruiter
    is rejected), while the badge keeps its credential reference and
    transaction hash, the Credential Store is unchanged, and the single
    effect of the request is the save of the recruiter; the ledger is
    never called. *)
Theorem reject_is_a_local_decision env user recruiterId st api st' :
  rejectRecruiter env user recruiterId st = (Ok (Replied 200 api), st') ->
  exists r r' b',
    requireRoleActive IssuerRole user = None
    /\ Mongo.findOne (byRecruiterId recruiterId) (recruiters st) = Some r
    /\ Mongo.findOne (byRecruiterId recruiterId) (recruiters st') = Some r'
    /\ api = IssuerRoutes.toRecruiterApi r'
    /\ Recruiter.kycStatus r' = Recruiter.KycRejected
    /\ Recruiter.badge r' = Some b'
    /\ Recruiter.verified b' = false
    /\ Recruiter.status b' = Some "Rejected"
    /\ Recruiter.credentialId b'
       = match Recruiter.badge r with
         | Some b => Recruiter.credentialId b
         | None => None
         end
    /\ Recruiter.txHash b'
       = match Recruiter.badge r with
         | Some b => Recruiter.txHash b
         | None => None
         end
    /\ (Recruiter.onboarded r = true ->
        computeRecruiterRoleState (Some r') = rejected)
    /\ credentials st' = credentials st
    /\ trace st' = trace st ++ [Wrote "reject/recruiter.save" Recruiters].
Proof.
  unfold rejectRecruiter.
  destruct (requireRoleActive IssuerRole user) as [forbidden|] eqn:G;
    [discriminate|].
  unfold tryCatch, bind, query, write, await, ret.
  destruct (rejects env "reject/Recruiter.findById"); [discriminate|].
  destruct (Mongo.findOne _ (recruiters st)) as [r|] eqn:F; [|discriminate].
  destruct (rejects env "reject/recruiter.save"); [discriminate|].
  intros E; inversion E; subst; clear E.
  assert (Hid : Recruiter._id r = recruiterId).
  { apply findOne_In in F. destruct F as [_ H].
    apply String.eqb_eq in H. exact H. }
  do 3 eexists. split; [reflexivity|]. split; [reflexivity|]. simpl.
  rewrite Hid. rewrite findOne_updateOne_same by (intros x Hx; exact Hx).
  rewrite F. simpl. split; [reflexivity|].
  split; [reflexivity|]. split; [reflexivity|]. split; [reflexivity|].
  split; [reflexivity|]. split; [reflexivity|].
  split; [unfold rejectedBadge; destruct (Recruiter.badge r); reflexivity|].
  split; [unfold rejectedBadge; destruct (Recruiter.badge r); reflexivity|].
  split; [|split; reflexivity].
  intros On. unfold computeRecruiterRoleState. simpl. rewrite On. reflexivity.
Qed.

Lemma reject_is_a_local_decision_witness :
  let run := rejectRecruiter Fixture.env (Some Fixture.issuerUser) "rec-1"
                             Fixture.store in
  credentials (snd run) = credentials Fixture.store
  /\ trace (snd run) = [Wrote "reject/recruiter.save" Recruiters].
Proof.
  destruct (reject_is_a_local_decision
              Fixture.env (Some Fixture.issuerUser) "rec-1" Fixture.store
              (IssuerRoutes.toRecruiterApi
                 (Recruiter.set_badge
                    (Some (rejectedBadge Fixture.env Fixture.org))
                    (Recruiter.set_kycStatus Recruiter.KycRejected Fixture.org)))
              (snd (rejectRecruiter Fixture.env (Some Fixture.issuerUser)
                                    "rec-1" Fixture.store))
              eq_refl)
    as (r & r' & b' & _ & _ & _ & _ & _ & _ & _ & _ & _ & _ & _ & Hc & Ht).
  split; [exact Hc | exact Ht].
Defined.

(** ** Recruiter self-service *)

Lemma noBadgeGranted_refl st : noBadgeGranted st st.
Proof. intros r Hr. left. exists r. auto. Qed.

Lemma noBadgeGranted_record st e s :
  noBadgeGranted st s -> noBadgeGranted st (record e s).
Proof. intros H. exact H. Qed.

Lemma noBadgeGranted_update st s p (f : Recruiter.doc -> Recruiter.doc) :
  (forall x, Recruiter._id (f x) = Recruiter._id x
             /\ Recruiter.did (f x) = Recruiter.did x
             /\ Recruiter.badge (f x) = Recruiter.badge x) ->
  noBadgeGranted st s ->
  noBadgeGranted st (upd_recruiters (Mongo.updateOne p f) s).
Proof.
  intros Hf H r' Hr'. simpl in Hr'.
  apply In_updateOne in Hr'. destruct Hr' as [Hin|(x & Hin & _ & ->)].
  - exact (H r' Hin).
  - destruct (Hf x) as (Hi & Hd & Hb).
    destruct (H x Hin) as [(r & Hr & Ei & Ed & Eb)|[Hv Hs]].
    + left. exists r. repeat split; congruence.
    + right. unfold badgeVerified, storedBadgeStatus in *. rewrite Hb. auto.
Qed.

(** X14. No self-service route of a recruiter grants a badge.  Whatever
    POST /recruiters, POST /recruiters/onboarding and PATCH /recruiters/me
    answer and whichever calls reject, every recruiter record afterwards
    has the [_id], the DID and the badge of a record stored before, or is
    new and holds an unverified badge of status None. *)
Theorem recruiter_self_service_grants_no_badge env session b p st :
  noBadgeGranted st (snd (RecruiterRoutes.create env session st))
  /\ noBadgeGranted st (snd (RecruiterRoutes.onboarding env session b st))
  /\ noBadgeGranted st (snd (RecruiterRoutes.patchMe env session p st)).
Proof.
  split; [|split].
  - assert (P : preserves (noBadgeGranted st)
                          (RecruiterRoutes.create env session)).
    { unfold RecruiterRoutes.create. preserve_ctx.
      apply noBadgeGranted_record.
      match goal with
      | H : createRecruiter _ _ = Ok _ |- _ =>
          unfold createRecruiter in H;
          destruct (String.eqb _ "") in H; [discriminate|];
          destruct (existsb _ _) in H; [discriminate|];
          inversion H; subst; clear H
      end.
      intros r' Hr'. simpl in Hr'. apply in_app_or in Hr'.
      destruct Hr' as [Hr'|[<-|[]]].
      - match goal with H : noBadgeGranted st _ |- _ => exact (H r' Hr') end.
      - right. split; reflexivity. }
    destruct (RecruiterRoutes.create env session st) as [r s1] eqn:E.
    exact (P st r s1 (noBadgeGranted_refl st) E).
  - assert (P : preserves (noBadgeGranted st)
                          (RecruiterRoutes.onboarding env session b)).
    { unfold RecruiterRoutes.onboarding. preserve_ctx.
      apply noBadgeGranted_record. apply noBadgeGranted_update; [|assumption].
      intros x. repeat split. }
    destruct (RecruiterRoutes.onboarding env session b st) as [r s1] eqn:E.
    exact (P st r s1 (noBadgeGranted_refl st) E).
  - assert (P : preserves (noBadgeGranted st)
                          (RecruiterRoutes.patchMe env session p)).
    { unfold RecruiterRoutes.patchMe. preserve_ctx.
      apply noBadgeGranted_record. apply noBadgeGranted_update; [|assumption].
      intros x. repeat split. }
    destruct (RecruiterRoutes.patchMe env session p st) as [r s1] eqn:E.
    exact (P st r s1 (noBadgeGranted_refl st) E).
Qed.

(** X15. POST /recruiters is idempotent per DID: once it has answered
    with a recruiter record (201 on creation, 200 when the record
    existed), calling it again for the same session writes nothing and,
    unless a call rejects (which this route answers with 401), answers
    200 with the same record. *)
Theorem recruiter_create_is_idempotent
        env session st c api st' env2 r2 st2 :
  RecruiterRoutes.create env session st = (Ok (Replied c api), st') ->
  RecruiterRoutes.create env2 session st' = (r2, st2) ->
  st2 = st'
  /\ (r2 = Ok (Replied 200 api) \/ r2 = Ok (Failed 401 "Unauthenticated")).
Proof.
  unfold RecruiterRoutes.create, tryCatch, bind, lift, query, writeChecked,
    await, ret.
  destruct (mustGetSession session) as [s|e]; [|discriminate].
  destruct (s_did s) as [did|]; [|discriminate].
  destruct (rejects env "recruiters/Recruiter.findOne"); [discriminate|].
  destruct (Mongo.findOne (RecruiterRoutes.byDid did) (recruiters st))
    as [found|] eqn:F.
  - intros E; inversion E; subst; clear E.
    destruct (rejects env2 "recruiters/Recruiter.findOne").
    + intros E; inversion E; subst. auto.
    + rewrite F. intros E; inversion E; subst. auto.
  - destruct (rejects env "recruiters/recruiter.save"); [discriminate|].
    destruct (createRecruiter _ st) as [s1|e1] eqn:C; [|discriminate].
    intros E; inversion E; subst; clear E.
    unfold createRecruiter in C.
    destruct (String.eqb _ "") in C; [discriminate|].
    destruct (existsb _ (recruiters st)) in C; [discriminate|].
    inversion C; subst; clear C.
    destruct (rejects env2 "recruiters/Recruiter.findOne").
    + intros E; inversion E; subst. auto.
    + simpl.
      assert (F2 : Mongo.findOne (RecruiterRoutes.byDid did)
                     (recruiters st
                      ++ [RecruiterRoutes.newRecruiter env did (s_email s)])
                   = Some (RecruiterRoutes.newRecruiter env did (s_email s))).
      { unfold Mongo.findOne in *. clear -F.
        induction (recruiters st) as [|x rest IH]; simpl in *.
        - unfold RecruiterRoutes.byDid. simpl. rewrite String.eqb_refl.
          reflexivity.
        - destruct (RecruiterRoutes.byDid did x); [discriminate|].
          apply IH. exact F. }
      rewrite F2. intros E; inversion E; subst. auto.
Qed.

Lemma recruiter_create_is_idempotent_witness :
  let fresh := Some (mkSession (Some "did:pkh:eip155:80002:0x555")
                               (Some "hr@initech.test") None None) in
  let first := RecruiterRoutes.create Fixture.env fresh Fixture.store in
  snd (RecruiterRoutes.create Fixture.envLedgerDown fresh (snd first))
  = snd first.
Proof.
  apply (recruiter_create_is_idempotent
           Fixture.env
           (Some (mkSession (Some "did:pkh:eip155:80002:0x555")
                            (Some "hr@initech.test") None None))
           Fixture.store 201
           (toRecruiterApi
              (RecruiterRoutes.newRecruiter Fixture.env
                                            "did:pkh:eip155:80002:0x555"
                                            (Some "hr@initech.test")))
           (snd (RecruiterRoutes.create
                   Fixture.env
                   (Some (mkSession (Some "did:pkh:eip155:80002:0x555")
                                    (Some "hr@initech.test") None None))
                   Fixture.store))
           Fixture.envLedgerDown
           (fst (RecruiterRoutes.create
                   Fixture.envLedgerDown
                   (Some (mkSession (Some "did:pkh:eip155:80002:0x555")
                                    (Some "hr@initech.test") None None))
                   (snd (RecruiterRoutes.create
                           Fixture.env
                           (Some (mkSession (Some "did:pkh:eip155:80002:0x555")
                                            (Some "hr@initech.test") None None))
                           Fixture.store))))).
  - reflexivity.
  - apply surjective_pairing.
Defined.

(** X16. POST /recruiters/verify-vc is a pure read, and it hands a
    document to the verification service only for the recruiter of the
    application: a verification result is answered only when the
    session's DID is the recruiter DID of the stored application and a
    disclosure is stored under (application id, credential id); the
    result is the service's answer for exactly the stored document. *)
Theorem verify_only_for_the_applications_recruiter
        env verifyVc session applicationId vcId st r st' :
  RecruiterRoutes.verifySharedVc env verifyVc session applicationId vcId st
  = (r, st') ->
  st' = st
  /\ forall c out,
       r = Ok (Replied c out) ->
       exists did app p document,
         mustGetDid session = Ok did
         /\ Mongo.findOne (ApplicationRoutes.byAppId (optString applicationId))
                          (applications st) = Some app
         /\ Application.recruiterDid app = did
         /\ Mongo.findOne (ApplicationRoutes.proofKey (optString applicationId)
                                                      (optString vcId))
                          (sharedProofs st) = Some p
         /\ SharedProof.revealedDocument p = Some document
         /\ verifyVc document = Some out.
Proof.
  intros Hrun. split.
  { assert (P : preserves (fun s => s = st)
                          (RecruiterRoutes.verifySharedVc env verifyVc session
                                                          applicationId vcId)).
    { unfold RecruiterRoutes.verifySharedVc. preserve. }
    exact (P st r st' eq_refl Hrun). }
  intros c out ->. revert Hrun.
  unfold RecruiterRoutes.verifySharedVc, tryCatch, bind, lift, query, await, ret.
  destruct (mustGetDid session) as [did|e]; [|discriminate].
  destruct (negb (JS.truthy applicationId) || negb (JS.truthy vcId));
    [discriminate|].
  destruct (rejects env "verify/Application.findById"); [discriminate|].
  destruct (Mongo.findOne _ (applications st)) as [app|] eqn:Fa; [|discriminate].
  destruct (negb (String.eqb (Application.recruiterDid app) did)) eqn:O;
    [discriminate|].
  destruct (rejects env "verify/SharedProof.findOne"); [discriminate|].
  destruct (Mongo.findOne _ (sharedProofs st)) as [p|] eqn:Fp; [|discriminate].
  destruct p as [a j s rd v dp n [document|]]; [|discriminate].
  destruct (jsonTruthy (Some document)); [|discriminate].
  destruct (verifyVc document) as [o|] eqn:V; [|discriminate].
  intros E; inversion E; subst; clear E.
  exists did, app. do 2 eexists.
  split; [reflexivity|]. split; [reflexivity|].
  split; [apply negb_false_iff in O; apply String.eqb_eq in O; exact O|].
  split; [reflexivity|]. split; [reflexivity | exact V].
Qed.

Lemma verify_only_for_the_applications_recruiter_witness :
  snd (RecruiterRoutes.verifySharedVc
         Fixture.env
         (fun _ => Some (RecruiterRoutes.mkVerifyOutput true None))
         Fixture.orgSession (Some "app-1") (Some "vc-1") Fixture.store)
  = Fixture.store.
Proof.
  apply (verify_only_for_the_applications_recruiter
           Fixture.env
           (fun _ => Some (RecruiterRoutes.mkVerifyOutput true None))
           Fixture.orgSession (Some "app-1") (Some "vc-1") Fixture.store
           (fst (RecruiterRoutes.verifySharedVc
                   Fixture.env
                   (fun _ => Some (RecruiterRoutes.mkVerifyOutput true None))
                   Fixture.orgSession (Some "app-1") (Some "vc-1")
                   Fixture.store))).
  apply surjective_pairing.
Defined.

(** ** Application status *)

(** X17. Only the recruiter of an application can change its status:
    PATCH /applications/:id/status has no effect at all unless the
    session's DID is the recruiter DID of the stored application and the
    requested status is one of the five the schema accepts. *)
Theorem patchStatus_only_by_the_recruiter env session id status st r st' :
  patchStatus env session id status st = (r, st') ->
  st' <> st ->
  exists did app s,
    ApplicationRoutes.mustGetDid session = Ok did
    /\ Mongo.findOne (ApplicationRoutes.byAppId id) (applications st) = Some app
    /\ Application.recruiterDid app = did
    /\ statusOfString (optString status) = Some s.
Proof.
  unfold patchStatus, tryCatch, bind, lift, query, write, await, throw, ret.
  destruct (ApplicationRoutes.mustGetDid session) as [did|e].
  2:{ intros E N. inversion E; subst. contradiction N; reflexivity. }
  destruct (negb (JS.truthy status)).
  { intros E N. inversion E; subst. contradiction N; reflexivity. }
  destruct (rejects env "status/Application.findById").
  { intros E N. inversion E; subst. contradiction N; reflexivity. }
  destruct (Mongo.findOne _ (applications st)) as [app|] eqn:F.
  2:{ intros E N. inversion E; subst. contradiction N; reflexivity. }
  destruct (negb (String.eqb (Application.recruiterDid app) did)) eqn:O.
  { intros E N. inversion E; subst. contradiction N; reflexivity. }
  destruct (statusOfString (optString status)) as [s|] eqn:S.
  2:{ intros E N. inversion E; subst. contradiction N; reflexivity. }
  intros _ _. exists did, app, s.
  split; [reflexivity|]. split; [reflexivity|].
  split; [apply negb_false_iff in O; apply String.eqb_eq in O; exact O|].
  reflexivity.
Qed.

Lemma patchStatus_only_by_the_recruiter_witness :
  exists did app s,
    ApplicationRoutes.mustGetDid Fixture.orgSession = Ok did
    /\ Mongo.findOne (ApplicationRoutes.byAppId "app-1")
                     (applications Fixture.store) = Some app
    /\ Application.recruiterDid app = did
    /\ statusOfString "shortlisted" = Some s.
Proof.
  apply (patchStatus_only_by_the_recruiter
           Fixture.env Fixture.orgSession "app-1" (Some "shortlisted")
           Fixture.store
           (fst (patchStatus Fixture.env Fixture.orgSession "app-1"
                             (Some "shortlisted") Fixture.store))
           (snd (patchStatus Fixture.env Fixture.orgSession "app-1"
                             (Some "shortlisted") Fixture.store))).
  - apply surjective_pairing.
  - intros H. apply (f_equal trace) in H. vm_compute in H. discriminate.
Defined.

(** X18. Review freezes the disclosures: once PATCH
    /applications/:id/status has answered 200 with a status other than
    submitted, PATCH /applications/:id/shared-vcs on that application,
    from any session and with any ids, changes nothing and does not
    answer 200. *)
Theorem review_freezes_shared_vcs
        env session id status st app' ui st' env2 session2 ids r2 st2 :
  patchStatus env session id status st = (Ok (Replied 200 (app', ui)), st') ->
  Application.status app' <> Application.Submitted ->
  ApplicationRoutes.patchSharedVcs env2 session2 id ids st' = (r2, st2) ->
  st2 = st'
  /\ forall resp, r2 = Ok resp -> code resp <> 200.
Proof.
  intros H1 Hs.
  assert (Hfound : Mongo.findOne (ApplicationRoutes.byAppId id)
                                 (applications st') = Some app').
  { revert H1.
    unfold patchStatus, tryCatch, bind, lift, query, write, await, throw, ret.
    destruct (ApplicationRoutes.mustGetDid session) as [did|e]; [|discriminate].
    destruct (negb (JS.truthy status)); [discriminate|].
    destruct (rejects env "status/Application.findById"); [discriminate|].
    destruct (Mongo.findOne _ (applications st)) as [app|] eqn:F;
      [|discriminate].
    destruct (negb (String.eqb (Application.recruiterDid app) did));
      [discriminate|].
    destruct (statusOfString (optString status)) as [s|]; [|discriminate].
    destruct (rejects env "status/app.save"); [discriminate|].
    intros E; inversion E; subst; clear E. simpl.
    assert (Hid : Application._id app = id).
    { apply findOne_In in F. destruct F as [_ H].
      apply String.eqb_eq in H. exact H. }
    rewrite Hid. rewrite findOne_updateOne_same by (intros x Hx; exact Hx).
    rewrite F. reflexivity. }
  unfold ApplicationRoutes.patchSharedVcs, tryCatch, bind, lift, query, await,
    respond, ret.
  destruct (ApplicationRoutes.mustGetDid session2) as [did|e].
  2:{ intros E; inversion E; subst. split; [reflexivity|].
      intros resp [= <-]. discriminate. }
  destruct (rejects env2 "patch/Application.findById").
  { intros E; inversion E; subst. split; [reflexivity|].
    intros resp [= <-]. discriminate. }
  rewrite Hfound.
  destruct (negb (String.eqb (Application.seekerDid app') did)).
  { intros E; inversion E; subst. split; [reflexivity|].
    intros resp [= <-]. discriminate. }
  destruct (Application.status app') eqn:S; simpl;
    try (intros E; inversion E; subst; split; [reflexivity|];
         intros resp [= <-]; discriminate).
  contradiction Hs; reflexivity.
Qed.

Lemma review_freezes_shared_vcs_witness :
  let reviewed := snd (patchStatus Fixture.env Fixture.orgSession "app-1"
                                   (Some "shortlisted") Fixture.store) in
  snd (ApplicationRoutes.patchSharedVcs Fixture.env Fixture.holderSession
                                        "app-1" (Some []) reviewed)
  = reviewed.
Proof.
  apply (review_freezes_shared_vcs
           Fixture.env Fixture.orgSession "app-1" (Some "shortlisted")
           Fixture.store
           (set_application_status Application.Shortlisted Fixture.app)
           "accepted"
           (snd (patchStatus Fixture.env Fixture.orgSession "app-1"
                             (Some "shortlisted") Fixture.store))
           Fixture.env Fixture.holderSession (Some [])
           (fst (ApplicationRoutes.patchSharedVcs
                   Fixture.env Fixture.holderSession "app-1" (Some [])
                   (snd (patchStatus Fixture.env Fixture.orgSession "app-1"
                                     (Some "shortlisted") Fixture.store))))).
  - reflexivity.
  - discriminate.
  - apply surjective_pairing.
Defined.

(** ** The seeker's own credentials *)

Lemma tryCatch_ok_inv {A} (m : M A) h st a st' :
  tryCatch m h st = (Ok a, st') ->
  m st = (Ok a, st')
  \/ exists e s1, m st = (Thrown e, s1) /\ h e s1 = (Ok a, st').
Proof.
  unfold tryCatch. destruct (m st) as [[x|e] s1]; intros E.
  - left. exact E.
  - right. eauto.
Qed.

Lemma allowedIds_In issued id :
  In id (allowedIds issued) ->
  id <> "" /\ exists v, In v issued /\ vcKey v = Some id.
Proof.
  unfold allowedIds. intros H. apply in_map_iff in H.
  destruct H as (k & Hk & Hin). apply filter_In in Hin.
  destruct Hin as [Hin Ht]. apply in_map_iff in Hin.
  destruct Hin as (v & Hv & Hin).
  apply truthy_inv in Ht. destruct Ht as (s & -> & Hne). simpl in Hk.
  subst s. split; [exact Hne|]. exists v. auto.
Qed.

(** X19. A seeker can mark as shared by default only credentials of
    their own issued list: when PATCH /seekers/vcs/share-default answers
    200, the ids it answers with are the requested ids, in the requested
    order, that are the (non-empty) credential id or id of an entry of
    the stored seeker's issued list, and the stored seeker afterwards has
    exactly these as defaultSharedVcIds, with its issued list and DID
    unchanged. *)
Theorem share_default_keeps_only_own_credentials env session ids st kept st' :
  SeekerVcRoutes.patchShareDefault env session (Some ids) st
  = (Ok (Replied 200 kept), st') ->
  exists doc doc',
    In doc (seekers st)
    /\ kept = List.filter (JS.includes (allowedIds (Seeker.vcs doc))) ids
    /\ (forall id, In id kept ->
          In id ids
          /\ id <> ""
          /\ exists v, In v (Seeker.vcs doc) /\ vcKey v = Some id)
    /\ In doc' (seekers st')
    /\ Seeker._id doc' = Seeker._id doc
    /\ Seeker.defaultSharedVcIds doc' = kept
    /\ Seeker.vcs doc' = Seeker.vcs doc
    /\ Seeker.did doc' = Seeker.did doc.
Proof.
  unfold SeekerVcRoutes.patchShareDefault. intros H.
  apply tryCatch_ok_inv in H.
  destruct H as [H|(e & s1 & _ & H)]; [|discriminate].
  apply bind_inv in H. destruct H as (found & s1 & Hf & H).
  apply findSeekerBySession_run in Hf. destruct Hf as [-> Hin].
  destruct found as [doc|]; [|discriminate].
  specialize (Hin doc eq_refl).
  apply bind_inv in H. destruct H as ([] & s2 & Hw & H).
  apply ret_inv in H. destruct H as [E ->]. inversion E; subst kept; clear E.
  unfold writeChecked, await in Hw.
  destruct (rejects env "share-default/doc.save"); [discriminate|].
  destruct (saveSeeker _ st) as [s3|e3] eqn:S; [|discriminate].
  inversion Hw; subst s2; clear Hw.
  exists doc. eexists. split; [exact Hin|]. split; [reflexivity|]. split.
  { intros id Hid. apply filter_In in Hid. destruct Hid as [Hid Ha].
    split; [exact Hid|]. apply includes_In in Ha.
    apply allowedIds_In in Ha. exact Ha. }
  revert S. unfold saveSeeker.
  destruct (negb (JS.truthy _)); [discriminate|].
  destruct (negb (JS.truthy _)); [discriminate|].
  destruct (existsb _ (seekers st)); [discriminate|].
  intros E; inversion E; subst s3; clear E. simpl.
  assert (X : existsb (fun x => String.eqb (Seeker._id x) (Seeker._id doc))
                      (seekers st) = true).
  { apply existsb_exists. exists doc. split; [exact Hin|].
    apply String.eqb_refl. }
  rewrite X. split; [apply In_updateOne_const; exact X|].
  repeat split.
Qed.

Lemma share_default_keeps_only_own_credentials_witness :
  exists doc',
    In doc' (seekers (snd (SeekerVcRoutes.patchShareDefault
                             Fixture.env Fixture.holderSession
                             (Some ["vc-2"; "vc-1"]) Fixture.store)))
    /\ Seeker.defaultSharedVcIds doc' = ["vc-1"].
Proof.
  destruct (share_default_keeps_only_own_credentials
              Fixture.env Fixture.holderSession ["vc-2"; "vc-1"] Fixture.store
              ["vc-1"]
              (snd (SeekerVcRoutes.patchShareDefault
                      Fixture.env Fixture.holderSession
                      (Some ["vc-2"; "vc-1"]) Fixture.store))
              eq_refl)
    as (doc & doc' & _ & _ & _ & Hin & _ & Hd & _).
  exists doc'. auto.
Defined.

(** X20. GET /seekers/vcs/:credentialId is a pure read and hands out a
    stored signed document only to its holder: it answers with a
    document only when the seeker the session resolves to has an entry
    for the requested id in the issued list, and the document is the
    [vcRaw] of the stored credential with that id (parsed, when it is
    stored as a string that parses). *)
Theorem stored_vc_only_for_its_holder env session credentialId st r st' :
  SeekerVcRoutes.getStoredVc env session credentialId st = (r, st') ->
  st' = st
  /\ forall c vc cid,
       r = Ok (Replied c (vc, cid)) ->
       exists seeker cred,
         SeekerIdentity.findSeekerBySession env session st
         = (Ok (Some seeker), st)
         /\ existsb (SeekerVcRoutes.names credentialId) (Seeker.vcs seeker)
            = true
         /\ Mongo.findOne (fun x => String.eqb (Credential.credentialId x)
                                               credentialId)
                          (credentials st) = Some cred
         /\ cid = credentialId
         /\ (Credential.vcRaw cred = Some vc
             \/ exists raw, Credential.vcRaw cred = Some (JStr raw)
                            /\ JSON_parse env raw = Some vc).
Proof.
  intros Hrun. split.
  { assert (P : preserves (fun s => s = st)
                          (SeekerVcRoutes.getStoredVc env session credentialId)).
    { unfold SeekerVcRoutes.getStoredVc, SeekerIdentity.findSeekerBySession.
      preserve. }
    exact (P st r st' eq_refl Hrun). }
  intros c vc cid ->. revert Hrun.
  unfold SeekerVcRoutes.getStoredVc. intros H.
  apply tryCatch_ok_inv in H.
  destruct H as [H|(e & s1 & _ & H)]; [|discriminate].
  destruct (String.eqb credentialId ""); [discriminate|].
  apply bind_inv in H. destruct H as (found & s1 & Hf & H).
  destruct (findSeekerBySession_run _ _ _ _ _ Hf) as [-> _].
  destruct found as [seeker|]; [|discriminate].
  destruct (negb (existsb _ (Seeker.vcs seeker))) eqn:O; [discriminate|].
  apply negb_false_iff in O.
  apply bind_inv in H. destruct H as (cred & s2 & Hq & H).
  apply query_inv in Hq. destruct Hq as [-> ->].
  destruct (Mongo.findOne _ (credentials st)) as [cred|] eqn:Fc; [|discriminate].
  destruct (negb (jsonTruthy (Credential.vcRaw cred))); [discriminate|].
  assert (Hcid : Credential.credentialId cred = credentialId).
  { apply findOne_In in Fc. destruct Fc as [_ Hp].
    apply String.eqb_eq in Hp. exact Hp. }
  exists seeker, cred. split; [exact Hf|]. split; [exact O|].
  split; [reflexivity|].
  destruct (Credential.vcRaw cred) as [[ | b | n | raw | l | o]|];
    inversion H; subst; (split; [reflexivity|]); try (left; reflexivity).
  destruct (JSON_parse env raw) as [j|] eqn:Pj.
  - right. exists raw. auto.
  - left. reflexivity.
Qed.

Lemma stored_vc_only_for_its_holder_witness :
  snd (SeekerVcRoutes.getStoredVc Fixture.env Fixture.holderSession "vc-1"
                                  Fixture.store)
  = Fixture.store.
Proof.
  apply (stored_vc_only_for_its_holder
           Fixture.env Fixture.holderSession "vc-1" Fixture.store
           (fst (SeekerVcRoutes.getStoredVc Fixture.env Fixture.holderSession
                                            "vc-1" Fixture.store))).
  apply surjective_pairing.
Defined.

(** ** Issuing a credential *)

(** X21. What POST /issuer/vc/issue answers 201 with is stored and can be
    shared at once: the Credential Store is the old one followed by the
    answered credential, which is active, names the requested subject,
    and names as issuer the DID of a stored Issuer document; the share
    filter accepts its id for its subject. *)
Theorem issued_credential_is_shareable
        env session user subjectDid claims st c st' :
  issueVc env session user subjectDid claims st = (Ok (Replied 201 c), st') ->
  credentials st' = credentials st ++ [c]
  /\ Credential.status c = Credential.Active
  /\ Credential.subjectDid c = optString subjectDid
  /\ (exists i, In i (issuers st) /\ Credential.issuerDid c = Issuer.did i)
  /\ acceptedIds st' (Credential.subjectDid c) [Credential.credentialId c]
     = [Credential.credentialId c].
Proof.
  unfold issueVc.
  destruct (requireRoleActive IssuerRole user); [discriminate|].
  intros H. apply tryCatch_ok_inv in H.
  destruct H as [H|(e & s1 & _ & H)]; [|discriminate].
  apply bind_inv in H. destruct H as (s & s0 & Hs & H).
  apply lift_inv in Hs. destruct Hs as [_ ->].
  apply bind_inv in H. destruct H as (byDid & s1 & Hd & H).
  apply bind_inv in H. destruct H as (issuer & s2 & Hi & H).
  assert (Hissuer : s2 = st /\ forall i, issuer = Some i -> In i (issuers st)).
  { destruct (JS.truthy (option_map JS.trim (s_did s))).
    - apply query_inv in Hd. destruct Hd as [-> ->].
      destruct (Mongo.findOne _ (issuers st)) as [i0|] eqn:F.
      + apply ret_inv in Hi. destruct Hi as [-> ->]. split; [reflexivity|].
        intros i [= <-]. apply findOne_In in F. tauto.
      + destruct (JS.truthy _).
        * apply query_inv in Hi. destruct Hi as [-> ->]. split; [reflexivity|].
          intros i F'. apply findOne_In in F'. tauto.
        * apply ret_inv in Hi. destruct Hi as [-> ->]. split; [reflexivity|].
          discriminate.
    - apply ret_inv in Hd. destruct Hd as [-> ->].
      destruct (JS.truthy _).
      + apply query_inv in Hi. destruct Hi as [-> ->]. split; [reflexivity|].
        intros i F'. apply findOne_In in F'. tauto.
      + apply ret_inv in Hi. destruct Hi as [-> ->]. split; [reflexivity|].
        discriminate. }
  destruct Hissuer as [-> Hin].
  destruct issuer as [i|]; [|discriminate].
  destruct claims as [claims|]; [|discriminate].
  destruct (negb (JS.truthy subjectDid)); [discriminate|].
  apply bind_inv in H. destruct H as (issued & s3 & He & H).
  unfold external in He.
  destruct (issueSimpleVc env _) as [iss|]; [|discriminate].
  inversion He; subst issued s3; clear He.
  apply bind_inv in H. destruct H as ([] & s4 & Hw & H).
  apply ret_inv in H. destruct H as [E ->]. inversion E; subst c; clear E.
  unfold writeChecked, await in Hw.
  destruct (rejects env "issue/Credential.create"); [discriminate|].
  destruct (createCredential _ _) as [s5|e5] eqn:C; [|discriminate].
  apply createCredential_ok in C. subst s5.
  inversion Hw; subst s4; clear Hw. simpl.
  split; [reflexivity|]. split; [reflexivity|]. split; [reflexivity|].
  split; [exists i; split; [apply Hin; reflexivity | reflexivity]|].
  unfold acceptedIds. simpl.
  rewrite existsb_app. simpl. rewrite !String.eqb_refl. simpl.
  rewrite orb_true_r. reflexivity.
Qed.

Lemma issued_credential_is_shareable_witness :
  let run := issueVc Fixture.env Fixture.issuerSession
                     (Some Fixture.issuerUser) (Some Fixture.holderDid)
                     (Some (mkClaims (Some "career")
                                     (Some "EmploymentCredential")
                                     (Some "Engineer") (JObj [])))
                     Fixture.store in
  acceptedIds (snd run) Fixture.holderDid ["urn:securehire:vc:new"]
  = ["urn:securehire:vc:new"].
Proof.
  apply (issued_credential_is_shareable
           Fixture.env Fixture.issuerSession (Some Fixture.issuerUser)
           (Some Fixture.holderDid)
           (Some (mkClaims (Some "career") (Some "EmploymentCredential")
                           (Some "Engineer") (JObj [])))
           Fixture.store
           (Credential.mk "urn:securehire:vc:new" Fixture.holderDid
                          Fixture.issuerDid (Some "Engineer")
                          ["VerifiableCredential"; "EmploymentCredential"]
                          (Some "2024-01-01T00:00:00.000Z") Credential.Active
                          None None
                          (Some (Fixture.signedDoc "urn:securehire:vc:new"))
                          None)).
  reflexivity.
Defined.

(** ** Trust shown on job listings *)

Lemma find_unique_rev {A} (key : A -> string) k (l : list A) :
  NoDup (List.map key l) ->
  List.find (fun x => String.eqb (key x) k) (List.rev l)
  = List.find (fun x => String.eqb (key x) k) l.
Proof.
  intros ND.
  destruct (List.find (fun x => String.eqb (key x) k) l) as [a|] eqn:F;
    destruct (List.find (fun x => String.eqb (key x) k) (List.rev l))
      as [b|] eqn:G; try reflexivity.
  - apply find_some in F. apply find_some in G.
    destruct F as [Ha Ka], G as [Hb Kb].
    apply in_rev in Hb. apply String.eqb_eq in Ka. apply String.eqb_eq in Kb.
    f_equal. apply (NoDup_key_inj key l); congruence.
  - apply find_some in F. destruct F as [Ha Ka].
    rewrite (find_none _ _ G a) in Ka; [discriminate|].
    apply in_rev. rewrite rev_involutive. exact Ha.
  - apply find_some in G. destruct G as [Hb Kb]. apply in_rev in Hb.
    rewrite (find_none _ _ F b Hb) in Kb. discriminate.
Qed.

Lemma NoDup_map_filter {A B} (f : A -> B) (p : A -> bool) (l : list A) :
  NoDup (List.map f l) -> NoDup (List.map f (List.filter p l)).
Proof.
  induction l as [|x rest IH]; simpl; intros ND; [constructor|].
  inversion ND as [|? ? Hnotin ND']; subst.
  destruct (p x); simpl; [|apply IH; exact ND'].
  constructor; [|apply IH; exact ND'].
  intros H. apply Hnotin. apply in_map_iff in H.
  destruct H as (y & Hy & Hin). apply filter_In in Hin.
  apply in_map_iff. exists y. tauto.
Qed.

Lemma find_filter_implied {A} (p q : A -> bool) (l : list A) :
  (forall x, p x = true -> q x = true) ->
  List.find p (List.filter q l) = List.find p l.
Proof.
  intros H. induction l as [|x rest IH]; simpl; [reflexivity|].
  destruct (q x) eqn:Q; simpl.
  - destruct (p x); [reflexivity | exact IH].
  - destruct (p x) eqn:P; [rewrite (H x P) in Q; discriminate | exact IH].
Qed.

Lemma find_filter_excluded {A} (p q : A -> bool) (l : list A) :
  (forall x, p x = true -> q x = false) ->
  List.find p (List.filter q l) = None.
Proof.
  intros H. induction l as [|x rest IH]; simpl; [reflexivity|].
  destruct (q x) eqn:Q; simpl; [|exact IH].
  destruct (p x) eqn:P; [rewrite (H x P) in Q; discriminate | exact IH].
Qed.

Lemma ownerDids_In docs d :
  In d (ownerDids docs)
  <-> (exists doc, In doc docs /\ Job.didOwner doc = Some d)
      /\ String.eqb (JS.trim d) "" = false.
Proof.
  unfold ownerDids. rewrite nodup_In, filter_In, in_flat_map.
  rewrite negb_true_iff. split.
  - intros [(doc & Hin & Hd) Ht]. split; [|exact Ht].
    exists doc. split; [exact Hin|].
    destruct (Job.didOwner doc) as [o|]; simpl in Hd; [|contradiction].
    destruct Hd as [->|[]]. reflexivity.
  - intros [(doc & Hin & Hd) Ht]. split; [|exact Ht].
    exists doc. split; [exact Hin|]. rewrite Hd. left. reflexivity.
Qed.

(** X22. The trust a job listing shows is the trust of its owner's
    stored record.  With one recruiter record per DID, the batch lookup
    of [attachRecruiterMeta] (one query for all owners, then a map by
    DID) gives every job what a lookup of its own owner gives: a job
    whose owner DID is missing or blank, or has no recruiter record,
    keeps its stored flags, and any other job takes the flags of the
    record with its owner's DID; nothing is written. *)
Theorem attachRecruiterMeta_follows_the_owner_record env docs st out st' :
  NoDup (List.map Recruiter.did (recruiters st)) ->
  attachRecruiterMeta env docs st = (Ok out, st') ->
  let owner doc :=
    match Job.didOwner doc with
    | Some d =>
        if String.eqb (JS.trim d) "" then None
        else Mongo.findOne (fun r => String.eqb (Recruiter.did r) d)
                           (recruiters st)
    | None => None
    end in
  st' = st
  /\ out = List.map (fun doc => match owner doc with
                                | Some rec => withRecruiterMeta rec doc
                                | None => doc
                                end)
                    docs.
Proof.
  intros ND H owner. unfold attachRecruiterMeta in H. cbv zeta in H.
  apply bind_inv in H. destruct H as (found & s1 & Hq & H).
  apply ret_inv in H. destruct H as [-> ->].
  assert (Hfound : s1 = st
                   /\ found = List.filter
                                (fun r => JS.includes (ownerDids docs)
                                                      (Recruiter.did r))
                                (recruiters st)).
  { destruct (ownerDids docs) as [|d0 ds] eqn:D.
    - apply ret_inv in Hq. destruct Hq as [-> ->]. split; [reflexivity|].
      symmetry. apply filter_none. intros x _. reflexivity.
    - apply query_inv in Hq. destruct Hq as [-> ->]. split; reflexivity. }
  destruct Hfound as [-> ->]. split; [reflexivity|].
  apply map_ext_in. intros doc Hdoc. unfold owner.
  destruct (Job.didOwner doc) as [d|] eqn:Od; simpl; [|reflexivity].
  destruct (String.eqb_spec d "") as [->|Hne]; simpl.
  { reflexivity. }
  unfold recruitersByDidGet.
  rewrite find_unique_rev by (apply NoDup_map_filter; exact ND).
  destruct (String.eqb (JS.trim d) "") eqn:T.
  - rewrite find_filter_excluded; [reflexivity|].
    intros x Hx. apply String.eqb_eq in Hx. rewrite Hx.
    destruct (JS.includes (ownerDids docs) d) eqn:I; [|reflexivity].
    apply includes_In in I. apply ownerDids_In in I. destruct I as [_ I].
    congruence.
  - rewrite find_filter_implied; [reflexivity|].
    intros x Hx. apply String.eqb_eq in Hx. rewrite Hx.
    apply includes_In. apply ownerDids_In. split; [|exact T].
    exists doc. auto.
Qed.

Lemma attachRecruiterMeta_follows_the_owner_record_witness :
  snd (attachRecruiterMeta Fixture.env (jobs Fixture.store) Fixture.store)
  = Fixture.store.
Proof.
  refine (proj1 (attachRecruiterMeta_follows_the_owner_record
                   Fixture.env (jobs Fixture.store) Fixture.store
                   (jobs Fixture.store)
                   (snd (attachRecruiterMeta Fixture.env (jobs Fixture.store)
                                             Fixture.store))
                   _ eq_refl)).
  repeat constructor; simpl; intuition discriminate.
Defined.

(** ** Revocation and sharing *)

Lemma updateOne_unique_key {A} (key : A -> string) (p : A -> bool) f
      (coll : list A) x0 y :
  NoDup (List.map key coll) ->
  Mongo.findOne p coll = Some x0 ->
  In y (Mongo.updateOne p f coll) ->
  key y = key x0 ->
  y = f x0.
Proof.
  unfold Mongo.findOne.
  induction coll as [|x rest IH]; simpl; intros ND F Hy K; [discriminate|].
  inversion ND as [|? ? Hnotin ND']; subst.
  destruct (p x) eqn:P.
  - inversion F; subst x0; clear F. destruct Hy as [<-|Hy]; [reflexivity|].
    exfalso. apply Hnotin. rewrite <- K. apply in_map. exact Hy.
  - destruct Hy as [<-|Hy].
    + exfalso. apply Hnotin. rewrite K. apply in_map.
      apply (find_some _ _ F).
    + apply IH; assumption.
Qed.

Lemma revokeVc_ok_inv env session user credentialId reason st resp st' :
  revokeVc env session user credentialId reason st = (Ok resp, st') ->
  code resp = 200 ->
  exists issuerDid cred,
    requireRoleActive IssuerRole user = None
    /\ JS.truthy credentialId = true
    /\ mustGetDid session = Ok issuerDid
    /\ Mongo.findOne (ownedCredential (optString credentialId) issuerDid)
                     (credentials st) = Some cred
    /\ rejects env "revoke/Credential.findOne" = false
    /\ rejects env "revoke/Credential.findOneAndUpdate" = false.
Proof.
  unfold revokeVc.
  destruct (requireRoleActive IssuerRole user) as [forbidden|] eqn:G.
  { intros E Hc. inversion E; subst.
    rewrite (gate_refusal_code _ _ _ _ G) in Hc. discriminate. }
  destruct (JS.truthy credentialId) eqn:T; simpl.
  2:{ intros E Hc. inversion E; subst. discriminate. }
  unfold bind at 1. unfold lift.
  destruct (mustGetDid session) as [issuerDid|e]; [|discriminate].
  unfold tryCatch. unfold bind at 1. unfold query at 1. unfold await at 1.
  destruct (rejects env "revoke/Credential.findOne") eqn:R1.
  { intros E Hc. inversion E; subst. discriminate. }
  destruct (Mongo.findOne _ (credentials st)) as [cred|] eqn:F.
  2:{ intros E Hc. inversion E; subst. discriminate. }
  unfold bind at 1. unfold findOneAndUpdateCredential at 1. unfold await at 1.
  destruct (rejects env "revoke/Credential.findOneAndUpdate") eqn:R2.
  { intros E Hc. inversion E; subst. discriminate. }
  intros _ _. exists issuerDid, cred. repeat split; auto.
Qed.

(** X23. A revoked credential can no longer be shared.  With one
    credential per credential id, once the revocation route has answered
    200 the share filter (the one PATCH /applications/:id/shared-vcs and
    POST /applications apply) accepts the revoked id for no holder and
    from no request. *)
Theorem revoked_credential_is_not_shareable
        env session user credentialId reason st resp st' :
  NoDup (List.map Credential.credentialId (credentials st)) ->
  revokeVc env session user credentialId reason st = (Ok resp, st') ->
  code resp = 200 ->
  forall holder requested,
    ~ In (optString credentialId) (acceptedIds st' holder requested).
Proof.
  intros ND Hrun Hcode.
  destruct (revokeVc_ok_inv _ _ _ _ _ _ _ _ Hrun Hcode)
    as (issuerDid & cred & Hgate & Hcid & Hdid & Hfind & R1 & R2).
  assert (Hall : forall c, In c (credentials st') ->
                           Credential.credentialId c = optString credentialId ->
                           Credential.status c = Credential.Revoked).
  { revert Hrun. unfold revokeVc. rewrite Hgate, Hcid. simpl.
    rewrite (bind_ok _ _ st issuerDid st)
      by (unfold lift; rewrite Hdid; reflexivity).
    rewrite (tryCatch_bind_ok _ _ _ _ _ _ (query_accepts _ _ _ _ R1)), Hfind.
    erewrite tryCatch_bind_ok
      by (unfold findOneAndUpdateCredential; rewrite await_accepts by exact R2;
          reflexivity).
    match goal with
    | |- tryCatch ?m ?h ?s1 = _ -> _ =>
        assert (P : preserves
                      (fun s => forall c,
                           In c (credentials s) ->
                           Credential.credentialId c = optString credentialId ->
                           Credential.status c = Credential.Revoked)
                      (tryCatch m h))
    end.
    { preserve; simpl; try assumption.
      intros c Hc Hk. apply In_updateOne in Hc.
      destruct Hc as [Hc|(x & Hx & _ & ->)]; [auto|].
      simpl. simpl in Hk. auto. }
    intros E. eapply P; [|exact E]. simpl.
    intros c Hc Hk.
    assert (Hkey : Credential.credentialId cred = optString credentialId).
    { apply findOne_In in Hfind. destruct Hfind as [_ Hp].
      unfold ownedCredential in Hp. apply andb_true_iff in Hp.
      destruct Hp as [Hp _]. apply String.eqb_eq in Hp. exact Hp. }
    rewrite (updateOne_unique_key Credential.credentialId _ _ _ cred c
                                  ND Hfind Hc); [reflexivity|congruence]. }
  intros holder requested Hin.
  unfold acceptedIds in Hin. apply filter_In in Hin. destruct Hin as [_ Hex].
  apply existsb_exists in Hex. destruct Hex as (c & Hc & Hp).
  apply andb_true_iff in Hp. destruct Hp as [Hp Hact].
  apply andb_true_iff in Hp. destruct Hp as [Hk _].
  apply String.eqb_eq in Hk. rewrite (Hall c Hc Hk) in Hact. discriminate.
Qed.

Lemma revoked_credential_is_not_shareable_witness :
  acceptedIds (snd (revokeVc Fixture.env Fixture.issuerSession
                             (Some Fixture.issuerUser) (Some "vc-1") None
                             Fixture.store))
              Fixture.holderDid ["vc-1"]
  = [].
Proof.
  assert (H := revoked_credential_is_not_shareable
                 Fixture.env Fixture.issuerSession (Some Fixture.issuerUser)
                 (Some "vc-1") None Fixture.store
                 (mkResponse 200
                    (RevokedBody "unspecified"
                       (Some (Credential.set_status Credential.Revoked
                                                    Fixture.personalVc))
                       None))
                 (snd (revokeVc Fixture.env Fixture.issuerSession
                                (Some Fixture.issuerUser) (Some "vc-1") None
                                Fixture.store))).
  destruct (acceptedIds _ Fixture.holderDid ["vc-1"]) as [|x rest] eqn:E;
    [reflexivity|].
  exfalso. apply (H ltac:(repeat constructor; simpl; intuition discriminate)
                    eq_refl eq_refl Fixture.holderDid ["vc-1"]).
  rewrite E.
  assert (Hx : In x (acceptedIds
                       (snd (revokeVc Fixture.env Fixture.issuerSession
                                      (Some Fixture.issuerUser) (Some "vc-1")
                                      None Fixture.store))
                       Fixture.holderDid ["vc-1"]))
    by (rewrite E; left; reflexivity).
  unfold acceptedIds in Hx. apply filter_In in Hx. destruct Hx as [[<-|[]] _].
  left. reflexivity.
Defined.

(** ** Revoking twice *)

Lemma updateOne_idem {A} (p : A -> bool) f (coll : list A) :
  (forall x, p x = true -> p (f x) = true) ->
  (forall x, f (f x) = f x) ->
  Mongo.updateOne p f (Mongo.updateOne p f coll) = Mongo.updateOne p f coll.
Proof.
  intros Hp Hf. induction coll as [|x rest IH]; simpl; [reflexivity|].
  destruct (p x) eqn:P; simpl.
  - rewrite (Hp x P), Hf. reflexivity.
  - rewrite P. f_equal. exact IH.
Qed.

Lemma filter_idem {A} (p : A -> bool) (l : list A) :
  List.filter p (List.filter p l) = List.filter p l.
Proof.
  induction l as [|x rest IH]; simpl; [reflexivity|].
  destruct (p x) eqn:P; simpl; [rewrite P; f_equal|]; exact IH.
Qed.

Lemma updateMany_idem {A} (p : A -> bool) f (coll : list A) :
  (forall x, p x = true -> p (f x) = false) ->
  Mongo.updateMany p f (Mongo.updateMany p f coll) = Mongo.updateMany p f coll.
Proof.
  intros H. unfold Mongo.updateMany. rewrite map_map. apply map_ext.
  intros x. destruct (p x) eqn:P.
  - rewrite (H x P). reflexivity.
  - rewrite P. reflexivity.
Qed.

Lemma repairHolder_idem cid s :
  repairHolder cid (repairHolder cid s) = repairHolder cid s.
Proof.
  unfold repairHolder. simpl. unfold Seeker.set_vcs_and_defaults. simpl.
  f_equal.
  - rewrite map_map. apply map_ext. intros v.
    destruct (Seeker.credentialId v) as [c|] eqn:E.
    + destruct (String.eqb c cid) eqn:Q; simpl; rewrite E; [rewrite Q|rewrite Q];
        reflexivity.
    + rewrite E. reflexivity.
  - unfold Mongo.pull. apply filter_idem.
Qed.

Lemma includes_pull cid l : JS.includes (Mongo.pull cid l) cid = false.
Proof.
  destruct (JS.includes (Mongo.pull cid l) cid) eqn:I; [|reflexivity].
  apply includes_In in I. exfalso. exact (pull_removes _ _ I).
Qed.

Lemma preserves_bind_query_inv {A B} (I : Store -> Prop) env site
      (f : Store -> A) (k : A -> M B) :
  (forall st0, I st0 -> preserves I (k (f st0))) ->
  preserves I (bind (query env site f) k).
Proof.
  intros H st r st' Hst. unfold bind, query, await.
  destruct (rejects env site); intros E.
  - inversion E; subst; assumption.
  - exact (H st Hst st r st' Hst E).
Qed.

Lemma documents_credentials s s0 :
  documents s = documents s0 -> credentials s = credentials s0.
Proof.
  intros E.
  apply (f_equal (fun t => let '(c, _, _, _, _, _, _, _) := t in c)) in E.
  exact E.
Qed.

Lemma documents_eq_inv s s0 :
  documents s = documents s0 ->
  credentials s = credentials s0 /\ recruiters s = recruiters s0
  /\ seekers s = seekers s0 /\ issuers s = issuers s0
  /\ applications s = applications s0 /\ sharedProofs s = sharedProofs s0
  /\ jobs s = jobs s0 /\ users s = users s0.
Proof.
  unfold documents. intros E. inversion E. repeat split; assumption.
Qed.

(** What a completed revocation of a personal credential leaves. *)
Lemma revokeVc_personal_ok
      env session user credentialId reason st rsn meta tx st' :
  revokeVc env session user credentialId reason st
  = (Ok (mkResponse 200 (RevokedBody rsn (Some meta) tx)), st') ->
  JS.includes (Credential.type meta) "RecruiterCredential" = false ->
  exists issuerDid cred,
    requireRoleActive IssuerRole user = None
    /\ JS.truthy credentialId = true
    /\ mustGetDid session = Ok issuerDid
    /\ Mongo.findOne (ownedCredential (optString credentialId) issuerDid)
                     (credentials st) = Some cred
    /\ JS.includes (Credential.type cred) "RecruiterCredential" = false
    /\ documents st'
       = (Mongo.updateOne (ownedCredential (optString credentialId) issuerDid)
                          (Credential.set_status Credential.Revoked)
                          (credentials st),
          recruiters st,
          Mongo.updateOne (seekerHasDid (Credential.subjectDid cred))
                          (repairHolder (optString credentialId))
                          (seekers st),
          issuers st,
          Mongo.updateMany
            (fun a => JS.includes (Application.sharedVcIds a)
                                  (optString credentialId))
            (fun a => Application.set_sharedVcIds
                        (Mongo.pull (optString credentialId)
                                    (Application.sharedVcIds a)) a)
            (applications st),
          Mongo.deleteMany
            (fun p => String.eqb (SharedProof.vcId p) (optString credentialId))
            (sharedProofs st),
          jobs st, users st).
Proof.
  intros Hrun Hkind.
  destruct (revokeVc_ok_inv _ _ _ _ _ _ _ _ Hrun eq_refl)
    as (issuerDid & cred & Hgate & Hcid & Hdid & Hfind & R1 & R2).
  exists issuerDid, cred.
  split; [exact Hgate|]. split; [exact Hcid|]. split; [exact Hdid|].
  split; [exact Hfind|].
  revert Hrun. unfold revokeVc. rewrite Hgate, Hcid. simpl.
  rewrite (bind_ok _ _ st issuerDid st)
    by (unfold lift; rewrite Hdid; reflexivity).
  unfold tryCatch, bind, query, findOneAndUpdateCredential, write, external,
    await, respond, ret.
  rewrite R1, Hfind, R2. simpl. rewrite ?Hfind. simpl.
  destruct (JS.includes (Credential.type cred) "RecruiterCredential") eqn:K.
  { (* a recruiter credential answers with the type of [cred] in [meta] *)
    destruct (rejects env "revoke/Recruiter.findOne");
      [intros E; inversion E|].
    destruct (Mongo.findOne
                (fun r => String.eqb (Recruiter.did r)
                                     (Credential.subjectDid cred)) _)
      as [rec|].
    - destruct (revokeRecruiterBadgeOnChain env _);
        [|intros E; inversion E].
      destruct (rejects env "revoke/Recruiter.updateOne");
        [intros E; inversion E|].
      destruct (rejects env "revoke/Credential.updateOne");
        [intros E; inversion E|].
      intros E; inversion E; subst. simpl in Hkind. congruence.
    - intros E; inversion E; subst. simpl in Hkind. congruence. }
  intros Hrun. split; [reflexivity|]. revert Hrun.
  destruct (rejects env "revoke/Seeker.updateOne"); [intros E; inversion E|].
  destruct (rejects env "revoke/Application.updateMany");
    [intros E; inversion E|].
  destruct (rejects env "revoke/SharedProof.deleteMany");
    [intros E; inversion E|].
  intros E; inversion E; subst. reflexivity.
Qed.

(** On the paths the records carry, a second revocation of a personal
    credential rewrites every document to what it was.  (The route also
    sets the credential's [revokedAt] and [revokeReason] anew, and
    Mongoose the [updatedAt] of the credential and of the holder; the
    records carry none of the three.) *)
Lemma revokeVc_again_modelled_paths
        env session user credentialId reason st rsn meta tx st'
        env2 reason2 r2 st2 :
  revokeVc env session user credentialId reason st
  = (Ok (mkResponse 200 (RevokedBody rsn (Some meta) tx)), st') ->
  JS.includes (Credential.type meta) "RecruiterCredential" = false ->
  revokeVc env2 session user credentialId reason2 st' = (r2, st2) ->
  documents st2 = documents st'
  /\ ((forall site, rejects env2 site = false) ->
      exists resp, r2 = Ok resp /\ code resp = 200).
Proof.
  intros H1 Hkind H2.
  destruct (revokeVc_personal_ok _ _ _ _ _ _ _ _ _ _ H1 Hkind)
    as (issuerDid & cred & Hgate & Hcid & Hdid & Hfind & Hk & Hdocs).
  set (cid := optString credentialId) in *.
  set (revoked := Credential.set_status Credential.Revoked cred).
  assert (D := Hdocs). unfold documents in D.
  injection D as Dc Dr Ds Di Da Dp Dj Du.
  assert (Hfind' : forall s, documents s = documents st' ->
                             Mongo.findOne (ownedCredential cid issuerDid)
                                           (credentials s) = Some revoked).
  { intros s Hs. rewrite (documents_credentials _ _ Hs), Dc.
    rewrite findOne_updateOne_same by (intros x Hx; exact Hx).
    rewrite Hfind. reflexivity. }
  assert (Hstep : forall s e,
             documents s = documents st' ->
             documents
               (record e
                  (upd_credentials
                     (Mongo.updateOne (ownedCredential cid issuerDid)
                                      (Credential.set_status Credential.Revoked))
                     s)) = documents st'
             /\ documents
                  (record e
                     (upd_seekers
                        (Mongo.updateOne
                           (seekerHasDid (Credential.subjectDid revoked))
                           (repairHolder cid))
                        s)) = documents st'
             /\ documents
                  (record e
                     (upd_applications
                        (Mongo.updateMany
                           (fun a => JS.includes (Application.sharedVcIds a) cid)
                           (fun a => Application.set_sharedVcIds
                                       (Mongo.pull cid (Application.sharedVcIds a))
                                       a))
                        s)) = documents st'
             /\ documents
                  (record e
                     (upd_sharedProofs
                        (Mongo.deleteMany
                           (fun p => String.eqb (SharedProof.vcId p) cid))
                        s)) = documents st').
  { intros s e Hs.
    destruct (documents_eq_inv _ _ Hs)
      as (Ec & Er & Es & Ei & Ea & Ep & Ej & Eu).
    unfold documents. simpl.
    rewrite Ec, Er, Es, Ei, Ea, Ep, Ej, Eu.
    repeat split; f_equal; try reflexivity.
    - f_equal. f_equal. f_equal. f_equal. f_equal. f_equal. f_equal.
      rewrite Dc. apply updateOne_idem; [intros x Hx; exact Hx | reflexivity].
    - f_equal. f_equal. f_equal. f_equal. f_equal.
      rewrite Ds. apply updateOne_idem; [intros x Hx; exact Hx|].
      intros x. apply repairHolder_idem.
    - f_equal. f_equal. f_equal.
      rewrite Da. apply updateMany_idem. intros x _. simpl.
      apply includes_pull.
    - f_equal. f_equal.
      rewrite Dp. unfold Mongo.deleteMany. apply filter_idem. }
  split.
  - assert (P : preserves (fun s => documents s = documents st')
                          (revokeVc env2 session user credentialId reason2)).
    { unfold revokeVc. rewrite Hgate, Hcid. simpl. fold cid.
      apply preserves_bind_lift. intros did2 Hdid2.
      assert (did2 = issuerDid) by congruence. subst did2.
      apply preserves_tryCatch; [|intros; apply preserves_respond].
      apply preserves_bind_query_inv. intros s0 Hs0.
      rewrite (Hfind' s0 Hs0). unfold revoked at 1. simpl. rewrite Hk.
      preserve_all; try apply (Hstep _ _ ltac:(eassumption)). }
    exact (P st' r2 st2 eq_refl H2).
  - intros Hrej. revert H2.
    unfold revokeVc. rewrite Hgate, Hcid. simpl. fold cid.
    rewrite (bind_ok _ _ st' issuerDid st')
      by (unfold lift; rewrite Hdid; reflexivity).
    unfold tryCatch, bind, query, findOneAndUpdateCredential, write, await,
      respond, ret.
    rewrite !Hrej. rewrite (Hfind' st' eq_refl). unfold revoked at 1. simpl.
    rewrite Hk. rewrite ?Hrej.
    intros E; inversion E; subst. eexists. split; reflexivity.
Qed.

(** X24. Revoking a personal credential again is accepted and undoes
    nothing.  After the revocation route has answered 200 for a credential
    that is not a recruiter credential, another revocation of the same id
    by the same issuer, whatever calls reject this time, leaves the id,
    issuer, subject and status of every credential, the issued list and
    the default list of every seeker, and every application, disclosure,
    recruiter and user as the first revocation left them; and it answers
    200 again when no call rejects: there is no "already revoked"
    refusal. *)
Theorem revoking_again_keeps_the_cascade_result
        env session user credentialId reason st rsn meta tx st'
        env2 reason2 r2 st2 :
  revokeVc env session user credentialId reason st
  = (Ok (mkResponse 200 (RevokedBody rsn (Some meta) tx)), st') ->
  JS.includes (Credential.type meta) "RecruiterCredential" = false ->
  revokeVc env2 session user credentialId reason2 st' = (r2, st2) ->
  List.map (fun c => (Credential.credentialId c, Credential.issuerDid c,
                      Credential.subjectDid c, Credential.status c))
           (credentials st2)
  = List.map (fun c => (Credential.credentialId c, Credential.issuerDid c,
                        Credential.subjectDid c, Credential.status c))
             (credentials st')
  /\ List.map (fun s => (Seeker._id s, Seeker.did s, Seeker.vcs s,
                         Seeker.defaultSharedVcIds s))
              (seekers st2)
     = List.map (fun s => (Seeker._id s, Seeker.did s, Seeker.vcs s,
                           Seeker.defaultSharedVcIds s))
                (seekers st')
  /\ applications st2 = applications st'
  /\ sharedProofs st2 = sharedProofs st'
  /\ recruiters st2 = recruiters st'
  /\ users st2 = users st'
  /\ ((forall site, rejects env2 site = false) ->
      exists resp, r2 = Ok resp /\ code resp = 200).
Proof.
  intros H1 Hkind H2.
  destruct (revokeVc_again_modelled_paths _ _ _ _ _ _ _ _ _ _ _ _ _ _ H1 Hkind H2)
    as [Hdocs Hok].
  destruct (documents_eq_inv _ _ Hdocs)
    as (Ec & Er & Es & _ & Ea & Ep & _ & Eu).
  rewrite Ec, Es.
  repeat split; try reflexivity; assumption.
Qed.

Lemma revoking_again_keeps_the_cascade_result_witness :
  let once := snd (revokeVc Fixture.env Fixture.issuerSession
                            (Some Fixture.issuerUser) (Some "vc-1") None
                            Fixture.store) in
  let again := revokeVc Fixture.env Fixture.issuerSession
                        (Some Fixture.issuerUser) (Some "vc-1")
                        (Some "again") once in
  applications (snd again) = applications once
  /\ sharedProofs (snd again) = sharedProofs once
  /\ exists resp, fst again = Ok resp /\ code resp = 200.
Proof.
  destruct (revoking_again_keeps_the_cascade_result
              Fixture.env Fixture.issuerSession (Some Fixture.issuerUser)
              (Some "vc-1") None Fixture.store "unspecified"
              (Credential.set_status Credential.Revoked Fixture.personalVc) None
              (snd (revokeVc Fixture.env Fixture.issuerSession
                             (Some Fixture.issuerUser) (Some "vc-1") None
                             Fixture.store))
              Fixture.env (Some "again")
              (fst (revokeVc Fixture.env Fixture.issuerSession
                             (Some Fixture.issuerUser) (Some "vc-1")
                             (Some "again")
                             (snd (revokeVc Fixture.env Fixture.issuerSession
                                            (Some Fixture.issuerUser)
                                            (Some "vc-1") None Fixture.store))))
              (snd (revokeVc Fixture.env Fixture.issuerSession
                             (Some Fixture.issuerUser) (Some "vc-1")
                             (Some "again")
                             (snd (revokeVc Fixture.env Fixture.issuerSession
                                            (Some Fixture.issuerUser)
                                            (Some "vc-1") None Fixture.store))))
              eq_refl eq_refl eq_refl)
    as (_ & _ & Ha & Hp & _ & _ & Hok).
  split; [exact Ha|]. split; [exact Hp|].
  apply Hok. reflexivity.
Defined.

(** X25. Revoking a personal credential never reaches the ledger and
    never touches a recruiter or a user: for a credential that is not a
    recruiter credential, whatever the revocation route answers, the
    recruiter and user collections are as before and every effect the
    request adds is a write to the store. *)
Theorem personal_revocation_stays_off_the_ledger
        env session user credentialId reason st issuerDid cred r st' :
  mustGetDid session = Ok issuerDid ->
  Mongo.findOne (ownedCredential (optString credentialId) issuerDid)
                (credentials st) = Some cred ->
  JS.includes (Credential.type cred) "RecruiterCredential" = false ->
  revokeVc env session user credentialId reason st = (r, st') ->
  recruiters st' = recruiters st
  /\ users st' = users st
  /\ exists later,
      trace st' = trace st ++ later
      /\ forallb (fun e => negb (isLedgerCall e)) later = true.
Proof.
  intros Hdid Hfind Hkind.
  unfold revokeVc.
  destruct (requireRoleActive IssuerRole user).
  { intros E; inversion E; subst. repeat split.
    exists []. rewrite app_nil_r. auto. }
  destruct (negb (JS.truthy credentialId)).
  { intros E; inversion E; subst. repeat split.
    exists []. rewrite app_nil_r. auto. }
  rewrite (bind_ok _ _ st issuerDid st)
    by (unfold lift; rewrite Hdid; reflexivity).
  unfold tryCatch, bind, query, findOneAndUpdateCredential, write, await,
    respond, ret.
  destruct (rejects env "revoke/Credential.findOne").
  { intros E; inversion E; subst. repeat split.
    exists []. rewrite app_nil_r. auto. }
  rewrite Hfind.
  destruct (rejects env "revoke/Credential.findOneAndUpdate").
  { intros E; inversion E; subst. repeat split.
    exists []. rewrite app_nil_r. auto. }
  rewrite Hkind.
  destruct (rejects env "revoke/Seeker.updateOne").
  { intros E; inversion E; subst. repeat split. simpl.
    eexists. split; [reflexivity|]. reflexivity. }
  destruct (rejects env "revoke/Application.updateMany").
  { intros E; inversion E; subst. repeat split. simpl.
    rewrite <- app_assoc. eexists. split; [reflexivity|]. reflexivity. }
  destruct (rejects env "revoke/SharedProof.deleteMany").
  { intros E; inversion E; subst. repeat split. simpl.
    rewrite <- !app_assoc. eexists. split; [reflexivity|]. reflexivity. }
  intros E; inversion E; subst. repeat split. simpl.
  rewrite <- !app_assoc. eexists. split; [reflexivity|]. reflexivity.
Qed.

Lemma personal_revocation_stays_off_the_ledger_witness :
  recruiters (snd (revokeVc Fixture.env Fixture.issuerSession
                            (Some Fixture.issuerUser) (Some "vc-1") None
                            Fixture.store))
  = recruiters Fixture.store.
Proof.
  apply (personal_revocation_stays_off_the_ledger
           Fixture.env Fixture.issuerSession (Some Fixture.issuerUser)
           (Some "vc-1") None Fixture.store Fixture.issuerDid
           Fixture.personalVc
           (fst (revokeVc Fixture.env Fixture.issuerSession
                          (Some Fixture.issuerUser) (Some "vc-1") None
                          Fixture.store))).
  - reflexivity.
  - reflexivity.
  - reflexivity.
  - apply surjective_pairing.
Defined.

(** ** Filing an application *)

Lemma updateOne_last {A} (p : A -> bool) f (l : list A) a :
  (forall x, In x l -> p x = false) ->
  p a = true ->
  Mongo.updateOne p f (l ++ [a]) = l ++ [f a].
Proof.
  intros Hl Ha. induction l as [|x rest IH]; simpl.
  - rewrite Ha. reflexivity.
  - rewrite (Hl x (or_introl eq_refl)). f_equal. apply IH.
    intros y Hy. apply Hl. right. exact Hy.
Qed.

(** X26. An application is filed under the session's DID and nothing
    else is touched.  With a fresh object id, when POST /applications
    answers 201 the application collection is the old one followed by one
    application whose seeker DID is the session's DID (trimmed), whose
    job and recruiter are the requested ones, and whose status is
    submitted; the body cannot name another seeker. *)
Theorem application_is_filed_under_the_session_did
        env session jobId recruiterDid sharedVcIds st resp st' :
  (forall a, In a (applications st) -> Application._id a <> newObjectId env) ->
  ApplicationRoutes.createApplication env session jobId recruiterDid
                                      sharedVcIds st = (Ok resp, st') ->
  code resp = 201 ->
  exists a,
    applications st' = applications st ++ [a]
    /\ Application._id a = newObjectId env
    /\ Application.seekerDid a = JS.trim (optString (sessionDid session))
    /\ Application.jobId a = optString jobId
    /\ Application.recruiterDid a = optString recruiterDid
    /\ Application.status a = Application.Submitted.
Proof.
  intros Hfresh Hrun Hcode. revert Hrun.
  assert (Hp : forall x, In x (applications st) ->
                         ApplicationRoutes.byAppId (newObjectId env) x = false).
  { intros x Hx. apply String.eqb_neq. apply Hfresh. exact Hx. }
  unfold ApplicationRoutes.createApplication, tryCatch, bind, lift, query, write,
    writeChecked, await, respond, ret.
  destruct (negb (JS.truthy (sessionDid session)));
    [intros E; inversion E; subst; discriminate|].
  destruct (negb (JS.truthy jobId) || negb (JS.truthy recruiterDid));
    [intros E; inversion E; subst; discriminate|].
  destruct (rejects env "create/Application.findOne");
    [intros E; inversion E; subst; discriminate|].
  destruct (Mongo.findOne _ (applications st));
    [intros E; inversion E; subst; discriminate|].
  destruct (rejects env "create/Application.create");
    [intros E; inversion E; subst; discriminate|].
  unfold ApplicationRoutes.createApplicationDoc. simpl.
  destruct (String.eqb (optString jobId) "");
    [intros E; inversion E; subst; discriminate|].
  destruct (String.eqb (JS.trim (optString (sessionDid session))) "");
    [intros E; inversion E; subst; discriminate|].
  destruct (String.eqb (optString recruiterDid) "");
    [intros E; inversion E; subst; discriminate|].
  fold (requestedIds sharedVcIds).
  assert (Fin : forall (r : Outcome Response) (s : Store),
             (exists a,
                 applications s = applications st ++ [a]
                 /\ Application._id a = newObjectId env
                 /\ Application.seekerDid a
                    = JS.trim (optString (sessionDid session))
                 /\ Application.jobId a = optString jobId
                 /\ Application.recruiterDid a = optString recruiterDid
                 /\ Application.status a = Application.Submitted) ->
             (r, s) = (Ok resp, st') ->
             exists a,
               applications st' = applications st ++ [a]
               /\ Application._id a = newObjectId env
               /\ Application.seekerDid a
                  = JS.trim (optString (sessionDid session))
               /\ Application.jobId a = optString jobId
               /\ Application.recruiterDid a = optString recruiterDid
               /\ Application.status a = Application.Submitted).
  { intros r s H E. inversion E; subst. exact H. }
  assert (Hone : forall f,
             (forall x, Application._id (f x) = Application._id x
                        /\ Application.seekerDid (f x) = Application.seekerDid x
                        /\ Application.jobId (f x) = Application.jobId x
                        /\ Application.recruiterDid (f x)
                           = Application.recruiterDid x
                        /\ Application.status (f x) = Application.status x) ->
             forall l,
               (exists a,
                   l = applications st ++ [a]
                   /\ Application._id a = newObjectId env
                   /\ Application.seekerDid a
                      = JS.trim (optString (sessionDid session))
                   /\ Application.jobId a = optString jobId
                   /\ Application.recruiterDid a = optString recruiterDid
                   /\ Application.status a = Application.Submitted) ->
               exists a,
                 Mongo.updateOne (ApplicationRoutes.byAppId (newObjectId env)) f l
                 = applications st ++ [a]
                 /\ Application._id a = newObjectId env
                 /\ Application.seekerDid a
                    = JS.trim (optString (sessionDid session))
                 /\ Application.jobId a = optString jobId
                 /\ Application.recruiterDid a = optString recruiterDid
                 /\ Application.status a = Application.Submitted).
  { intros f Hf l (a & -> & Hi & Hs & Hj & Hr & Ht).
    exists (f a). destruct (Hf a) as (F1 & F2 & F3 & F4 & F5).
    split.
    - apply updateOne_last; [exact Hp|].
      unfold ApplicationRoutes.byAppId. rewrite Hi. apply String.eqb_refl.
    - repeat split; congruence. }
  assert (Hbase : exists a,
             applications st
             ++ [Application.mk (newObjectId env) (optString jobId)
                                (JS.trim (optString (sessionDid session)))
                                (optString recruiterDid)
                                (requestedIds sharedVcIds)
                                Application.Submitted None]
             = applications st ++ [a]
             /\ Application._id a = newObjectId env
             /\ Application.seekerDid a
                = JS.trim (optString (sessionDid session))
             /\ Application.jobId a = optString jobId
             /\ Application.recruiterDid a = optString recruiterDid
             /\ Application.status a = Application.Submitted).
  { eexists. split; [reflexivity|]. repeat split. }
  assert (Hprofile : forall p x,
             Application._id (Application.set_seekerProfile p x)
             = Application._id x
             /\ Application.seekerDid (Application.set_seekerProfile p x)
                = Application.seekerDid x
             /\ Application.jobId (Application.set_seekerProfile p x)
                = Application.jobId x
             /\ Application.recruiterDid (Application.set_seekerProfile p x)
                = Application.recruiterDid x
             /\ Application.status (Application.set_seekerProfile p x)
                = Application.status x)
    by (intros; repeat split).
  assert (Hids : forall ids x,
             Application._id (Application.set_sharedVcIds ids x)
             = Application._id x
             /\ Application.seekerDid (Application.set_sharedVcIds ids x)
                = Application.seekerDid x
             /\ Application.jobId (Application.set_sharedVcIds ids x)
                = Application.jobId x
             /\ Application.recruiterDid (Application.set_sharedVcIds ids x)
                = Application.recruiterDid x
             /\ Application.status (Application.set_sharedVcIds ids x)
                = Application.status x)
    by (intros; repeat split).
  destruct (requestedIds sharedVcIds) as [|r0 rs] eqn:Req.
  { simpl.
    destruct (rejects env "create/Seeker.findOne");
      [apply Fin; simpl; exact Hbase|].
    destruct (Mongo.findOne _ (seekers st));
      [|apply Fin; simpl; exact Hbase].
    destruct (rejects env "create/Application.findByIdAndUpdate(seekerProfile)");
      apply Fin; simpl; try exact Hbase.
    apply Hone; [apply Hprofile | exact Hbase]. }
  rewrite <- Req in *. clear Req r0 rs.
  destruct (rejects env "create/Credential.find");
    [intros E; inversion E; subst; discriminate|].
  simpl.
  destruct (List.filter _ (requestedIds sharedVcIds)) as [|v vs] eqn:V.
  { simpl.
    destruct (rejects env "create/Seeker.findOne");
      [apply Fin; simpl; exact Hbase|].
    destruct (Mongo.findOne _ (seekers st));
      [|apply Fin; simpl; exact Hbase].
    destruct (rejects env "create/Application.findByIdAndUpdate(seekerProfile)");
      apply Fin; simpl; try exact Hbase.
    apply Hone; [apply Hprofile | exact Hbase]. }
  destruct (ApplicationRoutes.buildBulkOps env _ _ (v :: vs)) as [ops|e] eqn:B;
    [|intros E; inversion E; subst; discriminate].
  destruct (rejects env "create/SharedProof.bulkWrite");
    [intros E; inversion E; subst; discriminate|].
  destruct (rejects env "create/Application.findByIdAndUpdate(sharedVcIds)");
    [intros E; inversion E; subst; discriminate|].
  simpl.
  destruct (rejects env "create/Seeker.findOne");
    [apply Fin; simpl; apply Hone; [apply Hids | exact Hbase]|].
  destruct (Mongo.findOne _ (seekers st));
    [|apply Fin; simpl; apply Hone; [apply Hids | exact Hbase]].
  destruct (rejects env "create/Application.findByIdAndUpdate(seekerProfile)");
    apply Fin; simpl.
  - apply Hone; [apply Hids | exact Hbase].
  - apply Hone; [apply Hprofile|]. apply Hone; [apply Hids | exact Hbase].
Qed.

Lemma application_is_filed_under_the_session_did_witness :
  let run := ApplicationRoutes.createApplication
               Fixture.env Fixture.holderSession (Some "job-2")
               (Some Fixture.orgDid) (Some ["vc-1"; "vc-2"]) Fixture.store in
  exists a,
    applications (snd run) = applications Fixture.store ++ [a]
    /\ Application.seekerDid a = Fixture.holderDid.
Proof.
  destruct (application_is_filed_under_the_session_did
              Fixture.env Fixture.holderSession (Some "job-2")
              (Some Fixture.orgDid) (Some ["vc-1"; "vc-2"]) Fixture.store
              (mkResponse 201
                 (CreatedBody
                    (Application.mk "oid-new" "job-2" Fixture.holderDid
                                    Fixture.orgDid ["vc-1"; "vc-2"]
                                    Application.Submitted None)
                    2))
              (snd (ApplicationRoutes.createApplication
                      Fixture.env Fixture.holderSession (Some "job-2")
                      (Some Fixture.orgDid) (Some ["vc-1"; "vc-2"])
                      Fixture.store)))
    as (a & Ha & _ & Hs & _).
  - simpl. intros a [<-|[]]. discriminate.
  - reflexivity.
  - reflexivity.
  - exists a. split; [exact Ha | exact Hs].
Defined.

(** ** The DID derived from a wallet address *)

Lemma isHex_lowerChar c : JS.isHex c = true -> JS.isHex (JS.lowerChar c) = true.
Proof.
  destruct c as [[] [] [] [] [] [] [] []]; vm_compute; intros H;
    first [reflexivity | discriminate H].
Qed.

Lemma takeHex_lower n : forall t h,
  JS.takeHex n t = Some h ->
  JS.takeHex n (JS.toLowerCase t) = Some (JS.toLowerCase h).
Proof.
  induction n as [|k IH]; intros t h; simpl.
  - intros E; inversion E; reflexivity.
  - destruct t as [|c t']; [discriminate|]. simpl.
    destruct (JS.isHex c) eqn:Hc; [|discriminate].
    destruct (JS.takeHex k t') as [r|] eqn:Hr; [|discriminate].
    intros E; inversion E; subst h; clear E.
    rewrite (isHex_lowerChar c Hc), (IH t' r Hr). reflexivity.
Qed.

Lemma takeHex_full n : forall t h,
  JS.takeHex n t = Some h -> String.length t = n -> h = t.
Proof.
  induction n as [|k IH]; intros t h; simpl.
  - intros E L. inversion E; subst. destruct t; [reflexivity | discriminate].
  - destruct t as [|c t']; [discriminate|].
    destruct (JS.isHex c); [|discriminate].
    destruct (JS.takeHex k t') as [r|] eqn:Hr; [|discriminate].
    intros E L. inversion E; subst h; clear E. simpl in L.
    f_equal. apply IH; [exact Hr | lia].
Qed.

Lemma isWalletAddress_inv w :
  JS.isWalletAddress w = true ->
  exists t, w = String "0" (String "x" t) /\ JS.takeHex 40 t = Some t.
Proof.
  destruct w as [|c0 [|c1 t]].
  - discriminate.
  - destruct c0 as [[] [] [] [] [] [] [] []]; discriminate.
  - destruct c0 as [[] [] [] [] [] [] [] []]; try discriminate;
      destruct c1 as [[] [] [] [] [] [] [] []]; try discriminate.
    unfold JS.isWalletAddress.
    destruct (JS.takeHex 40 t) as [h|] eqn:H; [|discriminate].
    intros L. apply Nat.eqb_eq in L.
    exists t. split; [reflexivity|].
    rewrite (takeHex_full _ _ _ H L) in H. exact H.
Qed.

Lemma matchWalletAddress_skip c s :
  c <> "0"%char ->
  JS.matchWalletAddress (String c s) = JS.matchWalletAddress s.
Proof.
  intros Hc.
  destruct c as [[] [] [] [] [] [] [] []]; try reflexivity.
  contradiction Hc; reflexivity.
Qed.

Lemma matchWalletAddress_skip_zero c s :
  c <> "x"%char ->
  JS.matchWalletAddress (String "0" (String c s))
  = JS.matchWalletAddress (String c s).
Proof.
  intros Hc.
  destruct c as [[] [] [] [] [] [] [] []]; try reflexivity.
  contradiction Hc; reflexivity.
Qed.

Lemma matchWalletAddress_here r h :
  JS.takeHex 40 r = Some h ->
  JS.matchWalletAddress (String "0" (String "x" r))
  = Some (String "0" (String "x" h)).
Proof.
  intros H. cbn [JS.matchWalletAddress]. rewrite H. reflexivity.
Qed.

(** X27. The DID the server derives from a session wallet leads back to
    that wallet: for every string the wallet pattern accepts, the address
    the onboarding route extracts from the derived [did:pkh] is the
    wallet address in lower case; so the best-effort registration of such
    a DID always reaches the ledger when a registry is configured, and
    never fails the caller. *)
Theorem derived_did_leads_back_to_the_wallet w :
  JS.isWalletAddress w = true ->
  JS.matchWalletAddress (SeekerIdentity.didPkhOf w) = Some (JS.toLowerCase w)
  /\ forall env st,
       registerDidBestEffort env (SeekerIdentity.didPkhOf w) st
       = (Ok tt,
          if DID_REGISTRY_ADDRESS env
          then record (LedgerRegisterDid (SeekerIdentity.didPkhOf w)) st
          else st).
Proof.
  intros H.
  assert (Hm : JS.matchWalletAddress (SeekerIdentity.didPkhOf w)
               = Some (JS.toLowerCase w)).
  { apply isWalletAddress_inv in H. destruct H as (t & -> & Ht).
    unfold SeekerIdentity.didPkhOf.
    change (JS.toLowerCase (String "0" (String "x" t)))
      with (String "0" (String "x" (JS.toLowerCase t))).
    cbn [String.append].
    repeat first
      [ rewrite matchWalletAddress_skip by discriminate
      | rewrite matchWalletAddress_skip_zero by discriminate ].
    apply matchWalletAddress_here. apply takeHex_lower. exact Ht. }
  split; [exact Hm|].
  intros env st. unfold registerDidBestEffort. rewrite Hm.
  unfold tryCatch, bind, external, ret.
  destruct (DID_REGISTRY_ADDRESS env); [|reflexivity].
  destruct (registerDidOnChain env _ _); reflexivity.
Qed.

Lemma derived_did_leads_back_to_the_wallet_witness :
  JS.matchWalletAddress
    (SeekerIdentity.didPkhOf "0xAbCdEf0123456789aBcDeF0123456789AbCdEf01")
  = Some "0xabcdef0123456789abcdef0123456789abcdef01".
Proof.
  apply (derived_did_leads_back_to_the_wallet
           "0xAbCdEf0123456789aBcDeF0123456789AbCdEf01").
  reflexivity.
Defined.

(** ** Resolving the seeker of a session *)

(** X28. [findSeekerBySession] is a pure read that returns a seeker
    matching the session and misses none: a seeker it returns is stored
    and carries the session's DID, or the [did:pkh] of the session's
    wallet address, or the session's email; when it returns none, no
    stored seeker carries any of the three. *)
Theorem findSeekerBySession_matches_the_session env session st found st' :
  SeekerIdentity.findSeekerBySession env session st = (Ok found, st') ->
  let wallet := match session with
                | Some s => option_map JS.trim (s_wallet_address s)
                | None => None
                end in
  st' = st
  /\ match found with
     | Some x =>
         In x (seekers st)
         /\ ((exists d, sessionDidTrimmed session = Some d
                        /\ Seeker.did x = Some d)
             \/ (exists w, wallet = Some w
                           /\ JS.isWalletAddress w = true
                           /\ Seeker.did x = Some (SeekerIdentity.didPkhOf w))
             \/ (exists e, sessionEmailNormalised session = Some e
                           /\ Seeker.email x = Some e))
     | None =>
         forall x, In x (seekers st) ->
           (forall d, sessionDidTrimmed session = Some d -> d <> "" ->
                      Seeker.did x <> Some d)
           /\ (forall w, wallet = Some w -> JS.isWalletAddress w = true ->
                         Seeker.did x <> Some (SeekerIdentity.didPkhOf w))
           /\ (forall e, sessionEmailNormalised session = Some e -> e <> "" ->
                         Seeker.email x <> Some e)
     end.
Proof.
  intros H wallet.
  split; [exact (proj1 (findSeekerBySession_run _ _ _ _ _ H))|].
  unfold SeekerIdentity.findSeekerBySession in H.
  apply bind_inv in H. destruct H as (s & s0 & Hs & H).
  apply lift_inv in Hs. destruct Hs as [Hs ->].
  unfold SeekerIdentity.mustGetIdentity in Hs.
  destruct (negb (JS.truthy (sessionDidTrimmed session))
            && negb (JS.truthy (sessionEmailNormalised session)));
    [discriminate|].
  inversion Hs; subst s; clear Hs. simpl in H. fold wallet in H.
  assert (Hdid : forall d x, seekerHasDid d x = true <-> Seeker.did x = Some d).
  { intros d x. unfold seekerHasDid. destruct (Seeker.did x) as [c|].
    - rewrite String.eqb_eq. split; congruence.
    - split; discriminate. }
  assert (Hmail : forall e (x : Seeker.doc),
             match Seeker.email x with
             | Some c => String.eqb c e
             | None => false
             end = true <-> Seeker.email x = Some e).
  { intros e x. destruct (Seeker.email x) as [c|].
    - rewrite String.eqb_eq. split; congruence.
    - split; discriminate. }
  apply bind_inv in H. destruct H as (byDid & s1 & H1 & H).
  assert (B1 : s1 = st
               /\ byDid = if JS.truthy (sessionDidTrimmed session)
                          then Mongo.findOne
                                 (seekerHasDid
                                    (optString (sessionDidTrimmed session)))
                                 (seekers st)
                          else None).
  { destruct (JS.truthy (sessionDidTrimmed session)).
    - apply query_inv in H1. tauto.
    - apply ret_inv in H1. tauto. }
  destruct B1 as [-> B1]. clear H1.
  destruct byDid as [x1|].
  { apply ret_inv in H. destruct H as [-> _].
    destruct (JS.truthy (sessionDidTrimmed session)) eqn:Td; [|discriminate].
    apply truthy_inv in Td. destruct Td as (d & Hd & _).
    rewrite Hd in B1. simpl in B1. symmetry in B1.
    apply findOne_In in B1. destruct B1 as [Hin Hp].
    split; [exact Hin|]. left. exists d. split; [exact Hd|].
    apply Hdid. exact Hp. }
  apply bind_inv in H. destruct H as (byPkh & s2 & H2 & H).
  assert (B2 : s2 = st
               /\ byPkh = if JS.truthy wallet
                             && JS.isWalletAddress (optString wallet)
                          then Mongo.findOne
                                 (seekerHasDid
                                    (SeekerIdentity.didPkhOf (optString wallet)))
                                 (seekers st)
                          else None).
  { destruct (JS.truthy wallet && JS.isWalletAddress (optString wallet)).
    - apply query_inv in H2. tauto.
    - apply ret_inv in H2. tauto. }
  destruct B2 as [-> B2]. clear H2.
  destruct byPkh as [x2|].
  { apply ret_inv in H. destruct H as [-> _].
    destruct (JS.truthy wallet && JS.isWalletAddress (optString wallet)) eqn:Tw;
      [|discriminate].
    apply andb_true_iff in Tw. destruct Tw as [Tw Iw].
    apply truthy_inv in Tw. destruct Tw as (w & Hw & _).
    rewrite Hw in B2, Iw. simpl in B2, Iw. symmetry in B2.
    apply findOne_In in B2. destruct B2 as [Hin Hp].
    split; [exact Hin|]. right. left. exists w.
    split; [exact Hw|]. split; [exact Iw|]. apply Hdid. exact Hp. }
  assert (B3 : found = if JS.truthy (sessionEmailNormalised session)
                       then Mongo.findOne
                              (fun x => match Seeker.email x with
                                        | Some e =>
                                            String.eqb e
                                              (optString
                                                 (sessionEmailNormalised session))
                                        | None => false
                                        end)
                              (seekers st)
                       else None).
  { destruct (JS.truthy (sessionEmailNormalised session)).
    - apply query_inv in H. tauto.
    - apply ret_inv in H. tauto. }
  clear H.
  destruct found as [x3|].
  { destruct (JS.truthy (sessionEmailNormalised session)) eqn:Te;
      [|discriminate].
    apply truthy_inv in Te. destruct Te as (e & He & _).
    rewrite He in B3. simpl in B3. symmetry in B3.
    apply findOne_In in B3. destruct B3 as [Hin Hp].
    split; [exact Hin|]. right. right. exists e. split; [exact He|].
    apply Hmail. exact Hp. }
  intros x Hx. split; [|split].
  - intros d Hd Hne Hx1. rewrite Hd in B1. simpl in B1.
    rewrite (proj2 (String.eqb_neq d "") Hne) in B1.
    simpl in B1. symmetry in B1.
    pose proof (findOne_None _ _ x B1 Hx) as F.
    rewrite (proj2 (Hdid d x) Hx1) in F. discriminate.
  - intros w Hw Iw Hx2. rewrite Hw in B2. simpl in B2. rewrite Iw in B2.
    assert (Tw : negb (String.eqb w "") = true).
    { destruct (String.eqb w "") eqn:Q; [|reflexivity].
      apply String.eqb_eq in Q. rewrite Q in Iw. discriminate Iw. }
    rewrite Tw in B2. simpl in B2. symmetry in B2.
    pose proof (findOne_None _ _ x B2 Hx) as F.
    rewrite (proj2 (Hdid _ x) Hx2) in F. discriminate.
  - intros e He Hne Hx3. rewrite He in B3. simpl in B3.
    rewrite (proj2 (String.eqb_neq e "") Hne) in B3.
    simpl in B3. symmetry in B3.
    pose proof (findOne_None _ _ x B3 Hx) as F. simpl in F.
    rewrite (proj2 (Hmail e x) Hx3) in F. discriminate.
Qed.

Lemma findSeekerBySession_matches_the_session_witness :
  In Fixture.holder (seekers Fixture.store)
  /\ ((exists d, sessionDidTrimmed Fixture.otherDidSession = Some d
                 /\ Seeker.did Fixture.holder = Some d)
      \/ (exists w, Some (JS.trim "0x1111111111111111111111111111111111111111")
                    = Some w
                    /\ JS.isWalletAddress w = true
                    /\ Seeker.did Fixture.holder
                       = Some (SeekerIdentity.didPkhOf w))
      \/ (exists e, sessionEmailNormalised Fixture.otherDidSession = Some e
                    /\ Seeker.email Fixture.holder = Some e)).
Proof.
  exact (proj2 (findSeekerBySession_matches_the_session
                  Fixture.env Fixture.otherDidSession Fixture.store
                  (Some Fixture.holder) Fixture.store eq_refl)).
Defined.

(** ** From approval to the recruiter gate *)

Lemma sessionDid_of_mustGetSession session s did :
  mustGetSession session = Ok s ->
  s_did s = Some did ->
  sessionDidTrimmed session = Some did /\ did <> "".
Proof.
  unfold mustGetSession, sessionDidTrimmed.
  destruct session as [s0|]; simpl.
  - destruct (String.eqb (JS.trim (optString (s_did s0))) ""
              && String.eqb (JS.toLowerCase (JS.trim (optString (s_email s0)))) "");
      [discriminate|].
    intros E; inversion E; subst s; clear E. simpl.
    unfold someIfNonEmpty.
    destruct (String.eqb_spec (JS.trim (optString (s_did s0))) "") as [Q|Q];
      [discriminate|].
    intros E; inversion E; subst did; clear E.
    destruct (s_did s0) as [d0|]; simpl in *.
    + split; [reflexivity | exact Q].
    + exfalso. apply Q. reflexivity.
  - discriminate.
Qed.

Lemma recruiterOfSession_by_did session st did r :
  sessionDidTrimmed session = Some did ->
  did <> "" ->
  Mongo.findOne (fun x => String.eqb (Recruiter.did x) did) (recruiters st)
  = Some r ->
  recruiterOfSession session st = Some r.
Proof.
  intros Hd Hne F. unfold recruiterOfSession. cbv zeta. rewrite Hd. simpl.
  rewrite (proj2 (String.eqb_neq did "") Hne). simpl. rewrite F. reflexivity.
Qed.

(** X29. Approval opens the recruiter gate.  With one record per
    recruiter id, after an approval has answered 200 for an onboarded
    recruiter (the record its DID resolves to), the role synchronisation
    of any later request whose session carries that DID hands on a user
    whose recruiter role is active, and [requireRoleActive] lets it
    through. *)
Theorem approval_opens_the_recruiter_gate
        env session user recruiterId st resp st' recruiter :
  NoDup (List.map Recruiter._id (recruiters st)) ->
  Mongo.findOne (byRecruiterId recruiterId) (recruiters st) = Some recruiter ->
  Mongo.findOne (fun r => String.eqb (Recruiter.did r) (Recruiter.did recruiter))
                (recruiters st) = Some recruiter ->
  Recruiter.onboarded recruiter = true ->
  Recruiter.did recruiter <> "" ->
  approveRecruiter env session user recruiterId st = (Ok resp, st') ->
  code resp = 200 ->
  forall env' session' u out st'',
    sessionDidTrimmed session' = Some (Recruiter.did recruiter) ->
    syncRecruiterRoleFromRecruiterDoc env' session' (Some u) st'
    = (Ok out, st'') ->
    requireRoleActive RecruiterRole out = None
    /\ exists u', out = Some u'
                  /\ User.recruiter (User.roles u') = active
                  /\ User.privyUserId u' = User.privyUserId u.
Proof.
  intros ND Hrec Hbydid Hon Hne Hrun Hcode env' session' u out st'' Hs Hsync.
  destruct (approveRecruiter_ok _ _ _ _ _ _ _ Hrun Hcode)
    as (issuerDid & issuer & rec0 & h & issued & c & _ & _ & _ & Hrec0
        & _ & _ & _ & _ & _ & Hrecs & _).
  rewrite Hrec in Hrec0. inversion Hrec0; subst rec0; clear Hrec0.
  assert (Hfound :
            Mongo.findOne
              (fun x => String.eqb (Recruiter.did x) (Recruiter.did recruiter))
              (recruiters st')
            = Some (Recruiter.set_badge
                      (Some (approvedBadge env (mkTx h "polygon-amoy")
                                           (vcId issued)))
                      (Recruiter.set_kycStatus Recruiter.KycApproved recruiter))).
  { rewrite Hrecs. unfold byRecruiterId.
    apply (findOne_updateOne_by_key
             Recruiter._id
             (fun x => String.eqb (Recruiter.did x) (Recruiter.did recruiter))
             (fun r => Recruiter.set_badge
                         (Some (approvedBadge env (mkTx h "polygon-amoy")
                                              (vcId issued)))
                         (Recruiter.set_kycStatus Recruiter.KycApproved r)));
      [exact ND | exact Hbydid|].
    simpl. apply String.eqb_refl. }
  apply syncRecruiter_shape in Hsync.
  rewrite (recruiterOfSession_by_did _ _ _ _ Hs Hne Hfound) in Hsync.
  destruct Hsync as [(e & Hr & _)|(Hr & _)]; [discriminate|].
  inversion Hr; subst out; clear Hr.
  rewrite Hon. simpl. split; [reflexivity|].
  eexists. split; [reflexivity|]. split; reflexivity.
Qed.

Lemma approval_opens_the_recruiter_gate_witness :
  let approved := snd (approveRecruiter Fixture.env Fixture.issuerSession
                                        (Some Fixture.issuerUser) "rec-2"
                                        Fixture.store) in
  let session := Some (mkSession (Some (Recruiter.did Fixture.pendingOrg))
                                 None None (Some "privy-globex")) in
  let u := User.mk "privy-globex" None
                   (Some (Recruiter.did Fixture.pendingOrg)) None
                   (User.mkRoles none pending none) in
  requireRoleActive RecruiterRole
    (match fst (syncRecruiterRoleFromRecruiterDoc Fixture.env session (Some u)
                                                  approved) with
     | Ok out => out
     | Thrown _ => None
     end)
  = None.
Proof.
  apply (approval_opens_the_recruiter_gate
           Fixture.env Fixture.issuerSession (Some Fixture.issuerUser)
           "rec-2" Fixture.store
           (mkResponse 200 (ApprovedBody "urn:securehire:vc:new" "0xissue"))
           (snd (approveRecruiter Fixture.env Fixture.issuerSession
                                  (Some Fixture.issuerUser) "rec-2"
                                  Fixture.store))
           Fixture.pendingOrg
           ltac:(repeat constructor; simpl; intuition discriminate)
           eq_refl eq_refl eq_refl ltac:(discriminate) eq_refl eq_refl
           Fixture.env
           (Some (mkSession (Some (Recruiter.did Fixture.pendingOrg))
                            None None (Some "privy-globex")))
           (User.mk "privy-globex" None
                    (Some (Recruiter.did Fixture.pendingOrg)) None
                    (User.mkRoles none pending none))
           _
           (snd (syncRecruiterRoleFromRecruiterDoc
                   Fixture.env
                   (Some (mkSession (Some (Recruiter.did Fixture.pendingOrg))
                                    None None (Some "privy-globex")))
                   (Some (User.mk "privy-globex" None
                                  (Some (Recruiter.did Fixture.pendingOrg)) None
                                  (User.mkRoles none pending none)))
                   (snd (approveRecruiter Fixture.env Fixture.issuerSession
                                          (Some Fixture.issuerUser) "rec-2"
                                          Fixture.store))))
           eq_refl eq_refl).
Defined.

(** ** Self-service leaves a recruiter pending *)

Lemma findOne_app_last {A} (p : A -> bool) (l : list A) a :
  Mongo.findOne p l = None -> p a = true -> Mongo.findOne p (l ++ [a]) = Some a.
Proof.
  unfold Mongo.findOne. intros F Ha.
  induction l as [|x rest IH]; simpl in *.
  - rewrite Ha. reflexivity.
  - destruct (p x); [discriminate | apply IH; exact F].
Qed.

(** X30. What a recruiter can do alone ends at pending.  With a fresh
    object id, after POST /recruiters has created the record of a session
    (201) and POST /recruiters/onboarding has answered 200 for the same
    session, the stored record is onboarded with KYC status pending and
    its badge is still the unverified one it was created with, so the
    role state derived from it is pending and [requireRoleActive]
    refuses the recruiter role after any later synchronisation. *)
Theorem self_service_leaves_the_role_pending
        env session st api st1 env2 b api2 st2 :
  (forall r, In r (recruiters st) -> Recruiter._id r <> newObjectId env) ->
  RecruiterRoutes.create env session st = (Ok (Replied 201 api), st1) ->
  RecruiterRoutes.onboarding env2 session b st1 = (Ok (Replied 200 api2), st2) ->
  exists did r,
    mustGetDid session = Ok did
    /\ Mongo.findOne (RecruiterRoutes.byDid did) (recruiters st2) = Some r
    /\ Recruiter.onboarded r = true
    /\ Recruiter.kycStatus r = Recruiter.KycPending
    /\ badgeVerified (Some r) = false
    /\ computeRecruiterRoleState (Some r) = pending
    /\ forall env' u out st3,
         syncRecruiterRoleFromRecruiterDoc env' session (Some u) st2
         = (Ok out, st3) ->
         exists refusal, requireRoleActive RecruiterRole out = Some refusal.
Proof.
  intros Hfresh H1 H2. revert H1.
  unfold RecruiterRoutes.create, tryCatch, bind, lift, query, writeChecked,
    await, ret.
  destruct (mustGetSession session) as [s|e] eqn:Ms; [|discriminate].
  destruct (s_did s) as [did|] eqn:Sd; [|discriminate].
  destruct (sessionDid_of_mustGetSession _ _ _ Ms Sd) as [Hsd Hne].
  destruct (rejects env "recruiters/Recruiter.findOne"); [discriminate|].
  destruct (Mongo.findOne (RecruiterRoutes.byDid did) (recruiters st))
    as [found|] eqn:F; [discriminate|].
  destruct (rejects env "recruiters/recruiter.save"); [discriminate|].
  destruct (createRecruiter _ st) as [s1|e1] eqn:C; [|discriminate].
  intros E; inversion E; subst api st1; clear E.
  unfold createRecruiter in C.
  destruct (String.eqb _ "") in C; [discriminate|].
  destruct (existsb _ (recruiters st)) in C; [discriminate|].
  inversion C; subst s1; clear C.
  set (fresh := RecruiterRoutes.newRecruiter env did (s_email s)) in *.
  revert H2.
  unfold RecruiterRoutes.onboarding, tryCatch, bind, lift, query, write,
    await, ret.
  rewrite Ms, Sd.
  destruct (negb (JS.truthy (ob_orgLegalName b))
            || negb (JS.truthy (ob_contactEmail b))); [discriminate|].
  destruct (rejects env2 "onboarding/Recruiter.findOne"); [discriminate|].
  simpl.
  rewrite (findOne_app_last (RecruiterRoutes.byDid did) (recruiters st) fresh F)
    by (unfold RecruiterRoutes.byDid; simpl; apply String.eqb_refl).
  destruct (rejects env2 "onboarding/recruiter.save"); [discriminate|].
  intros E; inversion E; subst api2 st2; clear E. simpl.
  assert (Hupd : Mongo.updateOne (byRecruiterId (newObjectId env))
                                 (RecruiterRoutes.submitted b)
                                 (recruiters st ++ [fresh])
                 = recruiters st ++ [RecruiterRoutes.submitted b fresh]).
  { apply updateOne_last.
    - intros x Hx. unfold byRecruiterId. apply String.eqb_neq.
      apply Hfresh. exact Hx.
    - unfold byRecruiterId. simpl. apply String.eqb_refl. }
  rewrite Hupd.
  assert (Hfound : Mongo.findOne (RecruiterRoutes.byDid did)
                                 (recruiters st
                                  ++ [RecruiterRoutes.submitted b fresh])
                   = Some (RecruiterRoutes.submitted b fresh)).
  { apply findOne_app_last; [exact F|].
    unfold RecruiterRoutes.byDid. simpl. apply String.eqb_refl. }
  exists did, (RecruiterRoutes.submitted b fresh).
  split; [unfold mustGetDid; rewrite Ms, Sd; reflexivity|].
  split; [exact Hfound|].
  do 4 (split; [reflexivity|]).
  intros env' u out st3 Hsync.
  apply syncRecruiter_shape in Hsync.
  destruct Hsync as [(e & Hr & _)|(Hr & _)]; [discriminate|].
  inversion Hr; subst out; clear Hr.
  rewrite (recruiterOfSession_by_did session _ did
             (RecruiterRoutes.submitted b fresh) Hsd Hne).
  - eexists. reflexivity.
  - simpl. rewrite Hupd. exact Hfound.
Qed.

Lemma self_service_leaves_the_role_pending_witness :
  let session := Some (mkSession (Some "did:pkh:eip155:80002:0x555")
                                 (Some "hr@initech.test") None None) in
  let created := snd (RecruiterRoutes.create Fixture.env session Fixture.store) in
  let body := mkOnboardingBody (Some "Initech") None (Some "hr@initech.test") in
  let submitted := snd (RecruiterRoutes.onboarding Fixture.env session body
                                                   created) in
  exists did r,
    mustGetDid session = Ok did
    /\ Mongo.findOne (RecruiterRoutes.byDid did) (recruiters submitted) = Some r
    /\ computeRecruiterRoleState (Some r) = pending.
Proof.
  destruct (self_service_leaves_the_role_pending
              Fixture.env
              (Some (mkSession (Some "did:pkh:eip155:80002:0x555")
                               (Some "hr@initech.test") None None))
              Fixture.store
              (toRecruiterApi
                 (RecruiterRoutes.newRecruiter Fixture.env
                                               "did:pkh:eip155:80002:0x555"
                                               (Some "hr@initech.test")))
              (snd (RecruiterRoutes.create
                      Fixture.env
                      (Some (mkSession (Some "did:pkh:eip155:80002:0x555")
                                       (Some "hr@initech.test") None None))
                      Fixture.store))
              Fixture.env
              (mkOnboardingBody (Some "Initech") None (Some "hr@initech.test"))
              (toRecruiterApi
                 (RecruiterRoutes.submitted
                    (mkOnboardingBody (Some "Initech") None
                                      (Some "hr@initech.test"))
                    (RecruiterRoutes.newRecruiter Fixture.env
                                                  "did:pkh:eip155:80002:0x555"
                                                  (Some "hr@initech.test"))))
              (snd (RecruiterRoutes.onboarding
                      Fixture.env
                      (Some (mkSession (Some "did:pkh:eip155:80002:0x555")
                                       (Some "hr@initech.test") None None))
                      (mkOnboardingBody (Some "Initech") None
                                        (Some "hr@initech.test"))
                      (snd (RecruiterRoutes.create
                              Fixture.env
                              (Some (mkSession (Some "did:pkh:eip155:80002:0x555")
                                               (Some "hr@initech.test") None None))
                              Fixture.store)))))
    as (did & r & H1 & H2 & _ & _ & _ & H3 & _).
  - simpl. intros r [<-|[<-|[]]]; discriminate.
  - reflexivity.
  - reflexivity.
  - exists did, r. auto.
Defined.
